(** * pydantic schema compiler: a shallow embedding of
      [pydantic/errors.py], [pydantic/_internal/_typing_extra.py] and
      [pydantic/_internal/_generate_schema.py].

    Python objects are a small datatype of descriptors, classes are looked up
    by name in a class table, exceptions are the [Raise] case of an outcome
    monad, and the recursion of [GenerateSchema.generate_schema] through the
    builders is bounded by the interpreter's recursion limit. *)

From Stdlib Require Import String List ZArith Bool Arith Lia DecimalString.
Set Warnings "-register-all".
Import ListNotations.
Open Scope string_scope.

(* ================================================================== *)
(** ** errors.py *)

Module Errors.

(** [PydanticErrorCodes], line 9 of errors.py, in the order written there. *)
Definition PydanticErrorCodes : list string :=
  [ "class-not-fully-defined"; "custom-json-schema"; "decorator-missing-field";
    "discriminator-no-field"; "discriminator-alias-type";
    "discriminator-needs-literal"; "discriminator-alias";
    "discriminator-validator"; "callable-discriminator-no-tag";
    "typed-dict-version"; "model-field-overridden";
    "model-field-missing-annotation"; "config-both"; "removed-kwargs";
    "invalid-for-json-schema"; "json-schema-already-used";
    "base-model-instantiated"; "undefined-annotation";
    "schema-for-unknown-type"; "import-error";
    "create-model-field-definitions"; "create-model-config-base";
    "validator-no-fields"; "validator-invalid-fields";
    "validator-instance-method"; "root-validator-pre-skip";
    "model-serializer-instance-method"; "validator-field-config-info";
    "validator-v1-signature"; "validator-signature";
    "field-serializer-signature"; "model-serializer-signature";
    "multiple-field-serializers"; "invalid_annotated_type";
    "type-adapter-config-unused"; "root-model-extra";
    "unevaluable-type-annotation"; "dataclass-init-false-extra-allow";
    "clashing-init-and-init-var"; "model-config-invalid-field-name";
    "with-config-on-model"; "dataclass-on-model" ].

Definition is_error_code (code : string) : bool :=
  existsb (String.eqb code) PydanticErrorCodes.

(** The exceptions the compiler can end with.  The first five are Python's
    own; the others are the classes of errors.py, each carrying what its
    [__init__] stores. *)
Inductive exn : Type :=
| NameError (name : string)
| AttributeError (attr : string)
| TypeError (msg : string)
| RecursionError
| UserException (tag : string)
| PydanticUserError (message : string) (code : option string)
| PydanticUndefinedAnnotation (name message : string)
| PydanticImportError (message : string)
| PydanticSchemaGenerationError (message : string)
| PydanticInvalidForJsonSchema (message : string).

(** [PydanticErrorMixin.code] as each [__init__] sets it. *)
Definition code (e : exn) : option string :=
  match e with
  | PydanticUserError _ c => c
  | PydanticUndefinedAnnotation _ _ => Some "undefined-annotation"
  | PydanticImportError _ => Some "import-error"
  | PydanticSchemaGenerationError _ => Some "schema-for-unknown-type"
  | PydanticInvalidForJsonSchema _ => Some "invalid-for-json-schema"
  | _ => None
  end.

Definition message (e : exn) : string :=
  match e with
  | PydanticUserError m _ => m
  | PydanticUndefinedAnnotation _ m => m
  | PydanticImportError m => m
  | PydanticSchemaGenerationError m => m
  | PydanticInvalidForJsonSchema m => m
  | NameError n => n
  | AttributeError a => a
  | TypeError m => m
  | RecursionError => "maximum recursion depth exceeded"
  | UserException t => t
  end.

(** The class hierarchy: [isinstance(e, PydanticUserError)] and so on. *)
Definition is_PydanticUserError (e : exn) : bool :=
  match e with
  | PydanticUserError _ _ | PydanticSchemaGenerationError _
  | PydanticInvalidForJsonSchema _ => true
  | _ => false
  end.

Definition is_NameError (e : exn) : bool :=
  match e with
  | NameError _ | PydanticUndefinedAnnotation _ _ => true
  | _ => false
  end.

Definition is_TypeError (e : exn) : bool :=
  match e with
  | TypeError _ => true
  | _ => is_PydanticUserError e
  end.

Definition is_PydanticUndefinedAnnotation (e : exn) : bool :=
  match e with PydanticUndefinedAnnotation _ _ => true | _ => false end.

Definition is_PydanticSchemaGenerationError (e : exn) : bool :=
  match e with PydanticSchemaGenerationError _ => true | _ => false end.

Definition newline : string := String (Ascii.ascii_of_nat 10) EmptyString.

(** [PydanticErrorMixin.__str__]; [docs_url] is [DEV_ERROR_DOCS_URL], which
    the module builds from [version_short()]. *)
Definition __str__ (docs_url : string) (e : exn) : string :=
  match code e with
  | None => message e
  | Some c =>
      message e ++ newline ++ newline ++ "For further information visit "
        ++ docs_url ++ c
  end.

End Errors.
Export Errors.

(* ================================================================== *)
(** ** Outcomes: a returned value or a raised exception *)

Inductive outcome (A : Type) : Type :=
| Ret (a : A)
| Raise (e : exn).
Arguments Ret {A} a.
Arguments Raise {A} e.

Definition bind {A B : Type} (m : outcome A) (k : A -> outcome B) : outcome B :=
  match m with
  | Ret a => k a
  | Raise e => Raise e
  end.

Notation "x <- m ;; k" := (bind m (fun x => k))
  (at level 61, m at next level, right associativity).

(** A [for] loop that calls [f] on each element and appends the result. *)
Fixpoint mapM {A B : Type} (f : A -> outcome B) (l : list A) : outcome (list B) :=
  match l with
  | [] => Ret []
  | a :: r => b <- f a ;; bs <- mapM f r ;; Ret (b :: bs)
  end.

Definition returned {A : Type} (m : outcome A) : bool :=
  match m with Ret _ => true | Raise _ => false end.

(* ================================================================== *)
(** ** Python objects the compiler is handed *)

(** A type descriptor or a plain value.  A class is named and looked up in
    the class table, so that class graphs may be cyclic.  [PyAlias] is a
    subscripted typing form such as [Tuple[int, str]], [Literal[1, 2]],
    [Annotated[int, m]] or [Union[int, str]]: [get_origin] and [get_args]
    read its two parts, and it is an instance of no class.  [PyInstance] is
    an instance of a user-defined class (a metadata item, say); its
    attributes are those of its class. *)
Inductive pyobj : Type :=
| PyClass (name : string)
| PyStr (s : string)
| PyInt (z : Z)
| PyNone
| PyEllipsis
| PyInstance (cls : string) (id : nat)
| PyForwardRef (arg : string)
| PyTypeVar (name : string)
| PyTypeAliasType (name : string)
| PyAlias (origin : string) (args : list pyobj).

Definition get_args (tp : pyobj) : list pyobj :=
  match tp with
  | PyAlias _ args => args
  | _ => []
  end.

Definition get_origin (tp : pyobj) : option string :=
  match tp with
  | PyAlias origin _ => Some origin
  | _ => None
  end.

(** [isinstance(obj, type)], [isinstance(obj, str)] and the typing classes
    that [match_type] tests for. *)
Definition isinstance_type (obj : pyobj) : bool :=
  match obj with PyClass _ => true | _ => false end.

Definition isinstance_str (obj : pyobj) : bool :=
  match obj with PyStr _ => true | _ => false end.

Definition isinstance__AnnotatedType (obj : pyobj) : bool :=
  match obj with PyAlias origin _ => String.eqb origin "Annotated" | _ => false end.

Definition isinstance_ForwardRef (obj : pyobj) : bool :=
  match obj with PyForwardRef _ => true | _ => false end.

Definition isinstance_TypeVar (obj : pyobj) : bool :=
  match obj with PyTypeVar _ => true | _ => false end.

Definition isinstance_TypeAliasType (obj : pyobj) : bool :=
  match obj with PyTypeAliasType _ => true | _ => false end.

Definition is_Ellipsis (obj : pyobj) : bool :=
  match obj with PyEllipsis => true | _ => false end.

Definition join (sep : string) (l : list string) : string :=
  match l with
  | [] => ""
  | s :: r => fold_left (fun acc x => acc ++ sep ++ x) r s
  end.

(** [repr] of a string and of a list of strings, as f-strings print them. *)
Definition repr_str (s : string) : string := "'" ++ s ++ "'".

Definition repr_list (l : list string) : string :=
  "[" ++ join ", " (map repr_str l) ++ "]".

(** How objects print.  [as_type] tells the two printers apart that typing
    uses: with it, an argument of a subscripted form is printed as
    [typing._type_repr] does (a class by its name, the ellipsis as [...]);
    without it, the object is printed by its [repr] (a class as
    [<class 'name'>], the ellipsis as [Ellipsis]).  A subscripted form
    prints [typing.], its name and its arguments as types; [Annotated]
    prints its metadata by [repr], and a [Union] of two arguments of which
    one is [NoneType] prints as [Optional].  Addresses and the module
    prefixes of user-defined classes are left out. *)
Definition is_NoneType (obj : pyobj) : bool :=
  match obj with PyClass name => String.eqb name "NoneType" | _ => false end.

(** [Union[X, None]], with the arguments already printed. *)
Definition print_Optional (origin : string) (args : list pyobj)
    (printed : list string) : option string :=
  if String.eqb origin "Union" then
    match args, printed with
    | [arg0; arg1], [printed0; printed1] =>
        if is_NoneType arg0 then Some ("typing.Optional[" ++ printed1 ++ "]")
        else if is_NoneType arg1 then Some ("typing.Optional[" ++ printed0 ++ "]")
        else None
    | _, _ => None
    end
  else None.

Fixpoint print (as_type : bool) (obj : pyobj) : string :=
  match obj with
  | PyClass name => if as_type then name else "<class '" ++ name ++ "'>"
  | PyStr s => repr_str s
  | PyInt z => DecimalString.NilZero.string_of_int (Z.to_int z)
  | PyNone => "None"
  | PyEllipsis => if as_type then "..." else "Ellipsis"
  | PyInstance cls id => "<" ++ cls ++ " object>"
  | PyForwardRef arg => "ForwardRef(" ++ repr_str arg ++ ")"
  | PyTypeVar name => "~" ++ name
  | PyTypeAliasType name => name
  | PyAlias origin args =>
      if String.eqb origin "Annotated" then
        "typing.Annotated["
          ++ join ", " (match args with
                        | [] => []
                        | arg0 :: metadata =>
                            print true arg0 :: map (print false) metadata
                        end)
          ++ "]"
      else
        let printed := map (print true) args in
        match print_Optional origin args printed with
        | Some text => text
        | None => "typing." ++ origin ++ "[" ++ join ", " printed ++ "]"
        end
  end.

Definition repr (obj : pyobj) : string := print false obj.

(** What [{obj}] prints inside an f-string: [str(obj)], which is the string
    itself for a string and [repr(obj)] for every other kind. *)
Definition format (obj : pyobj) : string :=
  match obj with
  | PyStr s => s
  | _ => repr obj
  end.

(* ================================================================== *)
(** ** Decorators and core schemas *)

Inductive FieldValidatorModes : Type := before | after | wrap | plain.

Inductive InfoArg : Type := no_info | with_info.

(** [Decorator.info]: the fields a decorator was declared for, its
    [check_fields] ([None] is falsy) and its mode. *)
Record DecoratorInfo : Type := {
  fields : list string;
  check_fields : option bool;
  mode : FieldValidatorModes
}.

(** A [Decorator]: the attribute name it is bound to in the class body, the
    function it wraps (by identity), how the function is called, and its
    info. *)
Record Decorator : Type := {
  cls_var_name : string;
  func : string;
  info_arg : InfoArg;
  info : DecoratorInfo
}.

(** What iterating each attribute of [cls.__pydantic_decorators__] yields. *)
Record DecoratorInfos : Type := {
  field_validators : list Decorator;
  field_serializers : list Decorator;
  model_validators : list Decorator;
  model_serializers : list Decorator
}.

Definition ConfigDict : Type := list (string * string).
Definition ComputedFieldInfo : Type := string.

(** The values of [pydantic_core.core_schema]: one constructor per builder
    function the compiler calls with arguments the function accepts, holding
    those arguments.  [NoneValue] is Python's [None] where a schema is
    expected (the result of a probe that found nothing, or of a function
    whose body is [pass]); [str_value] is a [str] where a schema is expected
    (what [dict.update] files when it is handed a list of dictionaries);
    [custom_schema] is any other schema a hook may hand back. *)
Inductive CoreSchema : Type :=
| NoneValue
| any_schema
| none_schema
| str_schema
| bool_schema
| int_schema
| float_schema
| bytes_schema
| list_schema (items_schema : CoreSchema)
| set_schema (items_schema : CoreSchema)
| frozenset_schema (items_schema : CoreSchema)
| generator_schema (items_schema : CoreSchema)
| dict_schema (keys_schema values_schema : CoreSchema)
| tuple_variable_schema (items_schema : CoreSchema)
| tuple_positional_schema (items_schema : list CoreSchema)
| union_schema (choices : list CoreSchema)
| literal_schema (expected : list pyobj)
| is_subclass_schema (cls : CoreSchema)
| definition_reference_schema (schema_ref : string)
| no_info_before_validator_function (function : string) (schema : CoreSchema)
| no_info_after_validator_function (function : string) (schema : CoreSchema)
| no_info_plain_validator_function (function : string)
| no_info_wrap_validator_function (function : string) (schema : CoreSchema)
| with_info_before_validator_function (function : string) (schema : CoreSchema)
    (field_name : option string)
| with_info_after_validator_function (function : string) (schema : CoreSchema)
    (field_name : option string)
| with_info_plain_validator_function (function : string)
    (field_name : option string)
| with_info_wrap_validator_function (function : string) (schema : CoreSchema)
    (field_name : option string)
| str_value (s : string)
| custom_schema (tag : string).

(** [schema is not None]. *)
Definition is_not_None (schema : CoreSchema) : bool :=
  match schema with NoneValue => false | _ => true end.

(* ================================================================== *)
(** ** Insertion-ordered dictionaries *)

Definition dict (V : Type) : Type := list (string * V).

Fixpoint dict_get {V : Type} (d : dict V) (k : string) : option V :=
  match d with
  | [] => None
  | (k', v) :: r => if String.eqb k' k then Some v else dict_get r k
  end.

(** [d[k] = v]: an existing key keeps its place. *)
Fixpoint dict_set {V : Type} (d : dict V) (k : string) (v : V) : dict V :=
  match d with
  | [] => [(k, v)]
  | (k', v') :: r =>
      if String.eqb k' k then (k', v) :: r else (k', v') :: dict_set r k v
  end.

(** [d.update(other)]. *)
Definition dict_update {V : Type} (d other : dict V) : dict V :=
  fold_left (fun acc kv => dict_set acc (fst kv) (snd kv)) other d.

Definition keys {V : Type} (d : dict V) : list string := map fst d.

(* ================================================================== *)
(** ** Classes *)

(** The first positional argument of a [__get_pydantic_core_schema__] call:
    [generate_schema] passes the source type, [_annotated_schema] passes the
    schema built so far. *)
Inductive HookArg : Type :=
| SourceType (source : pyobj)
| SchemaSoFar (schema : CoreSchema).

(** The second argument is the generator itself, through which a hook may
    call back into [generate_schema(obj, from_dunder_get_core_schema)]. *)
Definition Handler : Type := pyobj -> bool -> outcome CoreSchema.

Definition GetCoreSchemaFunction : Type := HookArg -> Handler -> outcome CoreSchema.

Record FieldInfo : Type := {
  annotation : pyobj;
  title : option string
}.

(** What [getattr] finds on a class, own or inherited; [None] is an absent
    attribute ([hasattr] is false).  [__pydantic_core_schema__] may be
    present and hold [NoneValue]. *)
Record class_def : Type := {
  __mro__ : list string;
  __module__ : string;
  __get_pydantic_core_schema__ : option GetCoreSchemaFunction;
  __pydantic_core_schema__ : option CoreSchema;
  __pydantic_fields__ : option (dict FieldInfo);
  __pydantic_computed_fields__ : option (dict ComputedFieldInfo);
  __pydantic_decorators__ : option DecoratorInfos;
  __annotations__ : option (dict pyobj);
  __required_keys__ : option (list string);
  __total__ : option bool
}.

Definition class_table : Type := string -> class_def.

(** A class that only has its method resolution order. *)
Definition plain_class (mro : list string) : class_def :=
  {| __mro__ := mro; __module__ := "builtins";
     __get_pydantic_core_schema__ := None; __pydantic_core_schema__ := None;
     __pydantic_fields__ := None; __pydantic_computed_fields__ := None;
     __pydantic_decorators__ := None; __annotations__ := None;
     __required_keys__ := None; __total__ := None |}.

(** The classes that are not user-defined: [object], [bool] below [int],
    and any other name as a direct subclass of [object]. *)
Definition builtins : class_table := fun name =>
  if String.eqb name "object" then plain_class ["object"]
  else if String.eqb name "bool" then plain_class ["bool"; "int"; "object"]
  else plain_class [name; "object"].

Definition define (classes : class_table) (name : string) (c : class_def)
  : class_table :=
  fun n => if String.eqb n name then c else classes n.

(** [getattr(obj, attr)] for the class-level attributes above: a class
    answers for itself, an instance through its class, and nothing else
    carries them. *)
Definition getattr {A : Type} (classes : class_table)
    (attr : class_def -> option A) (obj : pyobj) : option A :=
  match obj with
  | PyClass name => attr (classes name)
  | PyInstance cls _ => attr (classes cls)
  | _ => None
  end.

(** [issubclass(cls, bases)] for a tuple of classes. *)
Definition issubclass (classes : class_table) (cls : string)
    (bases : list string) : bool :=
  existsb (fun b => existsb (String.eqb b) (__mro__ (classes cls))) bases.

(* ================================================================== *)
(** ** The module's global names *)

(** A class named in a test of [match_type]: a global name of the module,
    or the expression [None.__class__]. *)
Inductive class_expr : Type :=
| Global (name : string)
| NoneClass.

Definition builtin_names : list string :=
  ["list"; "tuple"; "set"; "frozenset"; "dict"; "bool"; "int"; "float";
   "str"; "bytes"; "object"; "type"].

(** Names the import statements of _generate_schema.py bind at run time,
    of those [match_type] mentions. *)
Definition imported_names : list string :=
  ["Enum"; "TypedDict"; "Callable"; "Any"; "ForwardRef"; "TypeVar";
   "TypeAliasType"].

(** Names imported under [if TYPE_CHECKING:] only (lines 42 to 48). *)
Definition type_checking_names : list string :=
  ["ComputedFieldInfo"; "FieldInfo"; "BaseModel"; "Discriminator";
   "FieldValidatorModes"; "StandardDataclass"; "GetJsonSchemaFunction"].

Definition mem (name : string) (l : list string) : bool :=
  existsb (String.eqb name) l.

(** Evaluating a global name: any other name raises [NameError]. *)
Definition lookup_global (TYPE_CHECKING : bool) (name : string) : outcome string :=
  if mem name builtin_names || mem name imported_names
     || (TYPE_CHECKING && mem name type_checking_names)
  then Ret name
  else Raise (NameError name).

Definition eval_class_expr (TYPE_CHECKING : bool) (e : class_expr) : outcome string :=
  match e with
  | Global name => lookup_global TYPE_CHECKING name
  | NoneClass => Ret "NoneType"
  end.

(* ================================================================== *)
(** ** _generate_schema.py: class [GenerateSchema] *)

(** One test of the [if] chain of [match_type] and what is returned when it
    holds. *)
Inductive test : Type :=
| TypeAndSubclass (bases : list class_expr)
| Isinstance (cls : pyobj -> bool).

Inductive action : Type :=
| Return (schema : CoreSchema)
| Call (method : string).

(** Lines 334 to 440, in order.  The tests of lines 335 to 349 stand under
    [if isinstance(obj, type):], the later ones spell [isinstance(obj, type)
    and issubclass(obj, ...)] out; both are [TypeAndSubclass]. *)
Definition match_type_cases : list (test * action) :=
  [ (TypeAndSubclass [Global "BaseModel"], Call "_model_schema");
    (TypeAndSubclass [Global "list"; Global "tuple"; Global "set"; Global "frozenset"],
       Return (list_schema any_schema));
    (TypeAndSubclass [Global "dict"], Return (dict_schema any_schema any_schema));
    (TypeAndSubclass [Global "bool"], Return bool_schema);
    (TypeAndSubclass [Global "int"], Return int_schema);
    (TypeAndSubclass [Global "float"], Return float_schema);
    (TypeAndSubclass [Global "str"], Return str_schema);
    (TypeAndSubclass [Global "bytes"], Return bytes_schema);
    (Isinstance isinstance__AnnotatedType, Call "_annotated_schema");
    (Isinstance isinstance_ForwardRef, Call "_forward_ref_schema");
    (Isinstance isinstance_TypeVar, Call "_type_var_schema");
    (Isinstance isinstance_TypeAliasType, Call "_type_alias_schema");
    (TypeAndSubclass [Global "Enum"], Call "_enum_schema");
    (TypeAndSubclass [Global "list"; Global "tuple"; Global "set"; Global "frozenset"],
       Call "_sequence_schema");
    (TypeAndSubclass [Global "dict"], Call "_dict_schema");
    (TypeAndSubclass [Global "int"; Global "float"; Global "str"; Global "bytes"],
       Call "_primitive_schema");
    (TypeAndSubclass [Global "bool"], Return bool_schema);
    (TypeAndSubclass [Global "datetime"; Global "date"; Global "time"; Global "timedelta"],
       Call "_datetime_schema");
    (TypeAndSubclass [Global "UUID"], Call "_uuid_schema");
    (TypeAndSubclass [Global "Path"], Call "_path_schema");
    (TypeAndSubclass [Global "IPv4Address"; Global "IPv4Interface"; Global "IPv4Network";
                      Global "IPv6Address"; Global "IPv6Interface"; Global "IPv6Network"],
       Call "_ip_schema");
    (TypeAndSubclass [Global "Decimal"], Call "_decimal_schema");
    (TypeAndSubclass [Global "Pattern"], Call "_pattern_schema");
    (TypeAndSubclass [Global "Color"], Call "_color_schema");
    (TypeAndSubclass [Global "NameEmail"], Call "_name_email_schema");
    (TypeAndSubclass [Global "SecretStr"; Global "SecretBytes"], Call "_secret_schema");
    (TypeAndSubclass [Global "DirectoryPath"; Global "FilePath"], Call "_path_schema");
    (TypeAndSubclass [Global "RootModel"], Call "_root_model_schema");
    (TypeAndSubclass [Global "TypedDict"], Call "_typed_dict_schema");
    (TypeAndSubclass [Global "tuple"], Call "_tuple_schema");
    (TypeAndSubclass [Global "list"], Call "_list_schema");
    (TypeAndSubclass [Global "set"; Global "frozenset"], Call "_set_schema");
    (TypeAndSubclass [Global "dict"], Call "_dict_schema");
    (TypeAndSubclass [Global "Callable"], Call "_callable_schema");
    (TypeAndSubclass [Global "Generic"], Call "_generic_schema");
    (TypeAndSubclass [Global "Any"], Return any_schema);
    (TypeAndSubclass [NoneClass], Return none_schema);
    (TypeAndSubclass [Global "object"], Return any_schema) ].

(** What [_model_schema] gathers before it compiles the fields. *)
Record collected : Type := {
  c_fields : dict FieldInfo;
  c_computed_fields : dict ComputedFieldInfo;
  c_validators : list Decorator;
  c_serializers : list Decorator;
  c_model_validators : list Decorator;
  c_model_serializers : list Decorator
}.

Definition nothing_collected : collected :=
  {| c_fields := []; c_computed_fields := []; c_validators := [];
     c_serializers := []; c_model_validators := []; c_model_serializers := [] |}.

Definition update_fields (acc : collected) (f : dict FieldInfo) : collected :=
  {| c_fields := dict_update (c_fields acc) f;
     c_computed_fields := c_computed_fields acc;
     c_validators := c_validators acc; c_serializers := c_serializers acc;
     c_model_validators := c_model_validators acc;
     c_model_serializers := c_model_serializers acc |}.

Definition update_computed_fields (acc : collected)
    (f : dict ComputedFieldInfo) : collected :=
  {| c_fields := c_fields acc;
     c_computed_fields := dict_update (c_computed_fields acc) f;
     c_validators := c_validators acc; c_serializers := c_serializers acc;
     c_model_validators := c_model_validators acc;
     c_model_serializers := c_model_serializers acc |}.

(** The four [extend] calls on one class's decorators. *)
Definition extend_decorators (acc : collected) (d : DecoratorInfos) : collected :=
  {| c_fields := c_fields acc;
     c_computed_fields := c_computed_fields acc;
     c_validators := c_validators acc ++ field_validators d;
     c_serializers := c_serializers acc ++ field_serializers d;
     c_model_validators := c_model_validators acc ++ model_validators d;
     c_model_serializers := c_model_serializers acc ++ model_serializers d |}.

(** *** Calls that [pydantic_core.core_schema] does not accept

    Three calls of the compiler do not fit the signature of the function
    they name, and raise [TypeError] once their arguments are evaluated:
    [model_schema(cls, schema, *, custom_init, root_model, post_init,
    revalidate_instances, strict, frozen, extra_behavior, config, ref,
    metadata, serialization)] has no keyword [computed_fields],
    [validators], [serializers], [model_validators] or [model_serializers];
    [typed_dict_schema(fields, *, ...)] has no keyword [required_keys];
    [call_schema(arguments, function, *, function_name, return_schema, ref,
    metadata, serialization)] has two required parameters and no keyword
    [parameters]. *)
Definition unexpected_keyword (function keyword : string) : exn :=
  TypeError (function ++ "() got an unexpected keyword argument '" ++ keyword ++ "'").

(** The call of lines 266 to 275. *)
Definition model_schema (cls : string) (schema : dict CoreSchema)
    (computed_fields : dict ComputedFieldInfo)
    (validators serializers model_validators model_serializers : list Decorator)
    (config : ConfigDict) : outcome CoreSchema :=
  Raise (unexpected_keyword "model_schema" "computed_fields").

(** The call of lines 574 to 578. *)
Definition typed_dict_schema (td_fields : dict CoreSchema)
    (required_keys : list string) (total : bool) : outcome CoreSchema :=
  Raise (unexpected_keyword "typed_dict_schema" "required_keys").

(** The calls of lines 682 and 690: without arguments, and with
    [parameters] and [return_schema]. *)
Definition call_schema (arguments : option (list CoreSchema * CoreSchema))
  : outcome CoreSchema :=
  match arguments with
  | None =>
      Raise (TypeError
        "call_schema() missing 2 required positional arguments: 'arguments' and 'function'")
  | Some _ => Raise (unexpected_keyword "call_schema" "parameters")
  end.

Section Compiler.

(** The classes in existence, whether the module was loaded with
    [TYPE_CHECKING] true (at run time it is false), and the configuration on
    top of [self._config_wrapper_stack]. *)
Variable classes : class_table.
Variable TYPE_CHECKING : bool.
Variable config_dict : ConfigDict.

Definition eval_test (t : test) (obj : pyobj) : outcome bool :=
  match t with
  | Isinstance cls => Ret (cls obj)
  | TypeAndSubclass bases =>
      match obj with
      | PyClass name =>
          bs <- mapM (eval_class_expr TYPE_CHECKING) bases ;;
          Ret (issubclass classes name bs)
      | _ => Ret false
      end
  end.

(** The body of the loop of lines 240 to 249 for one base class. *)
Definition collect_base (acc : collected) (base : string) : collected :=
  let acc :=
    match __pydantic_fields__ (classes base) with
    | Some f => update_fields acc f
    | None => acc
    end in
  let acc :=
    match __pydantic_computed_fields__ (classes base) with
    | Some f => update_computed_fields acc f
    | None => acc
    end in
  match __pydantic_decorators__ (classes base) with
  | Some d => extend_decorators acc d
  | None => acc
  end.

Definition attribute {A : Type} (name : string) (a : option A) : outcome A :=
  match a with
  | Some v => Ret v
  | None => Raise (AttributeError name)
  end.

(** Lines 232 to 257: the bases in [reversed(cls.__mro__[1:])], then the
    class itself, whose three attributes are read without [hasattr]. *)
Definition collect (cls : string) : outcome collected :=
  let acc := fold_left collect_base (rev (tl (__mro__ (classes cls)))) nothing_collected in
  f <- attribute "__pydantic_fields__" (__pydantic_fields__ (classes cls)) ;;
  let acc := update_fields acc f in
  cf <- attribute "__pydantic_computed_fields__"
          (__pydantic_computed_fields__ (classes cls)) ;;
  let acc := update_computed_fields acc cf in
  d <- attribute "__pydantic_decorators__" (__pydantic_decorators__ (classes cls)) ;;
  Ret (extend_decorators acc d).

Section Builders.

(** [self.generate_schema], as the builders call it back. *)
Variable generate_schema : Handler.

(** Lines 260 to 263. *)
Fixpoint compile_fields (fs : dict FieldInfo) (field_schemas : dict CoreSchema)
  : outcome (dict CoreSchema) :=
  match fs with
  | [] => Ret field_schemas
  | (field_name, field_info) :: r =>
      field_schema <- generate_schema (annotation field_info) true ;;
      compile_fields r (dict_set field_schemas field_name field_schema)
  end.

(** Lines 231 to 277.  [config_dict] is what line 231 reads from the top of
    [self._config_wrapper_stack], whose class is declared in _config.py. *)
Definition _model_schema (cls : string) : outcome CoreSchema :=
  c <- collect cls ;;
  field_schemas <- compile_fields (c_fields c) [] ;;
  model_schema cls field_schemas (c_computed_fields c) (c_validators c)
    (c_serializers c) (c_model_validators c) (c_model_serializers c)
    config_dict.

Definition _generate_schema_from_property (obj source : pyobj) : outcome CoreSchema :=
  let from_attribute :=
    match getattr classes __pydantic_core_schema__ obj with
    | Some schema => if is_not_None schema then Ret schema else Ret NoneValue
    | None => Ret NoneValue
    end in
  match getattr classes __get_pydantic_core_schema__ obj with
  | Some f =>
      schema <- f (SourceType source) generate_schema ;;
      if is_not_None schema then Ret schema else from_attribute
  | None => from_attribute
  end.

Definition _union_schema (union_type : pyobj) : outcome CoreSchema :=
  match get_args union_type with
  | [] => Ret any_schema
  | args =>
      schemas <- mapM (fun arg => generate_schema arg true) args ;;
      Ret (union_schema schemas)
  end.

Definition _tuple_schema (tuple_type : pyobj) : outcome CoreSchema :=
  match get_args tuple_type with
  | [] => Ret (tuple_variable_schema any_schema)
  | args =>
      if Nat.eqb (List.length args) 2 && is_Ellipsis (nth 1 args PyNone) then
        item_schema <- generate_schema (nth 0 args PyNone) true ;;
        Ret (tuple_variable_schema item_schema)
      else
        item_schemas <- mapM (fun arg => generate_schema arg true) args ;;
        Ret (tuple_positional_schema item_schemas)
  end.

Definition _sequence_schema (sequence_type : pyobj) : outcome CoreSchema :=
  match get_args sequence_type with
  | [] => Ret (list_schema any_schema)
  | arg0 :: _ =>
      item_schema <- generate_schema arg0 true ;;
      Ret (list_schema item_schema)
  end.

(** Lines 680 to 690.  The loop runs over whatever [get_args] gives, the
    last argument apart: for [Callable[..., bool]] that is the ellipsis, and
    [bool] is compiled as the return type. *)
Definition _callable_schema (function : pyobj) : outcome CoreSchema :=
  match get_args function with
  | [] => call_schema None
  | args =>
      parameters <- mapM (fun arg => generate_schema arg true) (removelast args) ;;
      return_schema <- generate_schema (last args PyNone) true ;;
      call_schema (Some (parameters, return_schema))
  end.

(** One round of the loop of lines 701 to 705. *)
Definition apply_metadata (base_schema : CoreSchema) (meta : pyobj)
  : outcome CoreSchema :=
  match getattr classes __get_pydantic_core_schema__ meta with
  | Some f => f (SchemaSoFar base_schema) generate_schema
  | None =>
      match getattr classes __pydantic_core_schema__ meta with
      | Some schema => Ret schema
      | None => Ret base_schema
      end
  end.

Fixpoint apply_all_metadata (base_schema : CoreSchema) (metadata : list pyobj)
  : outcome CoreSchema :=
  match metadata with
  | [] => Ret base_schema
  | meta :: r =>
      base_schema <- apply_metadata base_schema meta ;;
      apply_all_metadata base_schema r
  end.

Definition _annotated_schema (annotated_type : pyobj) : outcome CoreSchema :=
  match get_args annotated_type with
  | [] => Ret any_schema
  | arg0 :: metadata =>
      base_schema <- generate_schema arg0 true ;;
      apply_all_metadata base_schema metadata
  end.

(** Lines 532 to 545.  [isinstance_Literal] is what the interpreter answers
    to [isinstance(arg, Literal)]: [Literal] is a special form of typing, no
    class of this repository. *)
Section LiteralSchema.

Variable isinstance_Literal : pyobj -> outcome bool.

Fixpoint literal_values (args values : list pyobj) : outcome (list pyobj) :=
  match args with
  | [] => Ret values
  | arg :: r =>
      nested <- isinstance_Literal arg ;;
      literal_values r (if nested then values ++ get_args arg else values ++ [arg])
  end.

Definition _literal_schema (literal_type : pyobj) : outcome CoreSchema :=
  match get_args literal_type with
  | [] => Ret any_schema
  | args =>
      values <- literal_values args [] ;;
      Ret (literal_schema values)
  end.

End LiteralSchema.

(** Lines 570 to 572. *)
Fixpoint compile_annotations (annotations : dict pyobj) (td_fields : dict CoreSchema)
  : outcome (dict CoreSchema) :=
  match annotations with
  | [] => Ret td_fields
  | (field_name, field_type) :: r =>
      field_schema <- generate_schema field_type true ;;
      compile_annotations r (dict_set td_fields field_name field_schema)
  end.

(** Lines 563 to 578; [_SUPPORTS_TYPEDDICT] is [sys.version_info >= (3, 12)]
    (line 49). *)
Definition _typed_dict_schema (_SUPPORTS_TYPEDDICT : bool)
    (typed_dict_cls origin : string) : outcome CoreSchema :=
  if negb _SUPPORTS_TYPEDDICT && String.eqb (__module__ (classes origin)) "typing" then
    Raise (PydanticUserError
      "Please use `typing_extensions.TypedDict` instead of `typing.TypedDict` on Python < 3.12."
      (Some "typing-typeddict"))
  else
    annotations <- attribute "__annotations__" (__annotations__ (classes typed_dict_cls)) ;;
    td_fields <- compile_annotations annotations [] ;;
    typed_dict_schema td_fields
      (match __required_keys__ (classes typed_dict_cls) with
       | Some ks => ks | None => [] end)
      (match __total__ (classes typed_dict_cls) with
       | Some t => t | None => true end).

(** [self.<method>(obj)] as [match_type] calls it.  The class defines the
    six builders listed; [_typed_dict_schema] takes two arguments and is
    called with one; every other name is no attribute of the instance, whose
    [__slots__] (line 157) admit none to be added. *)
Definition call_method (method : string) (obj : pyobj) : outcome CoreSchema :=
  if String.eqb method "_model_schema" then
    match obj with
    | PyClass cls => _model_schema cls
    | _ => Raise (AttributeError "__mro__")
    end
  else if String.eqb method "_annotated_schema" then _annotated_schema obj
  else if String.eqb method "_sequence_schema" then _sequence_schema obj
  else if String.eqb method "_tuple_schema" then _tuple_schema obj
  else if String.eqb method "_callable_schema" then _callable_schema obj
  else if String.eqb method "_typed_dict_schema" then
    Raise (TypeError "_typed_dict_schema() missing 1 required positional argument: 'origin'")
  else Raise (AttributeError method).

Definition perform (a : action) (obj : pyobj) : outcome CoreSchema :=
  match a with
  | Return schema => Ret schema
  | Call method => call_method method obj
  end.

(** The [if] chain: the first test that holds decides; line 442 when none
    does. *)
Fixpoint first_match (cases : list (test * action)) (obj : pyobj)
  : outcome CoreSchema :=
  match cases with
  | [] => Raise (PydanticSchemaGenerationError
                   ("Unable to generate schema for " ++ format obj))
  | (t, a) :: r =>
      holds <- eval_test t obj ;;
      if holds then perform a obj else first_match r obj
  end.

Definition match_type (obj : pyobj) : outcome CoreSchema :=
  first_match match_type_cases obj.

(** Lines 202 to 227: what [generate_schema] does once the hooks have
    yielded nothing. *)
Definition generate_schema_structural (obj : pyobj) : outcome CoreSchema :=
  if isinstance_str obj then Ret str_schema
  else
    match obj with
    | PyClass name =>
        if String.eqb name "str" then Ret str_schema
        else if String.eqb name "bool" then Ret bool_schema
        else if String.eqb name "int" then Ret int_schema
        else if String.eqb name "float" then Ret float_schema
        else if String.eqb name "bytes" then Ret bytes_schema
        else if String.eqb name "list" then Ret (list_schema any_schema)
        else if String.eqb name "dict" then Ret (dict_schema any_schema any_schema)
        else if String.eqb name "set" then Ret (set_schema any_schema)
        else if String.eqb name "frozenset" then Ret (frozenset_schema any_schema)
        else if String.eqb name "tuple" then Ret (tuple_variable_schema any_schema)
        else match_type obj
    | _ => match_type obj
    end.

(** Lines 197 to 227. *)
Definition generate_schema_body (obj : pyobj) (from_dunder_get_core_schema : bool)
  : outcome CoreSchema :=
  if from_dunder_get_core_schema then
    schema <- _generate_schema_from_property obj obj ;;
    if is_not_None schema then Ret schema else generate_schema_structural obj
  else generate_schema_structural obj.

End Builders.

(** [GenerateSchema.generate_schema]: each nested call uses one level of the
    interpreter's recursion limit, and [RecursionError] is raised when none
    is left. *)
Fixpoint generate_schema (recursion_limit : nat) (obj : pyobj)
    (from_dunder_get_core_schema : bool) : outcome CoreSchema :=
  match recursion_limit with
  | 0 => Raise RecursionError
  | S depth =>
      generate_schema_body (generate_schema depth) obj from_dunder_get_core_schema
  end.

End Compiler.

(* ================================================================== *)
(** ** _generate_schema.py: module-level functions and [_Definitions] *)

Definition truthy (b : option bool) : bool :=
  match b with Some true => true | _ => false end.

(** Lines 93 to 98: the inner loop over [dec.info.fields]. *)
Fixpoint check_fields_exist (all_fields : list string) (fields_set : list string)
    (remaining : list string) : outcome unit :=
  match remaining with
  | [] => Ret tt
  | field :: r =>
      if negb (mem field fields_set) then
        Raise (PydanticUserError
                 ("Decorators defined with fields " ++ repr_list all_fields
                    ++ " but " ++ field ++ " not found in model")
                 (Some "validator-field"))
      else check_fields_exist all_fields fields_set r
  end.

(** Lines 90 to 98. *)
Fixpoint check_decorator_fields_exist (decorators : list Decorator)
    (field_names : list string) : outcome unit :=
  match decorators with
  | [] => Ret tt
  | dec :: r =>
      _ <- (if truthy (check_fields (info dec))
               && negb (Nat.eqb (List.length (fields (info dec))) 0)
               && negb (mem "*" (fields (info dec)))
            then check_fields_exist (fields (info dec)) field_names (fields (info dec))
            else Ret tt) ;;
      check_decorator_fields_exist r field_names
  end.

(** Lines 62 to 76. *)
Definition check_validator_fields_against_field_name (i : DecoratorInfo)
    (field : string) : bool :=
  if Nat.eqb (List.length (fields i)) 0 then true
  else if mem "*" (fields i) then true
  else mem field (fields i).

(** Line 725: the builder for each (mode, calling convention) pair. *)
Definition _VALIDATOR_F_MATCH (key : FieldValidatorModes * InfoArg)
    (f : string) (schema : CoreSchema) (field_name : option string) : CoreSchema :=
  match key with
  | (before, no_info) => no_info_before_validator_function f schema
  | (after, no_info) => no_info_after_validator_function f schema
  | (plain, no_info) => no_info_plain_validator_function f
  | (wrap, no_info) => no_info_wrap_validator_function f schema
  | (before, with_info) => with_info_before_validator_function f schema field_name
  | (after, with_info) => with_info_after_validator_function f schema field_name
  | (plain, with_info) => with_info_plain_validator_function f field_name
  | (wrap, with_info) => with_info_wrap_validator_function f schema field_name
  end.

(** Lines 727 to 738: the body is the docstring and [pass], so the call
    returns [None] whatever it is given. *)
Definition apply_validators (schema : CoreSchema) (validators : list Decorator)
    (field_name : option string) : CoreSchema :=
  NoneValue.

(** Lines 752 to 767 and 769 to 779, [pass] as well. *)
Definition apply_model_validators (schema : CoreSchema)
    (validators : list Decorator) (mode : string) : CoreSchema :=
  NoneValue.

Definition wrap_default (field_info : FieldInfo) (schema : CoreSchema) : CoreSchema :=
  NoneValue.

(** Class [_Definitions], lines 793 to 820. *)
Record _Definitions : Type := {
  seen : list string;
  definitions : dict CoreSchema
}.

Definition _Definitions__init__ : _Definitions :=
  {| seen := []; definitions := [] |}.

(** [get_schema_or_ref] is decorated with [contextmanager] and its body is
    [pass]: the call touches neither [seen] nor [definitions] and there is no
    [yield], so entering the [with] block finds no generator to advance and
    raises [TypeError].  The registry is returned with the result. *)
Definition get_schema_or_ref (self : _Definitions) (tp : pyobj)
  : _Definitions * outcome (string * CoreSchema) :=
  (self, Raise (TypeError "'NoneType' object is not an iterator")).

(* ================================================================== *)
(** ** _typing_extra.py *)

(** [LITERAL_TYPES], line 38: the [Literal] special form. *)
Definition LITERAL_TYPES : list string := ["Literal"].

Definition origin_in_LITERAL_TYPES (tp : pyobj) : bool :=
  match get_origin tp with
  | Some origin => mem origin LITERAL_TYPES
  | None => false
  end.

(** Lines 47 to 60. *)
Fixpoint all_literal_values (type_ : pyobj) : list pyobj :=
  match type_ with
  | PyAlias origin args =>
      if mem origin LITERAL_TYPES then
        flat_map (fun arg =>
                    if origin_in_LITERAL_TYPES arg then all_literal_values arg
                    else [arg]) args
      else []
  | _ => []
  end.

(* ================================================================== *)
(** ** _generate_schema.py: the other builders of [GenerateSchema] *)

(** Lines 635 to 642. *)
Definition _subclass_schema (generate_schema : Handler) (type_ : pyobj)
  : outcome CoreSchema :=
  match get_args type_ with
  | [] => Ret any_schema
  | arg0 :: _ =>
      schema <- generate_schema arg0 true ;;
      Ret (is_subclass_schema schema)
  end.

(** Lines 653 to 660. *)
Definition _iterable_schema (generate_schema : Handler) (type_ : pyobj)
  : outcome CoreSchema :=
  match get_args type_ with
  | [] => Ret (generator_schema any_schema)
  | arg0 :: _ =>
      item_schema <- generate_schema arg0 true ;;
      Ret (generator_schema item_schema)
  end.

(** Lines 622 to 633. *)
Definition _union_is_subclass_schema (generate_schema : Handler) (union_type : pyobj)
  : outcome CoreSchema :=
  match get_args union_type with
  | [] => Ret any_schema
  | args =>
      schemas <- mapM (fun arg => generate_schema arg true) args ;;
      Ret (union_schema schemas)
  end.

(* ================================================================== *)
(** ** _generate_schema.py: helpers around the builders *)

(** What [_add_custom_serialization_from_json_encoders] hands back: the
    schema it was given, or [core_schema.json_or_python_schema] around the
    encoder's schema and the given one. *)
Inductive JsonOrPythonSchema : Type :=
| core (schema : CoreSchema)
| json_or_python_schema (json_schema python_schema : CoreSchema).

(** Lines 132 to 137: the loop over [json_encoders.items()], a dictionary
    from classes to encoder functions. *)
Fixpoint first_encoder (classes : class_table) (tp : pyobj)
    (items : dict string) : option string :=
  match items with
  | [] => None
  | (type_, encoder) :: r =>
      if isinstance_type tp
         && match tp with
            | PyClass name => issubclass classes name [type_]
            | _ => false
            end
      then Some encoder
      else first_encoder classes tp r
  end.

(** Lines 129 to 138. *)
Definition _add_custom_serialization_from_json_encoders (classes : class_table)
    (json_encoders : option (dict string)) (tp : pyobj) (schema : CoreSchema)
  : JsonOrPythonSchema :=
  match json_encoders with
  | None => core schema
  | Some [] => core schema
  | Some items =>
      match first_encoder classes tp items with
      | Some encoder =>
          json_or_python_schema (with_info_plain_validator_function encoder None) schema
      | None => core schema
      end
  end.

(** Line 153. *)
Definition _get_first_non_null {A : Type} (a b : option A) : option A :=
  match a with
  | Some _ => a
  | None => b
  end.

(** A value stored under a key of a schema dictionary, as far as
    [_unpack_refs_defs] can tell: a mapping from refs to schemas; a list of
    schemas, the shape [pydantic_core] gives the ['definitions'] of a
    definitions schema, each schema given by its keys in order, which is
    what iterating over it yields; or a value [dict.update] cannot iterate
    over. *)
Inductive SchemaItem : Type :=
| Mapping (m : dict CoreSchema)
| Schemas (elements : list (list string))
| Opaque (value : string).

(** [d.update(elements)] for a list: each element is iterated and has to
    yield exactly two items, of which the first is filed as the key and the
    second as the value; an element of any other length raises
    [ValueError]. *)
Fixpoint update_from_sequence (d : dict CoreSchema) (elements : list (list string))
  : outcome (dict CoreSchema) :=
  match elements with
  | [] => Ret d
  | [key; value] :: r => update_from_sequence (dict_set d key (str_value value)) r
  | _ :: _ => Raise (UserException "ValueError")
  end.

(** Lines 297 to 300, on [self.defs] and the schema as a dictionary: the
    registry and the schema after the call. *)
Definition _unpack_refs_defs (defs : _Definitions) (schema : dict SchemaItem)
  : outcome (_Definitions * dict SchemaItem) :=
  match dict_get schema "definitions" with
  | Some (Mapping m) =>
      Ret ({| seen := seen defs; definitions := dict_update (definitions defs) m |},
           filter (fun kv => negb (String.eqb (fst kv) "definitions")) schema)
  | Some (Schemas elements) =>
      registered <- update_from_sequence (definitions defs) elements ;;
      Ret ({| seen := seen defs; definitions := registered |},
           filter (fun kv => negb (String.eqb (fst kv) "definitions")) schema)
  | Some (Opaque _) => Raise (TypeError "object is not iterable")
  | None => Ret (defs, schema)
  end.

(** A value of a JSON schema: a string, or any other object. *)
Inductive JsonValue : Type :=
| JsonStr (s : string)
| JsonOther (v : pyobj).

(** Lines 112 to 118: [json_schema] is what [handler(schema_or_field)]
    returned, [name] and [doc] are [cls.__name__] and [cls.__doc__], and
    [cleandoc] is [inspect.cleandoc]. *)
Definition modify_model_json_schema (cleandoc : string -> string)
    (json_schema : dict JsonValue) (name : string) (doc : option string)
    (title : option string) : dict JsonValue :=
  let title := match title with Some t => t | None => name end in
  let json_schema := dict_set json_schema "title" (JsonStr title) in
  match doc with
  | Some (String c d) =>
      dict_set json_schema "description" (JsonStr (cleandoc (String c d)))
  | _ => json_schema
  end.

(** The three alias attributes of a [FieldInfo]. *)
Record FieldAliases : Type := {
  alias : option string;
  validation_alias : option string;
  serialization_alias : option string
}.

Module AliasGenerator.

(** [pydantic.aliases.AliasGenerator] (aliases.py), as far as the compiler
    calls it: an instance whose [validation_alias] and [serialization_alias]
    are both set to callables.  An instance that leaves one of them [None]
    makes line 488 or 489 raise [TypeError] and is not among these. *)
Record AliasGenerator : Type := {
  validation_alias : string -> option string;
  serialization_alias : string -> option string
}.

End AliasGenerator.

(** The [alias_generator] argument: a plain callable or an
    [AliasGenerator] instance. *)
Inductive alias_generator : Type :=
| PlainCallable (f : string -> option string)
| AliasGeneratorInstance (g : AliasGenerator.AliasGenerator).

(** Lines 486 to 491: the attributes after the call. *)
Definition _apply_alias_generator_to_field_info (generator : alias_generator)
    (field_info : FieldAliases) (field_name : string) : FieldAliases :=
  match alias field_info, validation_alias field_info, serialization_alias field_info with
  | None, None, None =>
      match generator with
      | AliasGeneratorInstance g =>
          {| alias := None;
             validation_alias := AliasGenerator.validation_alias g field_name;
             serialization_alias := AliasGenerator.serialization_alias g field_name |}
      | PlainCallable f =>
          {| alias := f field_name; validation_alias := None;
             serialization_alias := None |}
      end
  | _, _, _ => field_info
  end.

(** Lines 502 to 506: [computed_field_info.alias] after the call. *)
Definition _apply_alias_generator_to_computed_field_info (generator : alias_generator)
    (computed_field_alias : option string) (computed_field_name : string)
  : option string :=
  match computed_field_alias with
  | None =>
      match generator with
      | AliasGeneratorInstance g =>
          AliasGenerator.serialization_alias g computed_field_name
      | PlainCallable f => f computed_field_name
      end
  | Some a => Some a
  end.

(** Lines 516 to 517: [field_title_generator] is the attribute of
    [config_wrapper], which gets the field name and the field. *)
Definition _apply_field_title_generator_to_field_info
    (field_title_generator : option (string -> FieldInfo -> option string))
    (field_info : FieldInfo) (field_name : string) : FieldInfo :=
  match title field_info, field_title_generator with
  | None, Some generator =>
      {| annotation := annotation field_info;
         title := generator field_name field_info |}
  | _, _ => field_info
  end.

(* ================================================================== *)
(** ** errors.py: [PydanticUndefinedAnnotation.from_name_error] *)

(** [s.split(sep)] for a separator of one character. *)
Fixpoint split (sep : Ascii.ascii) (s : string) : list string :=
  match s with
  | EmptyString => [EmptyString]
  | String c r =>
      if Ascii.eqb c sep then EmptyString :: split sep r
      else
        match split sep r with
        | x :: xs => String c x :: xs
        | [] => [String c EmptyString]
        end
  end.

(** [sep in s]. *)
Fixpoint contains (sep : Ascii.ascii) (s : string) : bool :=
  match s with
  | EmptyString => false
  | String c r => Ascii.eqb c sep || contains sep r
  end.

Definition single_quote : Ascii.ascii := Ascii.ascii_of_nat 39.

(** Lines 54 to 55; [name_error] is [str(name_error)], the only thing the
    method reads of its argument. *)
Definition from_name_error (name_error : string) : exn :=
  let name :=
    if contains single_quote name_error
    then nth 1 (split single_quote name_error) EmptyString
    else name_error in
  PydanticUndefinedAnnotation name name_error.

(* ================================================================== *)
(** ** _typing_extra.py: type hints *)

Definition is_AttributeError (e : exn) : bool :=
  match e with AttributeError _ => true | _ => false end.

(** An exception of a class this development has no constructor for is a
    [UserException] tagged with the name of its class. *)
Definition is_SyntaxError (e : exn) : bool :=
  match e with UserException tag => String.eqb tag "SyntaxError" | _ => false end.

(** A function with its [__annotations__] (absent for a callable that has
    none), or a [functools.partial] of one. *)
Inductive pycallable : Type :=
| PyFunction (annotations : option (dict pyobj))
| PyPartial (func : pycallable) (args : list pyobj) (keywords : dict pyobj).

Section TypeHints.

(** [eval_type_backport] (lines 133 to 152) hands the value to the
    [eval_type_backport] package or to [typing._eval_type], with the
    namespaces of the call: taken as given. *)
Variable eval_type_backport : pyobj -> outcome pyobj.
Variable classes : class_table.

(** Lines 128 to 131. *)
Definition eval_type_lenient (value : pyobj) : outcome pyobj :=
  match eval_type_backport value with
  | Ret v => Ret v
  | Raise e => if is_NameError e || is_AttributeError e then Ret value else Raise e
  end.

(** Lines 119 to 123: the annotations of one base. *)
Fixpoint add_class_hints (base_hints hints : dict pyobj) : outcome (dict pyobj) :=
  match base_hints with
  | [] => Ret hints
  | (name, value) :: r =>
      v <- (if isinstance_str value then eval_type_lenient value else Ret value) ;;
      add_class_hints r (dict_set hints name v)
  end.

Fixpoint add_bases_hints (bases : list pyobj) (hints : dict pyobj)
  : outcome (dict pyobj) :=
  match bases with
  | [] => Ret hints
  | base :: r =>
      hints <- add_class_hints
                 (match getattr classes __annotations__ base with
                  | Some a => a
                  | None => []
                  end) hints ;;
      add_bases_hints r hints
  end.

(** Lines 116 to 124. *)
Definition get_cls_type_hints_lenient (obj : pyobj) : outcome (dict pyobj) :=
  add_bases_hints
    (match obj with
     | PyClass name => rev (map PyClass (__mro__ (classes name)))
     | _ => [obj]
     end) [].

(** Lines 184 to 191. *)
Fixpoint add_function_hints (annotations hints : dict pyobj) : outcome (dict pyobj) :=
  match annotations with
  | [] => Ret hints
  | (name, value) :: r =>
      v <- (if isinstance_str value then
              match eval_type_lenient value with
              | Ret v => Ret v
              | Raise e =>
                  if is_NameError e || is_SyntaxError e then Ret value else Raise e
              end
            else Ret value) ;;
      add_function_hints r (dict_set hints name v)
  end.

(** Lines 158 to 193.  Line 166 calls [inspect.signature], and the module
    does not import [inspect] (line 98 imports it inside another function):
    the name is unbound there. *)
Fixpoint get_function_type_hints (function : pycallable)
    (include_keys : option (list string)) : outcome (dict pyobj) :=
  match function with
  | PyPartial func args keywords =>
      hints <- get_function_type_hints func include_keys ;;
      let hints :=
        match keywords with
        | [] => hints
        | _ => filter (fun kv => negb (mem (fst kv) (keys keywords))) hints
        end in
      match args with
      | [] => Ret hints
      | _ => Raise (NameError "inspect")
      end
  | PyFunction annotations =>
      match annotations with
      | None | Some [] => Ret []
      | Some annotations =>
          let annotations :=
            match include_keys with
            | Some ks => filter (fun kv => mem (fst kv) ks) annotations
            | None => annotations
            end in
          add_function_hints annotations []
      end
  end.

End TypeHints.

(* ================================================================== *)
(** ** v1/color.py *)

Definition ColorTuple : Type := (Z * Z * Z)%type.

(** [COLORS_BY_NAME], line 174, in the order written there. *)
Definition COLORS_BY_NAME : dict ColorTuple :=
  [("aliceblue", (240, 248, 255)); ("antiquewhite", (250, 235, 215));
   ("aqua", (0, 255, 255)); ("aquamarine", (127, 255, 212));
   ("azure", (240, 255, 255)); ("beige", (245, 245, 220));
   ("bisque", (255, 228, 196)); ("black", (0, 0, 0));
   ("blanchedalmond", (255, 235, 205)); ("blue", (0, 0, 255));
   ("blueviolet", (138, 43, 226)); ("brown", (165, 42, 42));
   ("burlywood", (222, 184, 135)); ("cadetblue", (95, 158, 160));
   ("chartreuse", (127, 255, 0)); ("chocolate", (210, 105, 30));
   ("coral", (255, 127, 80)); ("cornflowerblue", (100, 149, 237));
   ("cornsilk", (255, 248, 220)); ("crimson", (220, 20, 60));
   ("cyan", (0, 255, 255)); ("darkblue", (0, 0, 139)); ("darkcyan", (0, 139, 139));
   ("darkgoldenrod", (184, 134, 11)); ("darkgray", (169, 169, 169));
   ("darkgreen", (0, 100, 0)); ("darkgrey", (169, 169, 169));
   ("darkkhaki", (189, 183, 107)); ("darkmagenta", (139, 0, 139));
   ("darkolivegreen", (85, 107, 47)); ("darkorange", (255, 140, 0));
   ("darkorchid", (153, 50, 204)); ("darkred", (139, 0, 0));
   ("darksalmon", (233, 150, 122)); ("darkseagreen", (143, 188, 143));
   ("darkslateblue", (72, 61, 139)); ("darkslategray", (47, 79, 79));
   ("darkslategrey", (47, 79, 79)); ("darkturquoise", (0, 206, 209));
   ("darkviolet", (148, 0, 211)); ("deeppink", (255, 20, 147));
   ("deepskyblue", (0, 191, 255)); ("dimgray", (105, 105, 105));
   ("dimgrey", (105, 105, 105)); ("dodgerblue", (30, 144, 255));
   ("firebrick", (178, 34, 34)); ("floralwhite", (255, 250, 240));
   ("forestgreen", (34, 139, 34)); ("fuchsia", (255, 0, 255));
   ("gainsboro", (220, 220, 220)); ("ghostwhite", (248, 248, 255));
   ("gold", (255, 215, 0)); ("goldenrod", (218, 165, 32)); ("gray", (128, 128, 128));
   ("green", (0, 128, 0)); ("greenyellow", (173, 255, 47));
   ("grey", (128, 128, 128)); ("honeydew", (240, 255, 240));
   ("hotpink", (255, 105, 180)); ("indianred", (205, 92, 92));
   ("indigo", (75, 0, 130)); ("ivory", (255, 255, 240)); ("khaki", (240, 230, 140));
   ("lavender", (230, 230, 250)); ("lavenderblush", (255, 240, 245));
   ("lawngreen", (124, 252, 0)); ("lemonchiffon", (255, 250, 205));
   ("lightblue", (173, 216, 230)); ("lightcoral", (240, 128, 128));
   ("lightcyan", (224, 255, 255)); ("lightgoldenrodyellow", (250, 250, 210));
   ("lightgray", (211, 211, 211)); ("lightgreen", (144, 238, 144));
   ("lightgrey", (211, 211, 211)); ("lightpink", (255, 182, 193));
   ("lightsalmon", (255, 160, 122)); ("lightseagreen", (32, 178, 170));
   ("lightskyblue", (135, 206, 250)); ("lightslategray", (119, 136, 153));
   ("lightslategrey", (119, 136, 153)); ("lightsteelblue", (176, 196, 222));
   ("lightyellow", (255, 255, 224)); ("lime", (0, 255, 0));
   ("limegreen", (50, 205, 50)); ("linen", (250, 240, 230));
   ("magenta", (255, 0, 255)); ("maroon", (128, 0, 0));
   ("mediumaquamarine", (102, 205, 170)); ("mediumblue", (0, 0, 205));
   ("mediumorchid", (186, 85, 211)); ("mediumpurple", (147, 112, 219));
   ("mediumseagreen", (60, 179, 113)); ("mediumslateblue", (123, 104, 238));
   ("mediumspringgreen", (0, 250, 154)); ("mediumturquoise", (72, 209, 204));
   ("mediumvioletred", (199, 21, 133)); ("midnightblue", (25, 25, 112));
   ("mintcream", (245, 255, 250)); ("mistyrose", (255, 228, 225));
   ("moccasin", (255, 228, 181)); ("navajowhite", (255, 222, 173));
   ("navy", (0, 0, 128)); ("oldlace", (253, 245, 230)); ("olive", (128, 128, 0));
   ("olivedrab", (107, 142, 35)); ("orange", (255, 165, 0));
   ("orangered", (255, 69, 0)); ("orchid", (218, 112, 214));
   ("palegoldenrod", (238, 232, 170)); ("palegreen", (152, 251, 152));
   ("paleturquoise", (175, 238, 238)); ("palevioletred", (219, 112, 147));
   ("papayawhip", (255, 239, 213)); ("peachpuff", (255, 218, 185));
   ("peru", (205, 133, 63)); ("pink", (255, 192, 203)); ("plum", (221, 160, 221));
   ("powderblue", (176, 224, 230)); ("purple", (128, 0, 128)); ("red", (255, 0, 0));
   ("rosybrown", (188, 143, 143)); ("royalblue", (65, 105, 225));
   ("saddlebrown", (139, 69, 19)); ("salmon", (250, 128, 114));
   ("sandybrown", (244, 164, 96)); ("seagreen", (46, 139, 87));
   ("seashell", (255, 245, 238)); ("sienna", (160, 82, 45));
   ("silver", (192, 192, 192)); ("skyblue", (135, 206, 235));
   ("slateblue", (106, 90, 205)); ("slategray", (112, 128, 144));
   ("slategrey", (112, 128, 144)); ("snow", (255, 250, 250));
   ("springgreen", (0, 255, 127)); ("steelblue", (70, 130, 180));
   ("tan", (210, 180, 140)); ("teal", (0, 128, 128)); ("thistle", (216, 191, 216));
   ("tomato", (255, 99, 71)); ("turquoise", (64, 224, 208));
   ("violet", (238, 130, 238)); ("wheat", (245, 222, 179));
   ("white", (255, 255, 255)); ("whitesmoke", (245, 245, 245));
   ("yellow", (255, 255, 0)); ("yellowgreen", (154, 205, 50)) ]%Z.

Definition ColorTuple_eqb (a b : ColorTuple) : bool :=
  match a, b with
  | (r1, g1, b1), (r2, g2, b2) => Z.eqb r1 r2 && Z.eqb g1 g2 && Z.eqb b1 b2
  end.

(** A dictionary keyed by color tuples: [d[v] = k] and [d.get(v)]. *)
Fixpoint by_value_set (d : list (ColorTuple * string)) (v : ColorTuple) (k : string)
  : list (ColorTuple * string) :=
  match d with
  | [] => [(v, k)]
  | (v', k') :: r =>
      if ColorTuple_eqb v' v then (v', k) :: r else (v', k') :: by_value_set r v k
  end.

Fixpoint by_value_get (d : list (ColorTuple * string)) (v : ColorTuple)
  : option string :=
  match d with
  | [] => None
  | (v', k') :: r => if ColorTuple_eqb v' v then Some k' else by_value_get r v
  end.

(** [COLORS_BY_VALUE = {v: k for k, v in COLORS_BY_NAME.items()}], line 175. *)
Definition COLORS_BY_VALUE : list (ColorTuple * string) :=
  fold_left (fun acc kv => by_value_set acc (snd kv) (fst kv)) COLORS_BY_NAME [].

(** [int(s, 16)] for a string of hexadecimal digits. *)
Definition hex_digit (c : Ascii.ascii) : option Z :=
  let n := Z.of_nat (Ascii.nat_of_ascii c) in
  if (48 <=? n)%Z && (n <=? 57)%Z then Some (n - 48)%Z
  else if (97 <=? n)%Z && (n <=? 102)%Z then Some (n - 87)%Z
  else if (65 <=? n)%Z && (n <=? 70)%Z then Some (n - 55)%Z
  else None.

Fixpoint int16_from (acc : Z) (s : string) : option Z :=
  match s with
  | EmptyString => Some acc
  | String c r =>
      match hex_digit c with
      | Some d => int16_from (16 * acc + d)%Z r
      | None => None
      end
  end.

Definition int16 (s : string) : option Z :=
  match s with
  | EmptyString => None
  | _ => int16_from 0%Z s
  end.

Fixpoint characters (s : string) : list Ascii.ascii :=
  match s with
  | EmptyString => []
  | String c r => c :: characters r
  end.

(** [repeat_colors = {int(c * 2, 16) for c in '0123456789abcdef'}], line 48. *)
Definition repeat_colors : list Z :=
  flat_map (fun c => match int16 (String c (String c EmptyString)) with
                     | Some n => [n]
                     | None => []
                     end) (characters "0123456789abcdef").

(** The argument of [Color(...)]: a tuple or list, a string, a [Color], or
    anything else; and a [Color] with its two slots.  [float] is the type of
    the channels of an [RGBA]. *)
Section Color.

Variable float : Type.

(** Class [RGBA], lines 22 to 36. *)
Record RGBA : Type := {
  r : float;
  g : float;
  b : float;
  alpha : option float
}.

(** [RGBA.__getitem__] on the indices of [_tuple]. *)
Definition RGBA__getitem__ (self : RGBA) (item : nat) : option (option float) :=
  nth_error [Some (r self); Some (g self); Some (b self); alpha self] item.

Inductive ColorType : Type :=
| TupleOrList (items : list pyobj)
| StrValue (s : string)
| ColorValue (c : Color)
| OtherValue (v : pyobj)
with Color : Type :=
| mkColor (_original : ColorType) (_rgba : option RGBA).

Definition _original (c : Color) : ColorType :=
  match c with mkColor o _ => o end.

Definition _rgba (c : Color) : option RGBA :=
  match c with mkColor _ rgba => rgba end.

(** [parse_tuple] and [parse_str], lines 139 to 154: each body is [pass],
    so each returns [None]. *)
Definition parse_tuple (value : list pyobj) : option RGBA := None.

Definition parse_str (value : string) : option RGBA := None.

(** A constructed [Color], or the [ColorError] of line 65 with its reason. *)
Inductive constructed : Type :=
| Constructed (c : Color)
| ColorError (reason : string).

(** [Color.__init__], lines 54 to 66. *)
Definition Color__init__ (value : ColorType) : constructed :=
  match value with
  | TupleOrList items => Constructed (mkColor value (parse_tuple items))
  | StrValue s => Constructed (mkColor value (parse_str s))
  | ColorValue c => Constructed (mkColor (_original c) (_rgba c))
  | OtherValue _ => ColorError "value must be a tuple, list or string"
  end.

(** [as_rgb_tuple], lines 91 to 101: [pass]. *)
Definition as_rgb_tuple (self : Color) (alpha : option bool) : option ColorTuple :=
  None.

(** [Color.__eq__], lines 133 to 134, [None == None] being true. *)
Definition Color__eq__ (self : Color) (other : ColorType) : bool :=
  match other with
  | ColorValue o =>
      match as_rgb_tuple self None, as_rgb_tuple o None with
      | None, None => true
      | Some x, Some y => ColorTuple_eqb x y
      | _, _ => false
      end
  | _ => false
  end.

End Color.

(* ================================================================== *)
(** ** Vocabulary of the statements *)

(** The field that class [b] itself contributes under the name [k]. *)
Definition declared_field (classes : class_table) (b k : string) : option FieldInfo :=
  match __pydantic_fields__ (classes b) with
  | Some f => dict_get f k
  | None => None
  end.

(** The first class of [order] that contributes a field named [k]. *)
Fixpoint resolve_field (classes : class_table) (order : list string) (k : string)
  : option FieldInfo :=
  match order with
  | [] => None
  | b :: r =>
      match declared_field classes b k with
      | Some v => Some v
      | None => resolve_field classes r k
      end
  end.

(** The decorators of one kind that class [b] contributes. *)
Definition declared_decorators (classes : class_table)
    (kind : DecoratorInfos -> list Decorator) (b : string) : list Decorator :=
  match __pydantic_decorators__ (classes b) with
  | Some d => kind d
  | None => []
  end.

(** The classes [_model_schema] reads, base first and [cls] last. *)
Definition base_to_derived (classes : class_table) (cls : string) : list string :=
  (rev (tl (__mro__ (classes cls))) ++ [cls])%list.

(** A [dict] has each key once. *)
Definition unique_field_names (classes : class_table) (cls : string) : Prop :=
  Forall (fun b => match __pydantic_fields__ (classes b) with
                   | Some f => NoDup (keys f)
                   | None => True
                   end) (cls :: tl (__mro__ (classes cls))).

(** Both probes of [_generate_schema_from_property] come back empty. *)
Definition override_yields_nothing (classes : class_table) (handler : Handler)
    (obj : pyobj) : Prop :=
  match getattr classes __get_pydantic_core_schema__ obj with
  | Some f => f (SourceType obj) handler = Ret NoneValue
  | None => True
  end.

Definition attribute_yields_nothing (classes : class_table) (obj : pyobj) : Prop :=
  match getattr classes __pydantic_core_schema__ obj with
  | Some schema => schema = NoneValue
  | None => True
  end.

(** No test of [match_type] is about an object of this kind. *)
Definition matches_no_case (obj : pyobj) : bool :=
  negb (isinstance_type obj || isinstance__AnnotatedType obj
        || isinstance_ForwardRef obj || isinstance_TypeVar obj
        || isinstance_TypeAliasType obj).

(** [args] is [(item, ...)]. *)
Definition variadic (args : list pyobj) : bool :=
  Nat.eqb (List.length args) 2 && is_Ellipsis (nth 1 args PyNone).

(* ================================================================== *)
(** ** Inputs the statements are tried on *)

Definition field_of (a : pyobj) : FieldInfo := {| annotation := a; title := None |}.

Definition no_decorators : DecoratorInfos :=
  {| field_validators := []; field_serializers := [];
     model_validators := []; model_serializers := [] |}.

(** A model class with its own fields and decorators and no hook. *)
Definition model_class (mro : list string) (fs : dict FieldInfo)
    (d : DecoratorInfos) : class_def :=
  {| __mro__ := mro; __module__ := "app";
     __get_pydantic_core_schema__ := None; __pydantic_core_schema__ := None;
     __pydantic_fields__ := Some fs; __pydantic_computed_fields__ := Some [];
     __pydantic_decorators__ := Some d; __annotations__ := None;
     __required_keys__ := None; __total__ := None |}.

(** [@field_validator(field, mode=m)] on a method [name] defined as [f]. *)
Definition field_validator (name f field : string) (m : FieldValidatorModes)
  : Decorator :=
  {| cls_var_name := name; func := f; info_arg := no_info;
     info := {| fields := [field]; check_fields := Some true; mode := m |} |}.

Definition base_check : Decorator := field_validator "check" "Base.check" "x" after.
Definition derived_check : Decorator := field_validator "check" "Derived.check" "x" after.

(** [class Base(BaseModel)] with fields [x: int], [y: str] and a validator
    [check]; [class Derived(Base)] with fields [y: bytes], [z: float] and a
    validator of the same name. *)
Definition inheritance_classes : class_table :=
  define
    (define builtins "Base"
       (model_class ["Base"; "BaseModel"; "object"]
          [("x", field_of (PyClass "int")); ("y", field_of (PyClass "str"))]
          {| field_validators := [base_check]; field_serializers := [];
             model_validators := []; model_serializers := [] |}))
    "Derived"
    (model_class ["Derived"; "Base"; "BaseModel"; "object"]
       [("y", field_of (PyClass "bytes")); ("z", field_of (PyClass "float"))]
       {| field_validators := [derived_check]; field_serializers := [];
          model_validators := []; model_serializers := [] |}).

(** [class A(BaseModel)] with a field [a: A]; [class B(BaseModel)] with a
    field [c: C] and [class C(BaseModel)] with a field [b: B]. *)
Definition cyclic_classes : class_table :=
  define
    (define
       (define builtins "A"
          (model_class ["A"; "BaseModel"; "object"]
             [("a", field_of (PyClass "A"))] no_decorators))
       "B"
       (model_class ["B"; "BaseModel"; "object"]
          [("c", field_of (PyClass "C"))] no_decorators))
    "C"
    (model_class ["C"; "BaseModel"; "object"]
       [("b", field_of (PyClass "B"))] no_decorators).

(** [Literal[Literal[Literal[1, 2], "foo"], 5]], the example of the
    docstring of [all_literal_values]. *)
Definition nested_literal : pyobj :=
  PyAlias "Literal"
    [PyAlias "Literal" [PyAlias "Literal" [PyInt 1; PyInt 2]; PyStr "foo"];
     PyInt 5].

(** [typing.TypedDict], whose module is [typing], and
    [class Movie(typing.TypedDict)] with [title: str], declared in a module
    [app]. *)
Definition typed_dict_classes : class_table :=
  define
    (define builtins "TypedDict"
       {| __mro__ := ["TypedDict"; "object"]; __module__ := "typing";
          __get_pydantic_core_schema__ := None; __pydantic_core_schema__ := None;
          __pydantic_fields__ := None; __pydantic_computed_fields__ := None;
          __pydantic_decorators__ := None; __annotations__ := None;
          __required_keys__ := None; __total__ := None |})
    "Movie"
    {| __mro__ := ["Movie"; "dict"; "object"]; __module__ := "app";
       __get_pydantic_core_schema__ := None; __pydantic_core_schema__ := None;
       __pydantic_fields__ := None; __pydantic_computed_fields__ := None;
       __pydantic_decorators__ := None;
       __annotations__ := Some [("title", PyClass "str")];
       __required_keys__ := Some ["title"]; __total__ := Some true |}.

(** The names [generate_schema] answers for before [match_type] (lines 206
    to 225). *)
Definition directly_compiled : list string :=
  ["str"; "bool"; "int"; "float"; "bytes"; "list"; "dict"; "set";
   "frozenset"; "tuple"].

(** Hooks that ignore their arguments. *)
Definition hook_returning (s : CoreSchema) : GetCoreSchemaFunction :=
  fun _ _ => Ret s.

Definition hooked_class (name : string) (f : option GetCoreSchemaFunction)
    (p : option CoreSchema) : class_def :=
  {| __mro__ := [name; "object"]; __module__ := "app";
     __get_pydantic_core_schema__ := f; __pydantic_core_schema__ := p;
     __pydantic_fields__ := None; __pydantic_computed_fields__ := None;
     __pydantic_decorators__ := None; __annotations__ := None;
     __required_keys__ := None; __total__ := None |}.

(** [Loud] has an override function that returns a schema and a precomputed
    schema; [Silent] has an override function that returns [None] and a
    precomputed schema; [Mute] has an override function that returns [None]
    and nothing else. *)
Definition hook_classes : class_table :=
  define
    (define
       (define builtins "Loud"
          (hooked_class "Loud" (Some (hook_returning (custom_schema "override")))
             (Some (custom_schema "precomputed"))))
       "Silent"
       (hooked_class "Silent" (Some (hook_returning NoneValue))
          (Some (custom_schema "precomputed"))))
    "Mute" (hooked_class "Mute" (Some (hook_returning NoneValue)) None).



(** The condition of line 92: the decorator's fields are to be looked up. *)
Definition is_checked (dec : Decorator) : bool :=
  truthy (check_fields (info dec))
  && negb (Nat.eqb (List.length (fields (info dec))) 0)
  && negb (mem "*" (fields (info dec))).

(** The message of line 96. *)
Definition missing_field_message (dec : Decorator) (field : string) : string :=
  "Decorators defined with fields " ++ repr_list (fields (info dec))
    ++ " but " ++ field ++ " not found in model".

(** The class is one [generate_schema] answers for at lines 206 to 225. *)
Definition is_directly_compiled (obj : pyobj) : bool :=
  match obj with
  | PyClass name => mem name directly_compiled
  | _ => false
  end.

(** A metadata item that exposes neither hook. *)
Definition plain_metadata (classes : class_table) (meta : pyobj) : bool :=
  match getattr classes __get_pydantic_core_schema__ meta,
        getattr classes __pydantic_core_schema__ meta with
  | None, None => true
  | _, _ => false
  end.

(** [hook_classes] and a class [Precomputed] that has a precomputed schema
    and no override function. *)
Definition metadata_classes : class_table :=
  define hook_classes "Precomputed"
    (hooked_class "Precomputed" None (Some (custom_schema "precomputed"))).

(** An annotation is kept as written when it is no string, or a string on
    which the evaluation fails with one of the errors the code catches. *)
Definition kept_as_written (eval_type_backport : pyobj -> outcome pyobj)
    (kv : string * pyobj) : Prop :=
  isinstance_str (snd kv) = false
  \/ exists e, eval_type_backport (snd kv) = Raise e
               /\ is_NameError e || is_AttributeError e || is_SyntaxError e = true.

(** [class Node] with the string annotation [next: 'Node']. *)
Definition string_annotation_classes : class_table :=
  define builtins "Node"
    {| __mro__ := ["Node"; "object"]; __module__ := "app";
       __get_pydantic_core_schema__ := None; __pydantic_core_schema__ := None;
       __pydantic_fields__ := None; __pydantic_computed_fields__ := None;
       __pydantic_decorators__ := None;
       __annotations__ := Some [("next", PyStr "Node")];
       __required_keys__ := None; __total__ := None |}.

(** The colors [Color.__init__] can have built: from a value that is no
    [Color], or from a [Color] built before. *)
Inductive built (float : Type) : Color float -> Prop :=
| built_by_init (value : ColorType float) (c : Color float) :
    (forall c0, value = ColorValue float c0 -> built float c0) ->
    Color__init__ float value = Constructed float c ->
    built float c.

(** What the table promises for one entry: its value leads back to a name
    with the same value that is not before the entry's name in the alphabet. *)
Definition name_round_trip (kv : string * ColorTuple) : bool :=
  match by_value_get COLORS_BY_VALUE (snd kv) with
  | Some name =>
      match dict_get COLORS_BY_NAME name with
      | Some rgb => ColorTuple_eqb rgb (snd kv) && String.leb (fst kv) name
      | None => false
      end
  | None => false
  end.

Definition value_round_trip (vk : ColorTuple * string) : bool :=
  match dict_get COLORS_BY_NAME (snd vk) with
  | Some rgb => ColorTuple_eqb rgb (fst vk)
  | None => false
  end.

Definition channel_in_range (kv : string * ColorTuple) : bool :=
  match snd kv with
  | (r, g, b) =>
      (0 <=? r)%Z && (r <=? 255)%Z && (0 <=? g)%Z && (g <=? 255)%Z
      && (0 <=? b)%Z && (b <=? 255)%Z
  end.

(* ================================================================== *)
(** * Properties *)

(** ** Outcomes and loops *)

Lemma bind_Ret_inv {A B : Type} (m : outcome A) (k : A -> outcome B) (b : B) :
  bind m k = Ret b -> exists a, m = Ret a /\ k a = Ret b.
Proof.
  destruct m as [a | e]; simpl; intros H.
  - exists a. split; [reflexivity | exact H].
  - discriminate.
Qed.

Lemma mapM_Forall2 {A B : Type} (f : A -> outcome B) (l : list A) (bs : list B) :
  mapM f l = Ret bs <-> Forall2 (fun a b => f a = Ret b) l bs.
Proof.
  revert bs. induction l as [| a r IH]; intros bs; simpl.
  - split.
    + intros H. injection H as <-. constructor.
    + intros H. inversion H. reflexivity.
  - split.
    + intros H.
      apply bind_Ret_inv in H. destruct H as [b [Hb H]].
      apply bind_Ret_inv in H. destruct H as [bs' [Hbs H]].
      injection H as <-. constructor; [exact Hb | apply IH; exact Hbs].
    + intros H. inversion H as [| a' b r' bs' Hb Hr]; subst.
      rewrite Hb. simpl. apply IH in Hr. rewrite Hr. reflexivity.
Qed.

(** ** Dictionaries *)

Lemma dict_get_set {V : Type} (d : dict V) (k k' : string) (v : V) :
  dict_get (dict_set d k v) k' =
  if String.eqb k k' then Some v else dict_get d k'.
Proof.
  induction d as [| [k0 v0] r IH]; simpl.
  - reflexivity.
  - destruct (String.eqb k0 k) eqn:E0; simpl.
    + apply String.eqb_eq in E0. subst k0.
      destruct (String.eqb k k'); reflexivity.
    + destruct (String.eqb k0 k') eqn:E1.
      * apply String.eqb_eq in E1. subst k0. rewrite String.eqb_sym, E0. reflexivity.
      * exact IH.
Qed.

Lemma dict_get_absent {V : Type} (d : dict V) (k : string) :
  ~ In k (keys d) -> dict_get d k = None.
Proof.
  induction d as [| [k0 v0] r IH]; simpl; intros H.
  - reflexivity.
  - destruct (String.eqb k0 k) eqn:E.
    + apply String.eqb_eq in E. exfalso. apply H. left. exact E.
    + apply IH. intros Hin. apply H. right. exact Hin.
Qed.

Lemma dict_get_present {V : Type} (d : dict V) (k : string) :
  In k (keys d) -> exists v, dict_get d k = Some v.
Proof.
  induction d as [| [k0 v0] r IH]; simpl; intros H.
  - contradiction.
  - destruct (String.eqb k0 k) eqn:E.
    + exists v0. reflexivity.
    + destruct H as [H | H].
      * subst k0. rewrite String.eqb_refl in E. discriminate.
      * apply IH. exact H.
Qed.

(** After [d.update(other)] a key of [other] has [other]'s value and every
    other key keeps the value it had. *)
Lemma dict_get_update {V : Type} (other d : dict V) (k : string) :
  NoDup (keys other) ->
  dict_get (dict_update d other) k =
  match dict_get other k with
  | Some v => Some v
  | None => dict_get d k
  end.
Proof.
  unfold dict_update. revert d.
  induction other as [| [k0 v0] r IH]; intros d Hnd; simpl.
  - reflexivity.
  - inversion Hnd as [| x l Hnotin Hnd']; subst.
    rewrite IH by exact Hnd'.
    destruct (String.eqb k0 k) eqn:E.
    + apply String.eqb_eq in E. subst k0.
      rewrite (dict_get_absent r k Hnotin).
      rewrite dict_get_set, String.eqb_refl. reflexivity.
    + destruct (dict_get r k); [reflexivity |].
      rewrite dict_get_set, E. reflexivity.
Qed.

Lemma keys_dict_set {V : Type} (d : dict V) (k : string) (v : V) :
  keys (dict_set d k v) = if mem k (keys d) then keys d else (keys d ++ [k])%list.
Proof.
  unfold mem. induction d as [| [k0 v0] r IH]; simpl.
  - reflexivity.
  - rewrite (String.eqb_sym k k0).
    destruct (String.eqb k0 k) eqn:E; simpl.
    + reflexivity.
    + rewrite IH. destruct (existsb (String.eqb k) (keys r)); reflexivity.
Qed.

Lemma mem_In (k : string) (l : list string) : mem k l = true <-> In k l.
Proof.
  unfold mem. rewrite existsb_exists. split.
  - intros [x [Hin E]]. apply String.eqb_eq in E. subst. exact Hin.
  - intros H. exists k. split; [exact H | apply String.eqb_refl].
Qed.

Lemma dict_set_fresh {V : Type} (d : dict V) (k : string) (v : V) :
  ~ In k (keys d) -> dict_set d k v = (d ++ [(k, v)])%list.
Proof.
  induction d as [| [k0 v0] r IH]; simpl; intros H.
  - reflexivity.
  - destruct (String.eqb k0 k) eqn:E.
    + apply String.eqb_eq in E. exfalso. apply H. left. exact E.
    + rewrite IH; [reflexivity |]. intros Hin. apply H. right. exact Hin.
Qed.

Lemma NoDup_keys_dict_set {V : Type} (d : dict V) (k : string) (v : V) :
  NoDup (keys d) -> NoDup (keys (dict_set d k v)).
Proof.
  intros H. rewrite keys_dict_set.
  destruct (mem k (keys d)) eqn:E; [exact H |].
  apply NoDup_app; [exact H | repeat constructor; simpl; tauto |].
  intros x Hx [Hk | []]. subst x.
  apply mem_In in Hx. rewrite Hx in E. discriminate.
Qed.

Lemma NoDup_keys_dict_update {V : Type} (other d : dict V) :
  NoDup (keys d) -> NoDup (keys (dict_update d other)).
Proof.
  unfold dict_update. revert d.
  induction other as [| [k v] r IH]; intros d H; simpl.
  - exact H.
  - apply IH. apply NoDup_keys_dict_set. exact H.
Qed.

(** ** [_model_schema]: what is collected along the MRO *)

Section Collect.

Variable classes : class_table.

Lemma c_fields_collect_base (acc : collected) (b : string) :
  c_fields (collect_base classes acc b) =
  match __pydantic_fields__ (classes b) with
  | Some f => dict_update (c_fields acc) f
  | None => c_fields acc
  end.
Proof.
  unfold collect_base.
  destruct (__pydantic_fields__ (classes b)),
           (__pydantic_computed_fields__ (classes b)),
           (__pydantic_decorators__ (classes b)); reflexivity.
Qed.

Lemma decorators_collect_base (acc : collected) (b : string) :
  c_validators (collect_base classes acc b)
    = (c_validators acc ++ declared_decorators classes field_validators b)%list
  /\ c_serializers (collect_base classes acc b)
    = (c_serializers acc ++ declared_decorators classes field_serializers b)%list
  /\ c_model_validators (collect_base classes acc b)
    = (c_model_validators acc ++ declared_decorators classes model_validators b)%list
  /\ c_model_serializers (collect_base classes acc b)
    = (c_model_serializers acc ++ declared_decorators classes model_serializers b)%list.
Proof.
  unfold collect_base, declared_decorators.
  destruct (__pydantic_fields__ (classes b)),
           (__pydantic_computed_fields__ (classes b)),
           (__pydantic_decorators__ (classes b)); simpl;
    rewrite ?app_nil_r; repeat split; reflexivity.
Qed.

Lemma resolve_field_app (l1 l2 : list string) (k : string) :
  resolve_field classes (l1 ++ l2) k =
  match resolve_field classes l1 k with
  | Some v => Some v
  | None => resolve_field classes l2 k
  end.
Proof.
  induction l1 as [| b r IH]; simpl.
  - reflexivity.
  - destruct (declared_field classes b k); [reflexivity | exact IH].
Qed.

Lemma fields_after_bases (l : list string) (acc : collected) (k : string) :
  Forall (fun b => match __pydantic_fields__ (classes b) with
                   | Some f => NoDup (keys f)
                   | None => True
                   end) l ->
  dict_get (c_fields (fold_left (collect_base classes) l acc)) k =
  match resolve_field classes (rev l) k with
  | Some v => Some v
  | None => dict_get (c_fields acc) k
  end.
Proof.
  revert acc. induction l as [| b r IH]; intros acc Hwf; simpl.
  - reflexivity.
  - inversion Hwf as [| x l' Hb Hr]; subst.
    rewrite IH by exact Hr.
    rewrite resolve_field_app. simpl.
    destruct (resolve_field classes (rev r) k); [reflexivity |].
    rewrite c_fields_collect_base. unfold declared_field.
    destruct (__pydantic_fields__ (classes b)) as [f |]; [| reflexivity].
    rewrite dict_get_update by exact Hb.
    destruct (dict_get f k); reflexivity.
Qed.

Lemma decorators_after_bases (l : list string) (acc : collected) :
  let c := fold_left (collect_base classes) l acc in
  c_validators c
    = (c_validators acc ++ flat_map (declared_decorators classes field_validators) l)%list
  /\ c_serializers c
    = (c_serializers acc ++ flat_map (declared_decorators classes field_serializers) l)%list
  /\ c_model_validators c
    = (c_model_validators acc ++ flat_map (declared_decorators classes model_validators) l)%list
  /\ c_model_serializers c
    = (c_model_serializers acc ++ flat_map (declared_decorators classes model_serializers) l)%list.
Proof.
  revert acc. induction l as [| b r IH]; intros acc; simpl.
  - rewrite !app_nil_r. repeat split; reflexivity.
  - destruct (IH (collect_base classes acc b)) as [H1 [H2 [H3 H4]]].
    destruct (decorators_collect_base acc b) as [E1 [E2 [E3 E4]]].
    rewrite H1, H2, H3, H4, E1, E2, E3, E4, <- !app_assoc.
    repeat split; reflexivity.
Qed.

Lemma NoDup_fields_after_bases (l : list string) (acc : collected) :
  NoDup (keys (c_fields acc)) ->
  NoDup (keys (c_fields (fold_left (collect_base classes) l acc))).
Proof.
  revert acc. induction l as [| b r IH]; intros acc H; simpl.
  - exact H.
  - apply IH. rewrite c_fields_collect_base.
    destruct (__pydantic_fields__ (classes b)); [| exact H].
    apply NoDup_keys_dict_update. exact H.
Qed.

(** What [collect] returns: the fields resolved derived class first, the
    decorators of each kind concatenated base class first. *)
Lemma collect_spec (cls : string) (c : collected) :
  unique_field_names classes cls ->
  collect classes cls = Ret c ->
  (forall k, dict_get (c_fields c) k
             = resolve_field classes (cls :: tl (__mro__ (classes cls))) k)
  /\ NoDup (keys (c_fields c))
  /\ c_validators c
     = flat_map (declared_decorators classes field_validators) (base_to_derived classes cls)
  /\ c_serializers c
     = flat_map (declared_decorators classes field_serializers) (base_to_derived classes cls)
  /\ c_model_validators c
     = flat_map (declared_decorators classes model_validators) (base_to_derived classes cls)
  /\ c_model_serializers c
     = flat_map (declared_decorators classes model_serializers) (base_to_derived classes cls).
Proof.
  intros Hwf H. unfold collect in H.
  inversion Hwf as [| x l Hcls Hbases]; subst.
  destruct (__pydantic_fields__ (classes cls)) as [f |] eqn:Ef; [| discriminate].
  destruct (__pydantic_computed_fields__ (classes cls)) as [cf |]; [| discriminate].
  destruct (__pydantic_decorators__ (classes cls)) as [d |] eqn:Ed; [| discriminate].
  simpl in H. injection H as <-.
  set (bases := rev (tl (__mro__ (classes cls)))).
  destruct (decorators_after_bases bases nothing_collected) as [H1 [H2 [H3 H4]]].
  simpl in H1, H2, H3, H4.
  unfold base_to_derived. fold bases. rewrite !flat_map_app. simpl.
  unfold declared_decorators at 2 4 6 8. rewrite Ed, !app_nil_r.
  rewrite H1, H2, H3, H4.
  split; [| split; [| repeat split; reflexivity]].
  - intros k. rewrite dict_get_update by exact Hcls.
    unfold declared_field at 1. rewrite Ef.
    destruct (dict_get f k); [reflexivity |].
    unfold bases. rewrite fields_after_bases.
    + rewrite rev_involutive.
      destruct (resolve_field classes (tl (__mro__ (classes cls))) k); reflexivity.
    + apply Forall_forall. intros b Hb. rewrite Forall_forall in Hbases.
      apply Hbases. apply in_rev. exact Hb.
  - apply NoDup_keys_dict_update. apply NoDup_fields_after_bases. constructor.
Qed.

End Collect.

(** ** [_model_schema]: the fields are compiled one by one *)

Section CompileFields.

Variable generate_schema : Handler.

Lemma compile_fields_spec (fs : dict FieldInfo) (acc out : dict CoreSchema) :
  NoDup (keys acc ++ keys fs) ->
  compile_fields generate_schema fs acc = Ret out ->
  exists ss,
    Forall2 (fun kv s => generate_schema (annotation (snd kv)) true = Ret s) fs ss
    /\ out = (acc ++ combine (keys fs) ss)%list.
Proof.
  revert acc. induction fs as [| [k i] r IH]; intros acc Hnd H; simpl in H.
  - injection H as <-. exists []. split; [constructor |].
    simpl. rewrite app_nil_r. reflexivity.
  - apply bind_Ret_inv in H. destruct H as [s [Hs H]].
    assert (Hk : ~ In k (keys acc)).
    { intros Hin. simpl in Hnd. apply NoDup_remove_2 in Hnd.
      apply Hnd. apply in_or_app. left. exact Hin. }
    rewrite (dict_set_fresh acc k s Hk) in H.
    apply IH in H.
    + destruct H as [ss [HF Hout]]. exists (s :: ss). split.
      * constructor; [exact Hs | exact HF].
      * rewrite Hout, <- app_assoc. reflexivity.
    + unfold keys. rewrite map_app, <- app_assoc. exact Hnd.
Qed.

Lemma compiled_field_lookup (fs : dict FieldInfo) (ss : list CoreSchema)
    (k : string) (i : FieldInfo) :
  Forall2 (fun kv s => generate_schema (annotation (snd kv)) true = Ret s) fs ss ->
  dict_get fs k = Some i ->
  exists s, generate_schema (annotation i) true = Ret s
            /\ dict_get (combine (keys fs) ss) k = Some s.
Proof.
  induction 1 as [| [k0 i0] s0 r ss' Hs HF IH]; simpl; intros Hget.
  - discriminate.
  - destruct (String.eqb k0 k).
    + injection Hget as <-. exists s0. split; [exact Hs | reflexivity].
    + apply IH. exact Hget.
Qed.

Lemma keys_combine (fs : dict FieldInfo) (ss : list CoreSchema) :
  List.length fs = List.length ss -> keys (combine (keys fs) ss) = keys fs.
Proof.
  revert ss. induction fs as [| [k i] r IH]; intros [| s ss]; simpl; intros H;
    try reflexivity; try discriminate.
  f_equal. apply IH. lia.
Qed.

End CompileFields.

(** C3 (the code at the failing input).  [_model_schema] gathers the
    fields and decorators along the MRO and compiles the fields, but the
    call that is to build the schema (lines 266 to 275) is one
    [core_schema.model_schema] does not accept: whatever the class and
    whatever the fields compile to, [_model_schema] returns no schema.  For
    [Derived(Base)], [generate_schema] as the module is loaded ends in
    [NameError] at line 335, and with [BaseModel] bound it does not return
    either: no compiled schema holds the fields of [Base]. *)
Theorem model_schema_never_returns :
  forall (classes : class_table) (config_dict : ConfigDict) (handler : Handler)
         (cls : string) (depth : nat),
    returned (_model_schema classes config_dict handler cls) = false
    /\ generate_schema inheritance_classes false config_dict (S depth)
         (PyClass "Derived") true
       = Raise (NameError "BaseModel")
    /\ returned (generate_schema inheritance_classes true config_dict depth
                   (PyClass "Derived") true) = false.
Proof.
  intros classes config_dict handler cls depth. split; [| split].
  - unfold _model_schema.
    destruct (collect classes cls) as [c | e]; [| reflexivity]. simpl.
    destruct (compile_fields handler (c_fields c) []); reflexivity.
  - reflexivity.
  - destruct depth as [| n]; [reflexivity |].
    change (generate_schema inheritance_classes true config_dict (S n)
              (PyClass "Derived") true)
      with (generate_schema_body inheritance_classes true config_dict
              (generate_schema inheritance_classes true config_dict n)
              (PyClass "Derived") true).
    cbn.
    destruct (generate_schema inheritance_classes true config_dict n
                (PyClass "int") true); [| reflexivity]. cbn.
    destruct (generate_schema inheritance_classes true config_dict n
                (PyClass "bytes") true); [| reflexivity]. cbn.
    destruct (generate_schema inheritance_classes true config_dict n
                (PyClass "float") true); reflexivity.
Qed.

(** ** [_tuple_schema] *)

Lemma variadic_iff (args : list pyobj) :
  variadic args = true <-> exists item, args = [item; PyEllipsis].
Proof.
  unfold variadic. split.
  - destruct args as [| a [| b [| c r]]]; simpl; try discriminate.
    destruct b; simpl; try discriminate. intros _. exists a. reflexivity.
  - intros [item ->]. reflexivity.
Qed.

(** [_tuple_schema], called directly: on a type without arguments it
    returns a variable-length tuple schema over [any]; on exactly two
    arguments of which the second is [...] it compiles the first and returns
    a variable-length tuple schema over it; on every other argument list it
    compiles each argument and returns a positional tuple schema with one item
    schema per argument, in order.  [handler] is [self.generate_schema],
    whatever it answers for the items.  [generate_schema] itself compiles the
    bare class [tuple] to the variable-length schema over [any]. *)
Lemma tuple_schema_shapes :
  forall (handler : Handler) (tuple_type : pyobj),
    (get_args tuple_type = [] ->
       _tuple_schema handler tuple_type
       = Ret (tuple_variable_schema any_schema))
    /\ (forall item s,
          get_args tuple_type = [item; PyEllipsis] ->
          handler item true = Ret s ->
          _tuple_schema handler tuple_type = Ret (tuple_variable_schema s))
    /\ (forall ss,
          get_args tuple_type <> [] ->
          (forall item, get_args tuple_type <> [item; PyEllipsis]) ->
          Forall2 (fun arg s => handler arg true = Ret s)
            (get_args tuple_type) ss ->
          _tuple_schema handler tuple_type
          = Ret (tuple_positional_schema ss)
          /\ List.length ss = List.length (get_args tuple_type))
    /\ (forall classes TYPE_CHECKING config_dict depth,
          generate_schema classes TYPE_CHECKING config_dict (S depth)
            (PyClass "tuple") false
          = Ret (tuple_variable_schema any_schema)).
Proof.
  intros gen tuple_type. unfold _tuple_schema. split; [| split; [| split]];
    [| | | reflexivity].
  - intros ->. reflexivity.
  - intros item s -> Hs. simpl. rewrite Hs. reflexivity.
  - intros ss Hne Hnv HF.
    destruct (get_args tuple_type) as [| a r] eqn:E; [contradiction |].
    fold (variadic (a :: r)).
    destruct (variadic (a :: r)) eqn:Ev.
    + apply variadic_iff in Ev. destruct Ev as [item Ev].
      exfalso. exact (Hnv item Ev).
    + split.
      * apply mapM_Forall2 in HF. rewrite HF. reflexivity.
      * symmetry. eapply Forall2_length. exact HF.
Qed.

(** ** [match_type]: the fallback and the forward reference *)

Section MatchType.

Variable classes : class_table.
Variable TYPE_CHECKING : bool.
Variable config_dict : ConfigDict.

Lemma first_match_no_test_holds (handler : Handler) (cases : list (test * action))
    (obj : pyobj) :
  Forall (fun row => eval_test classes TYPE_CHECKING (fst row) obj = Ret false) cases ->
  first_match classes TYPE_CHECKING config_dict handler cases obj
  = Raise (PydanticSchemaGenerationError
             ("Unable to generate schema for " ++ format obj)).
Proof.
  induction 1 as [| [t a] r Ht HF IH]; simpl.
  - reflexivity.
  - simpl in Ht. rewrite Ht. simpl. exact IH.
Qed.

Lemma subclass_test_of_non_class (bases : list class_expr) (obj : pyobj) :
  isinstance_type obj = false ->
  eval_test classes TYPE_CHECKING (TypeAndSubclass bases) obj = Ret false.
Proof.
  destruct obj; simpl; intros H; try reflexivity; discriminate.
Qed.

(** An object that is no class and none of the four typing kinds makes
    every test of the chain evaluate to [False]. *)
Lemma no_test_holds (obj : pyobj) :
  matches_no_case obj = true ->
  Forall (fun row => eval_test classes TYPE_CHECKING (fst row) obj = Ret false)
    match_type_cases.
Proof.
  unfold matches_no_case. intros H.
  apply negb_true_iff in H.
  repeat (apply orb_false_iff in H; destruct H as [H ?]).
  unfold match_type_cases.
  repeat (apply Forall_cons;
          [ first [ apply subclass_test_of_non_class; assumption
                  | simpl; f_equal; assumption ] | ]).
  apply Forall_nil.
Qed.

(** The test of line 379 names [datetime], which nothing binds: it raises
    for every class, so a class never makes all tests evaluate to [False]. *)
Lemma datetime_test_raises (name : string) :
  eval_test classes TYPE_CHECKING
    (TypeAndSubclass [Global "datetime"; Global "date"; Global "time"; Global "timedelta"])
    (PyClass name)
  = Raise (NameError "datetime").
Proof. destruct TYPE_CHECKING; reflexivity. Qed.

Lemma no_test_holds_iff (obj : pyobj) :
  matches_no_case obj = true <->
  Forall (fun row => eval_test classes TYPE_CHECKING (fst row) obj = Ret false)
    match_type_cases.
Proof.
  split; [apply no_test_holds |].
  intros H. rewrite Forall_forall in H.
  destruct obj as [name | | | | | | arg | tv | ta | origin args];
    try reflexivity.
  - exfalso.
    specialize (H (TypeAndSubclass [Global "datetime"; Global "date";
                                    Global "time"; Global "timedelta"],
                   Call "_datetime_schema")).
    rewrite datetime_test_raises in H.
    assert (Hin : In (TypeAndSubclass [Global "datetime"; Global "date";
                                       Global "time"; Global "timedelta"],
                      Call "_datetime_schema") match_type_cases).
    { unfold match_type_cases. simpl. tauto. }
    specialize (H Hin). discriminate.
  - exfalso.
    specialize (H (Isinstance isinstance_ForwardRef, Call "_forward_ref_schema")).
    assert (Hin : In (Isinstance isinstance_ForwardRef, Call "_forward_ref_schema")
                     match_type_cases).
    { unfold match_type_cases. simpl. tauto. }
    specialize (H Hin). discriminate.
  - exfalso.
    specialize (H (Isinstance isinstance_TypeVar, Call "_type_var_schema")).
    assert (Hin : In (Isinstance isinstance_TypeVar, Call "_type_var_schema")
                     match_type_cases).
    { unfold match_type_cases. simpl. tauto. }
    specialize (H Hin). discriminate.
  - exfalso.
    specialize (H (Isinstance isinstance_TypeAliasType, Call "_type_alias_schema")).
    assert (Hin : In (Isinstance isinstance_TypeAliasType, Call "_type_alias_schema")
                     match_type_cases).
    { unfold match_type_cases. simpl. tauto. }
    specialize (H Hin). discriminate.
  - assert (Hin : In (Isinstance isinstance__AnnotatedType, Call "_annotated_schema")
                     match_type_cases).
    { unfold match_type_cases. simpl. tauto. }
    apply H in Hin. simpl in Hin.
    unfold matches_no_case. simpl.
    injection Hin as ->. reflexivity.
Qed.

End MatchType.

(** ** The hook probes of [_generate_schema_from_property] *)

Lemma from_property_None_iff (classes : class_table) (handler : Handler) (obj : pyobj) :
  _generate_schema_from_property classes handler obj obj = Ret NoneValue
  <-> override_yields_nothing classes handler obj
      /\ attribute_yields_nothing classes obj.
Proof.
  unfold _generate_schema_from_property, override_yields_nothing,
    attribute_yields_nothing.
  destruct (getattr classes __get_pydantic_core_schema__ obj) as [f |].
  - destruct (f (SourceType obj) handler) as [s | e]; simpl.
    + destruct s; simpl;
        try (split; [intros H; discriminate | intros [H _]; discriminate]).
      destruct (getattr classes __pydantic_core_schema__ obj) as [p |].
      * destruct p; simpl;
          try (split; [intros H; discriminate | intros [_ H]; discriminate]).
        split; [intros _; split; reflexivity | reflexivity].
      * split; [intros _; split; [reflexivity | exact I] | reflexivity].
    + split; [intros H; discriminate | intros [H _]; discriminate].
  - destruct (getattr classes __pydantic_core_schema__ obj) as [p |].
    + destruct p; simpl;
        try (split; [intros H; discriminate | intros [_ H]; discriminate]).
      split; [intros _; split; [exact I | reflexivity] | reflexivity].
    + split; [intros _; split; exact I | reflexivity].
Qed.

(** An object that is no class, no [Annotated] form, no [ForwardRef], no
    [TypeVar] and no [TypeAliasType] makes every test of [match_type]
    evaluate to [False] (none raises), and [match_type] ends at line 442
    with [PydanticSchemaGenerationError] whose message holds the object.
    So does [generate_schema] when the object is no string and the hook
    probes, if made, yield nothing. *)
Lemma unmatched_descriptor_raises_schema_generation_error :
  forall (classes : class_table) (TYPE_CHECKING : bool) (config_dict : ConfigDict)
         (handler : Handler) (obj : pyobj),
    matches_no_case obj = true ->
    Forall (fun row => eval_test classes TYPE_CHECKING (fst row) obj = Ret false)
      match_type_cases
    /\ match_type classes TYPE_CHECKING config_dict handler obj
       = Raise (PydanticSchemaGenerationError
                  ("Unable to generate schema for " ++ format obj))
    /\ (forall depth,
          isinstance_str obj = false ->
          generate_schema classes TYPE_CHECKING config_dict (S depth) obj false
          = Raise (PydanticSchemaGenerationError
                     ("Unable to generate schema for " ++ format obj)))
    /\ (forall depth,
          isinstance_str obj = false ->
          override_yields_nothing classes
            (generate_schema classes TYPE_CHECKING config_dict depth) obj ->
          attribute_yields_nothing classes obj ->
          generate_schema classes TYPE_CHECKING config_dict (S depth) obj true
          = Raise (PydanticSchemaGenerationError
                     ("Unable to generate schema for " ++ format obj))).
Proof.
  intros classes tc cfg handler obj Hno.
  pose proof (no_test_holds classes tc obj Hno) as Htests.
  assert (Hmatch : forall h, match_type classes tc cfg h obj
                             = Raise (PydanticSchemaGenerationError
                                        ("Unable to generate schema for " ++ format obj))).
  { intros h. apply first_match_no_test_holds. exact Htests. }
  assert (Hstruct : forall h, isinstance_str obj = false ->
                              generate_schema_structural classes tc cfg h obj
                              = Raise (PydanticSchemaGenerationError
                                         ("Unable to generate schema for " ++ format obj))).
  { intros h Hstr. unfold generate_schema_structural. rewrite Hstr.
    destruct obj; try apply Hmatch. discriminate Hno. }
  split; [exact Htests |]. split; [apply Hmatch |]. split.
  - intros depth Hstr. simpl. unfold generate_schema_body. apply Hstruct. exact Hstr.
  - intros depth Hstr Ho Ha. simpl. unfold generate_schema_body.
    assert (E : _generate_schema_from_property classes
                  (generate_schema classes tc cfg depth) obj obj = Ret NoneValue).
    { apply from_property_None_iff. split; assumption. }
    rewrite E. simpl. apply Hstruct. exact Hstr.
Qed.

(** *** Classes in the chain *)

Lemma issubclass_subset (classes : class_table) (cls : string)
    (bases all_bases : list string) :
  (forall b, In b bases -> In b all_bases) ->
  issubclass classes cls all_bases = false ->
  issubclass classes cls bases = false.
Proof.
  unfold issubclass. intros Hsub Hall.
  destruct (existsb (fun b => existsb (String.eqb b) (__mro__ (classes cls))) bases)
    eqn:E; [| reflexivity].
  apply existsb_exists in E. destruct E as [b [Hb Hin]].
  assert (Hc : existsb (fun b => existsb (String.eqb b) (__mro__ (classes cls)))
                 all_bases = true).
  { apply existsb_exists. exists b. split; [apply Hsub; exact Hb | exact Hin]. }
  rewrite Hc in Hall. discriminate.
Qed.

Section Chain.

Variable classes : class_table.
Variable TYPE_CHECKING : bool.
Variable config_dict : ConfigDict.
Variable handler : Handler.

Lemma first_match_test_fails (t : test) (a : action) (r : list (test * action))
    (obj : pyobj) :
  eval_test classes TYPE_CHECKING t obj = Ret false ->
  first_match classes TYPE_CHECKING config_dict handler ((t, a) :: r) obj
  = first_match classes TYPE_CHECKING config_dict handler r obj.
Proof.
  intros H. simpl. rewrite H. reflexivity.
Qed.

Lemma first_match_test_holds (t : test) (a : action) (r : list (test * action))
    (obj : pyobj) :
  eval_test classes TYPE_CHECKING t obj = Ret true ->
  first_match classes TYPE_CHECKING config_dict handler ((t, a) :: r) obj
  = perform classes config_dict handler a obj.
Proof.
  intros H. simpl. rewrite H. reflexivity.
Qed.

Lemma first_match_test_raises (t : test) (a : action) (r : list (test * action))
    (obj : pyobj) (e : exn) :
  eval_test classes TYPE_CHECKING t obj = Raise e ->
  first_match classes TYPE_CHECKING config_dict handler ((t, a) :: r) obj = Raise e.
Proof.
  intros H. simpl. rewrite H. reflexivity.
Qed.

Lemma subclass_test (bases : list class_expr) (names : list string) (cls : string) :
  mapM (eval_class_expr TYPE_CHECKING) bases = Ret names ->
  eval_test classes TYPE_CHECKING (TypeAndSubclass bases) (PyClass cls)
  = Ret (issubclass classes cls names).
Proof.
  intros H. simpl. rewrite H. reflexivity.
Qed.

End Chain.

(** The classes the tests before line 379 ask about. *)
Lemma class_reaches_line_379 (classes : class_table) (config_dict : ConfigDict)
    (handler : Handler) (cls : string) :
  issubclass classes cls
    ["BaseModel"; "list"; "tuple"; "set"; "frozenset"; "dict"; "bool"; "int";
     "float"; "str"; "bytes"; "Enum"] = false ->
  match_type classes true config_dict handler (PyClass cls)
  = Raise (NameError "datetime").
Proof.
  intros H. unfold match_type, match_type_cases.
  repeat (rewrite first_match_test_fails;
          [| first
               [ reflexivity
               | erewrite subclass_test by reflexivity; f_equal;
                 eapply issubclass_subset; [| exact H]; simpl; tauto ] ]).
  apply first_match_test_raises. reflexivity.
Qed.

(** C7 (the code at the failing input).  An object that is no class and
    none of the four typing kinds does end at line 442 with
    [PydanticSchemaGenerationError].  A class does not come that far, and
    not to the case that matches it either: as the module is loaded the
    first test, line 335, raises [NameError] for every class, [BaseModel]
    being imported under [TYPE_CHECKING] only; and with [BaseModel] bound,
    every class the tests before line 379 do not answer for ends in
    [NameError] there, [datetime] being bound nowhere.  So [complex], which
    the case of line 439 matches, ends in [NameError], which is no
    [PydanticSchemaGenerationError]. *)
Theorem classification_raises_NameError_on_classes :
  forall (classes : class_table) (config_dict : ConfigDict) (handler : Handler)
         (obj : pyobj) (cls : string) (depth : nat)
         (from_dunder_get_core_schema : bool),
    (matches_no_case obj = true ->
     match_type classes false config_dict handler obj
     = Raise (PydanticSchemaGenerationError
                ("Unable to generate schema for " ++ format obj)))
    /\ match_type classes false config_dict handler (PyClass cls)
       = Raise (NameError "BaseModel")
    /\ (issubclass classes cls
          ["BaseModel"; "list"; "tuple"; "set"; "frozenset"; "dict"; "bool"; "int";
           "float"; "str"; "bytes"; "Enum"] = false ->
        match_type classes true config_dict handler (PyClass cls)
        = Raise (NameError "datetime"))
    /\ generate_schema builtins false config_dict (S depth) (PyClass "complex")
         from_dunder_get_core_schema
       = Raise (NameError "BaseModel")
    /\ generate_schema builtins true config_dict (S depth) (PyClass "complex")
         from_dunder_get_core_schema
       = Raise (NameError "datetime")
    /\ issubclass builtins "complex" ["object"] = true
    /\ is_PydanticSchemaGenerationError (NameError "BaseModel") = false
    /\ is_PydanticSchemaGenerationError (NameError "datetime") = false.
Proof.
  intros classes config_dict handler obj cls depth flag.
  split; [| split; [| split; [| split; [| split]]]].
  - intros Hno. apply first_match_no_test_holds. apply no_test_holds. exact Hno.
  - reflexivity.
  - apply class_reaches_line_379.
  - destruct flag; reflexivity.
  - destruct flag; reflexivity.
  - repeat split; reflexivity.
Qed.

(** C5 (the code at the failing inputs).  [generate_schema] hands no
    parameterized tuple to [_tuple_schema].  A subscripted form is no class:
    it fails every test of [match_type], the one of line 415 included, and
    ends at line 442 with [PydanticSchemaGenerationError], whatever its
    arguments and whether or not the hooks are looked up; so do
    [Tuple[int, str]] and [Tuple[int, ...]], for which [_tuple_schema],
    called directly, builds the positional and the variable-length schema.
    A class that passes the test of line 415 has passed the test of
    line 337 before and is answered there with a list schema.  Only the
    bare class [tuple] is compiled to a tuple schema, at line 224. *)
Theorem parameterized_tuple_is_not_compiled :
  forall (classes : class_table) (TYPE_CHECKING : bool) (config_dict : ConfigDict)
         (handler : Handler) (depth : nat) (origin : string) (args : list pyobj)
         (cls : string) (from_dunder_get_core_schema : bool),
    (isinstance__AnnotatedType (PyAlias origin args) = false ->
     generate_schema classes TYPE_CHECKING config_dict (S depth)
       (PyAlias origin args) from_dunder_get_core_schema
     = Raise (PydanticSchemaGenerationError
                ("Unable to generate schema for " ++ format (PyAlias origin args))))
    /\ generate_schema builtins false [] 2
         (PyAlias "Tuple" [PyClass "int"; PyClass "str"]) true
       = Raise (PydanticSchemaGenerationError
                  "Unable to generate schema for typing.Tuple[int, str]")
    /\ generate_schema builtins false [] 2
         (PyAlias "Tuple" [PyClass "int"; PyEllipsis]) true
       = Raise (PydanticSchemaGenerationError
                  "Unable to generate schema for typing.Tuple[int, ...]")
    /\ _tuple_schema (generate_schema builtins false [] 1)
         (PyAlias "Tuple" [PyClass "int"; PyClass "str"])
       = Ret (tuple_positional_schema [int_schema; str_schema])
    /\ _tuple_schema (generate_schema builtins false [] 1)
         (PyAlias "Tuple" [PyClass "int"; PyEllipsis])
       = Ret (tuple_variable_schema int_schema)
    /\ (issubclass classes cls ["tuple"] = true ->
        issubclass classes cls ["BaseModel"] = false ->
        match_type classes true config_dict handler (PyClass cls)
        = Ret (list_schema any_schema))
    /\ generate_schema classes TYPE_CHECKING config_dict (S depth)
         (PyClass "tuple") false
       = Ret (tuple_variable_schema any_schema).
Proof.
  intros classes tc config_dict handler depth origin args cls flag.
  split; [| split; [| split; [| split; [| split; [| split]]]]];
    try reflexivity.
  - intros Hann.
    assert (Hno : matches_no_case (PyAlias origin args) = true).
    { unfold matches_no_case. simpl. simpl in Hann. rewrite Hann. reflexivity. }
    destruct (unmatched_descriptor_raises_schema_generation_error classes tc
                config_dict handler (PyAlias origin args) Hno)
      as [_ [_ [Hoff Hon]]].
    destruct flag.
    + apply Hon; [reflexivity | exact I | exact I].
    + apply Hoff. reflexivity.
  - intros Htuple Hmodel. unfold match_type, match_type_cases.
    rewrite first_match_test_fails
      by (erewrite subclass_test by reflexivity; f_equal; exact Hmodel).
    rewrite first_match_test_holds; [reflexivity |].
    erewrite subclass_test by reflexivity. f_equal.
    unfold issubclass in *. simpl in *.
    rewrite orb_false_r in Htuple. rewrite Htuple. apply orb_true_r.
Qed.

(** C6 (the code at the failing input).  [generate_schema] on a
    [ForwardRef] reaches line 356 and calls [self._forward_ref_schema],
    which the class does not define: the call ends with [AttributeError],
    which is neither [PydanticUndefinedAnnotation] nor a [NameError]; a bare
    string annotation is compiled as [str].  [PydanticUndefinedAnnotation]
    itself is as errors.py declares it. *)
Theorem forward_ref_raises_attribute_error :
  forall (classes : class_table) (TYPE_CHECKING : bool) (config_dict : ConfigDict)
         (depth : nat) (arg : string) (from_dunder_get_core_schema : bool),
    generate_schema classes TYPE_CHECKING config_dict (S depth) (PyForwardRef arg)
      from_dunder_get_core_schema
    = Raise (AttributeError "_forward_ref_schema")
    /\ is_PydanticUndefinedAnnotation (AttributeError "_forward_ref_schema") = false
    /\ is_NameError (AttributeError "_forward_ref_schema") = false
    /\ generate_schema classes TYPE_CHECKING config_dict (S depth) (PyStr arg)
         from_dunder_get_core_schema
       = Ret str_schema
    /\ code (PydanticUndefinedAnnotation arg "unresolved") = Some "undefined-annotation"
    /\ is_NameError (PydanticUndefinedAnnotation arg "unresolved") = true.
Proof.
  intros classes tc cfg depth arg flag.
  repeat split; destruct flag; reflexivity.
Qed.

(** ** The hooks in [generate_schema] *)

Lemma is_not_None_iff (s : CoreSchema) : is_not_None s = true <-> s <> NoneValue.
Proof.
  destruct s; simpl; split; intros H; try reflexivity; try discriminate;
    try (intros E; discriminate E).
  exfalso. apply H. reflexivity.
Qed.

Lemma precomputed_attribute_fallback (classes : class_table) (TYPE_CHECKING : bool)
    (config_dict : ConfigDict) (depth : nat) (obj : pyobj) (p : CoreSchema) :
  override_yields_nothing classes
    (generate_schema classes TYPE_CHECKING config_dict depth) obj ->
  getattr classes __pydantic_core_schema__ obj = Some p ->
  p <> NoneValue ->
  generate_schema classes TYPE_CHECKING config_dict (S depth) obj true = Ret p.
Proof.
  intros Ho Ha Hp. apply is_not_None_iff in Hp.
  simpl. unfold generate_schema_body, _generate_schema_from_property.
  unfold override_yields_nothing in Ho. rewrite Ha.
  destruct (getattr classes __get_pydantic_core_schema__ obj) as [f |].
  - rewrite Ho. simpl. rewrite Hp. simpl. rewrite Hp. reflexivity.
  - rewrite Hp. simpl. rewrite Hp. reflexivity.
Qed.

(** C2 (as amended).  With hook lookup enabled, the final schema is what
    the override function returns whenever that is not [None], whatever the
    precomputed attribute holds and whatever kind of object it is; the
    precomputed attribute gives the final schema when it is not [None] and
    the override function is absent or has returned [None]. *)
Theorem override_function_result_is_final :
  forall (classes : class_table) (TYPE_CHECKING : bool) (config_dict : ConfigDict)
         (depth : nat) (obj : pyobj) (s : CoreSchema),
    s <> NoneValue ->
    (exists f, getattr classes __get_pydantic_core_schema__ obj = Some f
               /\ f (SourceType obj)
                    (generate_schema classes TYPE_CHECKING config_dict depth) = Ret s)
    \/ (override_yields_nothing classes
          (generate_schema classes TYPE_CHECKING config_dict depth) obj
        /\ getattr classes __pydantic_core_schema__ obj = Some s) ->
    generate_schema classes TYPE_CHECKING config_dict (S depth) obj true = Ret s.
Proof.
  intros classes tc cfg depth obj s Hs H.
  apply is_not_None_iff in Hs.
  simpl. unfold generate_schema_body, _generate_schema_from_property.
  destruct H as [[f [Hf Hr]] | [Ho Ha]].
  - rewrite Hf, Hr. simpl. rewrite Hs. simpl. rewrite Hs. reflexivity.
  - apply is_not_None_iff in Hs.
    apply precomputed_attribute_fallback; assumption.
Qed.

(** A run of C2's theorem: [Loud] has both, its override function wins. *)
Lemma override_function_result_is_final_witness :
  generate_schema hook_classes false [] 1 (PyClass "Loud") true
  = Ret (custom_schema "override").
Proof.
  apply override_function_result_is_final.
  - discriminate.
  - left. exists (hook_returning (custom_schema "override")).
    split; reflexivity.
Defined.

(** C2 as stated fails: [Silent] exposes an override function, and the
    schema [generate_schema] returns is not what that function returned
    ([None]) but the precomputed attribute, which was consulted although
    the override function is present. *)
Lemma override_returning_None_is_not_final :
  getattr hook_classes __get_pydantic_core_schema__ (PyClass "Silent")
  = Some (hook_returning NoneValue)
  /\ hook_returning NoneValue (SourceType (PyClass "Silent"))
       (generate_schema hook_classes false [] 0) = Ret NoneValue
  /\ getattr hook_classes __pydantic_core_schema__ (PyClass "Silent")
     = Some (custom_schema "precomputed")
  /\ generate_schema hook_classes false [] 1 (PyClass "Silent") true
     = Ret (custom_schema "precomputed").
Proof. repeat split; reflexivity. Qed.

(** ** Where [None] can come out of [generate_schema] *)

Section NeverNone.

Variable classes : class_table.
Variable TYPE_CHECKING : bool.
Variable config_dict : ConfigDict.
Variable handler : Handler.












End NeverNone.




(** ** Cyclic models *)


Lemma dict_get_In {V : Type} (d : dict V) (k : string) (v : V) :
  dict_get d k = Some v -> In (k, v) d.
Proof.
  induction d as [| [k0 v0] r IH]; simpl; intros H.
  - discriminate.
  - destruct (String.eqb k0 k) eqn:E.
    + apply String.eqb_eq in E. injection H as ->. subst. left. reflexivity.
    + right. apply IH. exact H.
Qed.

Lemma not_directly_compiled (name : string) :
  mem name directly_compiled = false ->
  forall classes tc cfg handler,
    generate_schema_structural classes tc cfg handler (PyClass name)
    = match_type classes tc cfg handler (PyClass name).
Proof.
  unfold mem, directly_compiled. simpl. intros H classes tc cfg handler.
  unfold generate_schema_structural. simpl.
  repeat (apply orb_false_iff in H; destruct H as [E H]; rewrite E; clear E).
  reflexivity.
Qed.


(** Line 335 as the module is loaded: [BaseModel] is imported under
    [TYPE_CHECKING] only, so the first test raises for every class. *)
Lemma match_type_without_BaseModel (classes : class_table) (config_dict : ConfigDict)
    (handler : Handler) (cls : string) :
  match_type classes false config_dict handler (PyClass cls)
  = Raise (NameError "BaseModel").
Proof. reflexivity. Qed.


Lemma cyclic_step (config_dict : ConfigDict) (handler : Handler)
    (cls field next : string) :
  In (cls, field, next) [("A", "a", "A"); ("B", "c", "C"); ("C", "b", "B")] ->
  handler (PyClass next) true = Raise RecursionError ->
  generate_schema_body cyclic_classes true config_dict handler (PyClass cls) true
  = Raise RecursionError.
Proof.
  intros Hin Hnext. simpl in Hin.
  destruct Hin as [E | [E | [E | []]]]; injection E as <- <- <-;
    cbn; rewrite Hnext; reflexivity.
Qed.

(** C1 (the code at the failing inputs).  With [BaseModel] bound, the
    self-referential model [A] and the mutually referential models [B] and
    [C] end in [RecursionError] at every recursion limit: no schema and no
    [definition_ref] comes out.  As the module is loaded ([BaseModel] not
    bound) each ends in [NameError] at line 335.  [get_schema_or_ref] yields
    no reference even for a ref already in [seen], and leaves the registry
    as it was. *)
Theorem cyclic_models_never_compile :
  forall (config_dict : ConfigDict) (recursion_limit : nat),
    generate_schema cyclic_classes true config_dict recursion_limit (PyClass "A") true
    = Raise RecursionError
    /\ generate_schema cyclic_classes true config_dict recursion_limit (PyClass "B") true
       = Raise RecursionError
    /\ generate_schema cyclic_classes true config_dict recursion_limit (PyClass "C") true
       = Raise RecursionError
    /\ generate_schema cyclic_classes false config_dict (S recursion_limit)
         (PyClass "A") true
       = Raise (NameError "BaseModel")
    /\ generate_schema cyclic_classes false config_dict (S recursion_limit)
         (PyClass "B") true
       = Raise (NameError "BaseModel")
    /\ get_schema_or_ref {| seen := ["A"]; definitions := [] |} (PyClass "A")
       = ({| seen := ["A"]; definitions := [] |},
          Raise (TypeError "'NoneType' object is not an iterator")).
Proof.
  intros cfg limit.
  assert (H : generate_schema cyclic_classes true cfg limit (PyClass "A") true
              = Raise RecursionError
              /\ generate_schema cyclic_classes true cfg limit (PyClass "B") true
                 = Raise RecursionError
              /\ generate_schema cyclic_classes true cfg limit (PyClass "C") true
                 = Raise RecursionError).
  { induction limit as [| n [IHA [IHB IHC]]].
    - repeat split; reflexivity.
    - change (generate_schema cyclic_classes true cfg (S n)) with
        (generate_schema_body cyclic_classes true cfg
           (generate_schema cyclic_classes true cfg n)).
      split; [| split].
      + apply (cyclic_step cfg _ "A" "a" "A"); [simpl; tauto | exact IHA].
      + apply (cyclic_step cfg _ "B" "c" "C"); [simpl; tauto | exact IHC].
      + apply (cyclic_step cfg _ "C" "b" "B"); [simpl; tauto | exact IHB]. }
  destruct H as [HA [HB HC]].
  repeat split; try assumption; reflexivity.
Qed.

(** ** [_literal_schema] *)

(** C4 (the code at the failing input).  [all_literal_values] flattens
    [Literal[Literal[Literal[1, 2], "foo"], 5]] to [1, 2, "foo", 5].
    [_literal_schema] does not call it: whatever [isinstance(arg, Literal)]
    answers for each member, its result is not the literal schema over the
    flattened values; when the test answers [True] exactly for the [Literal]
    members, one level is unpacked and [Literal[1, 2]] remains a permitted
    value. *)
Theorem literal_schema_flattens_one_level_only :
  forall (isinstance_Literal : pyobj -> outcome bool),
    all_literal_values nested_literal = [PyInt 1; PyInt 2; PyStr "foo"; PyInt 5]
    /\ _literal_schema isinstance_Literal nested_literal
       <> Ret (literal_schema (all_literal_values nested_literal))
    /\ _literal_schema (fun arg => Ret (origin_in_LITERAL_TYPES arg)) nested_literal
       = Ret (literal_schema
                [PyAlias "Literal" [PyInt 1; PyInt 2]; PyStr "foo"; PyInt 5]).
Proof.
  intros isL. split; [reflexivity | split; [| reflexivity]].
  unfold _literal_schema, nested_literal. simpl.
  destruct (isL (PyAlias "Literal"
                   [PyAlias "Literal" [PyInt 1; PyInt 2]; PyStr "foo"]))
    as [[|] | e]; simpl; try discriminate;
    destruct (isL (PyInt 5)) as [[|] | e]; simpl; discriminate.
Qed.

(** ** Error codes *)

Lemma check_fields_exist_code (all_fields fields_set remaining : list string) (e : exn) :
  check_fields_exist all_fields fields_set remaining = Raise e ->
  code e = Some "validator-field".
Proof.
  induction remaining as [| f r IH]; simpl; intros H.
  - discriminate.
  - destruct (negb (mem f fields_set)).
    + injection H as <-. reflexivity.
    + apply IH. exact H.
Qed.

(** Every error [check_decorator_fields_exist] raises has the code
    ['validator-field']. *)
Lemma check_decorator_fields_exist_code (decorators : list Decorator)
    (field_names : list string) (e : exn) :
  check_decorator_fields_exist decorators field_names = Raise e ->
  code e = Some "validator-field".
Proof.
  induction decorators as [| dec r IH]; simpl; intros H.
  - discriminate.
  - destruct (truthy (check_fields (info dec))
              && negb (Nat.eqb (List.length (fields (info dec))) 0)
              && negb (mem "*" (fields (info dec)))).
    + destruct (check_fields_exist (fields (info dec)) field_names (fields (info dec)))
        as [[] | e'] eqn:E; simpl in H.
      * apply IH. exact H.
      * injection H as <-. eapply check_fields_exist_code. exact E.
    + simpl in H. apply IH. exact H.
Qed.

(** C8 (the code at the failing inputs).  A validator declared for a field
    the model does not have makes [check_decorator_fields_exist] raise
    [PydanticUserError] with the code ['validator-field'], and
    [typing.TypedDict] as [origin] below Python 3.12 makes
    [_typed_dict_schema] raise it with the code ['typing-typeddict'];
    neither code is a member of [PydanticErrorCodes], which has
    ['typed-dict-version'], ['decorator-missing-field'] and the code of
    [PydanticSchemaGenerationError]. *)
Theorem user_error_codes_not_in_PydanticErrorCodes :
  check_decorator_fields_exist [field_validator "check" "Model.check" "missing" after]
    ["x"; "y"]
  = Raise (PydanticUserError
             "Decorators defined with fields ['missing'] but missing not found in model"
             (Some "validator-field"))
  /\ is_error_code "validator-field" = false
  /\ _typed_dict_schema typed_dict_classes
       (generate_schema typed_dict_classes false [] 1) false "Movie" "TypedDict"
     = Raise (PydanticUserError
                "Please use `typing_extensions.TypedDict` instead of `typing.TypedDict` on Python < 3.12."
                (Some "typing-typeddict"))
  /\ is_error_code "typing-typeddict" = false
  /\ is_error_code "typed-dict-version" = true
  /\ is_error_code "decorator-missing-field" = true
  /\ code (PydanticSchemaGenerationError "Unable to generate schema for 1")
     = Some "schema-for-unknown-type"
  /\ is_error_code "schema-for-unknown-type" = true.
Proof. repeat split; reflexivity. Qed.

(** ** [apply_validators] *)

(** C9 (the code at the failing input).  For two [after] validators
    declared in the order [v1], [v2], [_VALIDATOR_F_MATCH] would build
    [v2] around [v1] around the inner schema, which is a schema;
    [apply_validators] returns [None] instead. *)
Theorem apply_validators_returns_None :
  forall (inner : CoreSchema) (field_name : option string),
    apply_validators inner
      [field_validator "v1" "Model.v1" "x" after;
       field_validator "v2" "Model.v2" "x" after] field_name
    = NoneValue
    /\ _VALIDATOR_F_MATCH (after, no_info) "Model.v2"
         (_VALIDATOR_F_MATCH (after, no_info) "Model.v1" inner field_name) field_name
       = no_info_after_validator_function "Model.v2"
           (no_info_after_validator_function "Model.v1" inner)
    /\ is_not_None
         (_VALIDATOR_F_MATCH (after, no_info) "Model.v2"
            (_VALIDATOR_F_MATCH (after, no_info) "Model.v1" inner field_name)
            field_name)
       = true.
Proof. intros inner field_name. repeat split; reflexivity. Qed.


(** ** [all_literal_values] *)

(** Induction on a descriptor together with its arguments. *)
Lemma pyobj_nested_ind (P : pyobj -> Prop) :
  (forall o, get_origin o = None -> P o) ->
  (forall origin args, Forall P args -> P (PyAlias origin args)) ->
  forall o, P o.
Proof.
  intros Hleaf Halias. fix IH 1. intros o.
  destruct o as [n | s | z | | | c i | a | tv | ta | origin args];
    try (apply Hleaf; reflexivity).
  apply Halias. induction args as [| x r IHr].
  - constructor.
  - constructor; [apply IH | exact IHr].
Qed.

(** [all_literal_values] flattens nested [Literal] forms to any depth.  The
    values of a [Literal] are those of its members in order, one segment
    after the other; a member that is itself a [Literal] contributes exactly
    what it has as values, a member that is not contributes itself; a type
    that is no [Literal] has no values; and no value returned is a
    [Literal] form. *)
Theorem all_literal_values_is_flat :
  forall (type_ member : pyobj) (first_members more_members inner : list pyobj),
    Forall (fun v => origin_in_LITERAL_TYPES v = false) (all_literal_values type_)
    /\ all_literal_values (PyAlias "Literal" (first_members ++ more_members))
       = (all_literal_values (PyAlias "Literal" first_members)
          ++ all_literal_values (PyAlias "Literal" more_members))%list
    /\ all_literal_values (PyAlias "Literal" [PyAlias "Literal" inner])
       = all_literal_values (PyAlias "Literal" inner)
    /\ (origin_in_LITERAL_TYPES member = false ->
        all_literal_values (PyAlias "Literal" [member]) = [member])
    /\ (origin_in_LITERAL_TYPES type_ = false -> all_literal_values type_ = []).
Proof.
  intros type_ member l1 l2 inner. split; [| split; [| split; [| split]]].
  - induction type_ as [o Ho | origin args IH] using pyobj_nested_ind.
    + destruct o; try constructor. discriminate Ho.
    + simpl. destruct (String.eqb origin "Literal"); simpl; [| constructor].
      induction IH as [| x r Hx Hr IHr]; simpl.
      * constructor.
      * apply Forall_app. split; [| exact IHr].
        destruct (origin_in_LITERAL_TYPES x) eqn:E.
        -- exact Hx.
        -- constructor; [exact E | constructor].
  - simpl. apply flat_map_app.
  - simpl. apply app_nil_r.
  - intros H. simpl. rewrite H. reflexivity.
  - intros H. destruct type_; try reflexivity.
    unfold origin_in_LITERAL_TYPES in H. simpl in H. simpl. rewrite H. reflexivity.
Qed.

(** On a [Literal] none of whose members is a [Literal], the values are the
    members as declared. *)
Theorem all_literal_values_of_flat_literal :
  forall args : list pyobj,
    forallb (fun arg => negb (origin_in_LITERAL_TYPES arg)) args = true ->
    all_literal_values (PyAlias "Literal" args) = args.
Proof.
  intros args H. simpl. induction args as [| a r IH]; simpl.
  - reflexivity.
  - simpl in H. apply andb_true_iff in H. destruct H as [Ha Hr].
    apply negb_true_iff in Ha. rewrite Ha. simpl. f_equal. apply IH. exact Hr.
Qed.

Lemma all_literal_values_of_flat_literal_witness :
  all_literal_values (PyAlias "Literal" [PyInt 1; PyStr "a"; PyNone])
  = [PyInt 1; PyStr "a"; PyNone].
Proof.
  apply all_literal_values_of_flat_literal. reflexivity.
Defined.

(** ** Classes in [match_type] *)

(** As the module is loaded, [match_type] ends with [NameError] for every
    class, at the first test; and were [BaseModel] bound, the test of line
    379 would raise [NameError] for every class that comes that far. *)
Theorem match_type_raises_NameError_on_classes :
  forall (classes : class_table) (config_dict : ConfigDict) (handler : Handler)
         (cls : string),
    match_type classes false config_dict handler (PyClass cls)
    = Raise (NameError "BaseModel")
    /\ eval_test classes true
         (TypeAndSubclass [Global "datetime"; Global "date"; Global "time";
                           Global "timedelta"]) (PyClass cls)
       = Raise (NameError "datetime").
Proof. intros. split; reflexivity. Qed.

(* ================================================================== *)
(** * Further properties of the code *)

(** ** [check_decorator_fields_exist] and
       [check_validator_fields_against_field_name] *)

Lemma check_fields_exist_passes_iff (all_fields names remaining : list string) :
  check_fields_exist all_fields names remaining = Ret tt
  <-> (forall f, In f remaining -> In f names).
Proof.
  induction remaining as [| f r IH]; simpl.
  - split; [intros _ f [] | reflexivity].
  - destruct (mem f names) eqn:E; simpl.
    + apply mem_In in E. rewrite IH. split.
      * intros H g [<- | Hg]; [exact E | apply H; exact Hg].
      * intros H g Hg. apply H. right. exact Hg.
    + split; [discriminate |].
      intros H. assert (Hin : In f names) by (apply H; left; reflexivity).
      apply mem_In in Hin. rewrite Hin in E. discriminate.
Qed.

Lemma check_fields_exist_raises (all_fields names remaining : list string) (e : exn) :
  check_fields_exist all_fields names remaining = Raise e ->
  exists field,
    In field remaining /\ ~ In field names
    /\ e = PydanticUserError
             ("Decorators defined with fields " ++ repr_list all_fields
                ++ " but " ++ field ++ " not found in model")
             (Some "validator-field").
Proof.
  induction remaining as [| f r IH]; simpl; intros H.
  - discriminate.
  - destruct (mem f names) eqn:E; simpl in H.
    + destruct (IH H) as [field [Hin [Hnot He]]].
      exists field. split; [right; exact Hin |]. split; assumption.
    + injection H as <-. exists f. split; [left; reflexivity |]. split.
      * intros Hin. apply mem_In in Hin. rewrite Hin in E. discriminate.
      * reflexivity.
Qed.

(** The check passes exactly when every decorator that is to be checked
    ([check_fields] set, some field named, no ['*']) names fields of the
    model only. *)
Theorem check_decorator_fields_exist_passes_iff :
  forall (decorators : list Decorator) (names : list string),
    check_decorator_fields_exist decorators names = Ret tt
    <-> Forall (fun dec => is_checked dec = true ->
                           forall f, In f (fields (info dec)) -> In f names)
          decorators.
Proof.
  intros decorators names. induction decorators as [| dec r IH]; simpl.
  - split; [constructor | reflexivity].
  - fold (is_checked dec). destruct (is_checked dec) eqn:E.
    + destruct (check_fields_exist (fields (info dec)) names (fields (info dec)))
        as [[] | e] eqn:Ec; simpl.
      * rewrite IH.
        pose proof (proj1 (check_fields_exist_passes_iff _ _ _) Ec) as Hall. split.
        -- intros H. constructor; [intros _; exact Hall | exact H].
        -- intros H. inversion H. assumption.
      * split; [discriminate |]. intros H. inversion H as [| x l Hd Hr]; subst.
        specialize (Hd E).
        pose proof (proj2 (check_fields_exist_passes_iff (fields (info dec)) _ _) Hd)
          as Hpass.
        rewrite Hpass in Ec. discriminate.
    + simpl. rewrite IH. split.
      * intros H. constructor; [| exact H].
        intros Hc. rewrite E in Hc. discriminate.
      * intros H. inversion H. assumption.
Qed.

(** When the check fails, the error is a [PydanticUserError] whose message
    prints the fields of a decorator that was to be checked and one of them
    that the model does not have. *)
Theorem check_decorator_fields_exist_names_missing_field :
  forall (decorators : list Decorator) (names : list string) (e : exn),
    check_decorator_fields_exist decorators names = Raise e ->
    exists dec field,
      In dec decorators /\ is_checked dec = true
      /\ In field (fields (info dec)) /\ ~ In field names
      /\ e = PydanticUserError (missing_field_message dec field)
               (Some "validator-field").
Proof.
  intros decorators names e. induction decorators as [| dec r IH]; simpl; intros H.
  - discriminate.
  - fold (is_checked dec) in H. destruct (is_checked dec) eqn:E.
    + destruct (check_fields_exist (fields (info dec)) names (fields (info dec)))
        as [[] | e'] eqn:Ec; simpl in H.
      * destruct (IH H) as [d [f [Hd Hrest]]].
        exists d, f. split; [right; exact Hd | exact Hrest].
      * injection H as <-. apply check_fields_exist_raises in Ec.
        destruct Ec as [field [Hin [Hnot He]]].
        exists dec, field. split; [left; reflexivity |].
        split; [exact E |]. split; [exact Hin |]. split; [exact Hnot | exact He].
    + simpl in H. destruct (IH H) as [d [f [Hd Hrest]]].
      exists d, f. split; [right; exact Hd | exact Hrest].
Qed.

Lemma check_decorator_fields_exist_names_missing_field_witness :
  exists dec field,
    In dec [field_validator "check" "Model.check" "x" after;
            field_validator "other" "Model.other" "w" before]
    /\ is_checked dec = true
    /\ In field (fields (info dec)) /\ ~ In field ["x"; "y"]
    /\ PydanticUserError
         "Decorators defined with fields ['w'] but w not found in model"
         (Some "validator-field")
       = PydanticUserError (missing_field_message dec field) (Some "validator-field").
Proof.
  apply (check_decorator_fields_exist_names_missing_field
           [field_validator "check" "Model.check" "x" after;
            field_validator "other" "Model.other" "w" before] ["x"; "y"]).
  reflexivity.
Defined.

(** A decorator without fields, or with ['*'] among them, applies to every
    field name and never makes the check fail; a decorator that was checked
    and passed applies to fields of the model only. *)
Theorem decorator_applies_to_model_fields_only :
  forall (dec : Decorator) (names : list string) (field : string),
    (is_checked dec = true ->
     check_decorator_fields_exist [dec] names = Ret tt ->
     check_validator_fields_against_field_name (info dec) field = true ->
     In field names)
    /\ (fields (info dec) = [] \/ In "*" (fields (info dec)) ->
        check_validator_fields_against_field_name (info dec) field = true
        /\ check_decorator_fields_exist [dec] names = Ret tt).
Proof.
  intros dec names field. split.
  - intros Hc Hpass Happ.
    pose proof (proj1 (check_decorator_fields_exist_passes_iff _ _) Hpass) as Hall.
    inversion Hall as [| x l Hd _]; subst. specialize (Hd Hc).
    apply Hd. unfold check_validator_fields_against_field_name in Happ.
    unfold is_checked in Hc.
    apply andb_true_iff in Hc. destruct Hc as [Hc Hstar].
    apply andb_true_iff in Hc. destruct Hc as [_ Hlen].
    apply negb_true_iff in Hstar. apply negb_true_iff in Hlen.
    rewrite Hlen, Hstar in Happ. apply mem_In. exact Happ.
  - intros H. unfold check_validator_fields_against_field_name. simpl.
    destruct H as [H | H].
    + rewrite H. simpl. rewrite andb_false_r. split; reflexivity.
    + apply mem_In in H. rewrite H. simpl. rewrite andb_false_r.
      split; [| reflexivity].
      destruct (Nat.eqb (List.length (fields (info dec))) 0); reflexivity.
Qed.

Lemma decorator_applies_to_model_fields_only_witness :
  In "x" ["x"; "y"]
  /\ (check_validator_fields_against_field_name
        {| fields := ["*"]; check_fields := Some true; mode := after |} "anything" = true
      /\ check_decorator_fields_exist
           [{| cls_var_name := "all"; func := "Model.all"; info_arg := no_info;
               info := {| fields := ["*"]; check_fields := Some true; mode := after |} |}]
           ["x"; "y"] = Ret tt).
Proof.
  split.
  - apply (decorator_applies_to_model_fields_only
             (field_validator "check" "Model.check" "x" after) ["x"; "y"] "x");
      reflexivity.
  - apply (decorator_applies_to_model_fields_only
             {| cls_var_name := "all"; func := "Model.all"; info_arg := no_info;
                info := {| fields := ["*"]; check_fields := Some true; mode := after |} |}
             ["x"; "y"] "anything").
    right. simpl. tauto.
Defined.

(** ** What [generate_schema] can compile as the module is loaded *)

Lemma structural_of_unmatched (classes : class_table) (TYPE_CHECKING : bool)
    (config_dict : ConfigDict) (handler : Handler) (obj : pyobj) :
  matches_no_case obj = true ->
  isinstance_str obj = false ->
  generate_schema_structural classes TYPE_CHECKING config_dict handler obj
  = Raise (PydanticSchemaGenerationError
             ("Unable to generate schema for " ++ format obj)).
Proof.
  intros Hno Hstr. unfold generate_schema_structural. rewrite Hstr.
  assert (Hm : match_type classes TYPE_CHECKING config_dict handler obj
               = Raise (PydanticSchemaGenerationError
                          ("Unable to generate schema for " ++ format obj))).
  { apply first_match_no_test_holds. apply no_test_holds. exact Hno. }
  destruct obj; try exact Hm. discriminate Hno.
Qed.

(** With hook lookup disabled and [BaseModel] unbound, as at run time, an
    object that is no [Annotated] form is compiled exactly when it is a
    string or one of the ten built-in classes of lines 206 to 225: every
    other class ends in [NameError], every other object in an error of
    [match_type]. *)
Theorem generate_schema_compiles_strings_and_builtins_only :
  forall (classes : class_table) (config_dict : ConfigDict) (depth : nat)
         (obj : pyobj),
    isinstance__AnnotatedType obj = false ->
    returned (generate_schema classes false config_dict (S depth) obj false)
    = isinstance_str obj || is_directly_compiled obj.
Proof.
  intros classes cfg depth obj Hann.
  change (generate_schema classes false cfg (S depth) obj false)
    with (generate_schema_structural classes false cfg
            (generate_schema classes false cfg depth) obj).
  destruct obj as [name | s | z | | | c i | a | tv | ta | origin args];
    try reflexivity.
  - cbn [isinstance_str is_directly_compiled orb].
    destruct (mem name directly_compiled) eqn:E.
    + unfold generate_schema_structural. simpl.
      unfold mem, directly_compiled in E. simpl in E.
      repeat (match goal with
              | |- context [if String.eqb name ?b then _ else _] =>
                  destruct (String.eqb name b); [reflexivity |]
              end).
      discriminate E.
    + rewrite (not_directly_compiled name E), match_type_without_BaseModel.
      reflexivity.
  - rewrite structural_of_unmatched; [reflexivity | | reflexivity].
    unfold matches_no_case. simpl. simpl in Hann. rewrite Hann. reflexivity.
Qed.

Lemma generate_schema_compiles_strings_and_builtins_only_witness :
  returned (generate_schema builtins false [] 1 (PyClass "complex") false)
  = isinstance_str (PyClass "complex") || is_directly_compiled (PyClass "complex").
Proof.
  apply generate_schema_compiles_strings_and_builtins_only. reflexivity.
Defined.

(** ** [_annotated_schema] *)

Section Annotated.

Variable classes : class_table.
Variable handler : Handler.

Lemma apply_all_metadata_app (s : CoreSchema) (m1 m2 : list pyobj) :
  apply_all_metadata classes handler s (m1 ++ m2)
  = (s' <- apply_all_metadata classes handler s m1 ;;
     apply_all_metadata classes handler s' m2).
Proof.
  revert s. induction m1 as [| m r IH]; intros s; simpl.
  - reflexivity.
  - destruct (apply_metadata classes handler s m) as [s' | e]; simpl.
    + apply IH.
    + reflexivity.
Qed.

Lemma apply_all_plain_metadata (s : CoreSchema) (metadata : list pyobj) :
  forallb (plain_metadata classes) metadata = true ->
  apply_all_metadata classes handler s metadata = Ret s.
Proof.
  induction metadata as [| m r IH]; simpl; intros H.
  - reflexivity.
  - apply andb_true_iff in H. destruct H as [Hm Hr].
    unfold apply_metadata. unfold plain_metadata in Hm.
    destruct (getattr classes __get_pydantic_core_schema__ m); [discriminate |].
    destruct (getattr classes __pydantic_core_schema__ m); [discriminate |].
    simpl. apply IH. exact Hr.
Qed.

End Annotated.

Lemma annotated_schema_app (classes : class_table) (handler : Handler)
    (origin : string) (base : pyobj) (m1 m2 : list pyobj) :
  _annotated_schema classes handler (PyAlias origin (base :: m1 ++ m2))
  = (s <- _annotated_schema classes handler (PyAlias origin (base :: m1)) ;;
     apply_all_metadata classes handler s m2).
Proof.
  unfold _annotated_schema. simpl.
  destruct (handler base true) as [s | e]; simpl.
  - apply apply_all_metadata_app.
  - reflexivity.
Qed.

(** Metadata is applied from left to right: compiling
    [Annotated[T, *m1, *m2]] is compiling [Annotated[T, *m1]] and then
    applying the items of [m2] to its result; a failure in the first part
    ends the call. *)
Theorem annotated_schema_applies_metadata_left_to_right :
  forall (classes : class_table) (handler : Handler) (origin : string)
         (base : pyobj) (m1 m2 : list pyobj),
    _annotated_schema classes handler (PyAlias origin (base :: m1 ++ m2))
    = (s <- _annotated_schema classes handler (PyAlias origin (base :: m1)) ;;
       apply_all_metadata classes handler s m2).
Proof.
  intros classes handler origin base m1 m2. apply annotated_schema_app.
Qed.

(** Metadata items that expose neither [__get_pydantic_core_schema__] nor
    [__pydantic_core_schema__] change nothing: the [Annotated] form compiles
    to what its first argument compiles to, errors included. *)
Theorem annotated_schema_ignores_plain_metadata :
  forall (classes : class_table) (handler : Handler) (origin : string)
         (base : pyobj) (metadata : list pyobj),
    forallb (plain_metadata classes) metadata = true ->
    _annotated_schema classes handler (PyAlias origin (base :: metadata))
    = handler base true.
Proof.
  intros classes handler origin base metadata H. unfold _annotated_schema. simpl.
  destruct (handler base true) as [s | e]; simpl.
  - apply apply_all_plain_metadata. exact H.
  - reflexivity.
Qed.

Lemma annotated_schema_ignores_plain_metadata_witness :
  _annotated_schema builtins (generate_schema builtins false [] 1)
    (PyAlias "Annotated" [PyClass "int"; PyInt 3; PyStr "unit"])
  = generate_schema builtins false [] 1 (PyClass "int") true.
Proof.
  apply annotated_schema_ignores_plain_metadata. reflexivity.
Defined.

(** A metadata item with a precomputed schema and no override function
    replaces whatever was built before it: when the items before it return,
    and only plain items follow, the result is that schema, whatever the
    first argument is. *)
Theorem annotated_schema_precomputed_replaces :
  forall (classes : class_table) (handler : Handler) (origin : string)
         (base : pyobj) (before_it after_it : list pyobj) (meta : pyobj)
         (s p : CoreSchema),
    _annotated_schema classes handler (PyAlias origin (base :: before_it)) = Ret s ->
    getattr classes __get_pydantic_core_schema__ meta = None ->
    getattr classes __pydantic_core_schema__ meta = Some p ->
    forallb (plain_metadata classes) after_it = true ->
    _annotated_schema classes handler
      (PyAlias origin (base :: before_it ++ meta :: after_it))
    = Ret p.
Proof.
  intros classes handler origin base m1 m2 meta s p Hs Hg Hp Hplain.
  rewrite annotated_schema_app, Hs. simpl.
  unfold apply_metadata. rewrite Hg, Hp. simpl.
  apply apply_all_plain_metadata. exact Hplain.
Qed.

Lemma annotated_schema_precomputed_replaces_witness :
  _annotated_schema metadata_classes (generate_schema metadata_classes false [] 1)
    (PyAlias "Annotated"
       ([PyClass "int"; PyInt 3] ++ PyInstance "Precomputed" 0 :: [PyStr "unit"]))
  = Ret (custom_schema "precomputed").
Proof.
  apply (annotated_schema_precomputed_replaces metadata_classes
           (generate_schema metadata_classes false [] 1) "Annotated" (PyClass "int")
           [PyInt 3] [PyStr "unit"] (PyInstance "Precomputed" 0) int_schema);
    reflexivity.
Defined.

(** ** The builders over type arguments *)

Lemma mapM_returns {A B : Type} (f : A -> outcome B) (l : list A) :
  Forall (fun a => returned (f a) = true) l -> exists bs, mapM f l = Ret bs.
Proof.
  induction 1 as [| a r Ha Hr [bs IH]]; simpl.
  - exists []. reflexivity.
  - destruct (f a) as [b | e]; [| discriminate]. simpl. rewrite IH. simpl.
    exists (b :: bs). reflexivity.
Qed.

Lemma mapM_first_failure {A B : Type} (f : A -> outcome B)
    (l1 l2 : list A) (a : A) (e : exn) :
  Forall (fun x => returned (f x) = true) l1 ->
  f a = Raise e ->
  mapM f (l1 ++ a :: l2) = Raise e.
Proof.
  induction 1 as [| x r Hx Hr IH]; simpl; intros Ha.
  - rewrite Ha. reflexivity.
  - destruct (f x) as [b | e']; [| discriminate]. simpl. rewrite (IH Ha). reflexivity.
Qed.

Lemma mapM_raises_inv {A B : Type} (f : A -> outcome B) (l : list A) (e : exn) :
  mapM f l = Raise e -> exists a, In a l /\ f a = Raise e.
Proof.
  induction l as [| x r IH]; simpl; intros H.
  - discriminate.
  - destruct (f x) as [b | e'] eqn:Hx; simpl in H.
    + destruct (mapM f r) as [bs | e''] eqn:Hr; simpl in H; [discriminate |].
      injection H as <-. destruct (IH eq_refl) as [a [Hin Ha]].
      exists a. split; [right; exact Hin | exact Ha].
    + injection H as <-. exists x. split; [left; reflexivity | exact Hx].
Qed.

Lemma removelast_app_cons {A : Type} (l1 l2 : list A) (a b : A) :
  removelast (l1 ++ a :: b :: l2) = (l1 ++ a :: removelast (b :: l2))%list.
Proof.
  rewrite removelast_app by discriminate. reflexivity.
Qed.

(** A union without arguments compiles to [any], without compiling
    anything; otherwise each member is compiled, and the choices are the
    members' schemas in the order the members are declared.
    [_union_is_subclass_schema] does the same and wraps nothing. *)
Theorem union_schema_shapes :
  forall (handler : Handler) (union_type : pyobj),
    (get_args union_type = [] -> _union_schema handler union_type = Ret any_schema)
    /\ (forall ss,
          get_args union_type <> [] ->
          Forall2 (fun arg s => handler arg true = Ret s) (get_args union_type) ss ->
          _union_schema handler union_type = Ret (union_schema ss)
          /\ List.length ss = List.length (get_args union_type))
    /\ _union_is_subclass_schema handler union_type
       = _union_schema handler union_type.
Proof.
  intros handler union_type. unfold _union_schema, _union_is_subclass_schema.
  split; [| split; [| reflexivity]].
  - intros ->. reflexivity.
  - intros ss Hne HF.
    destruct (get_args union_type) as [| a r] eqn:E; [contradiction |].
    split.
    + apply mapM_Forall2 in HF. rewrite HF. reflexivity.
    + symmetry. eapply Forall2_length. exact HF.
Qed.

Lemma union_schema_shapes_witness :
  _union_schema (generate_schema builtins false [] 1) PyNone = Ret any_schema
  /\ (_union_schema (generate_schema builtins false [] 1)
        (PyAlias "Union" [PyClass "int"; PyClass "str"; PyClass "bool"])
      = Ret (union_schema [int_schema; str_schema; bool_schema])
      /\ List.length [int_schema; str_schema; bool_schema] = 3).
Proof.
  split.
  - destruct (union_schema_shapes (generate_schema builtins false [] 1) PyNone)
      as [H _].
    apply H. reflexivity.
  - destruct (union_schema_shapes (generate_schema builtins false [] 1)
                (PyAlias "Union" [PyClass "int"; PyClass "str"; PyClass "bool"]))
      as [_ [H _]].
    apply (H [int_schema; str_schema; bool_schema]).
    + simpl. discriminate.
    + repeat constructor.
Defined.

(** The builders compile their arguments from left to right and stop at
    the first one that fails: the union, the positional tuple and the
    callable (whose last argument is the return type) raise the exception of
    that argument, whatever the later arguments are. *)
Theorem builders_raise_the_first_failure :
  forall (handler : Handler) (tp : pyobj) (earlier later : list pyobj)
         (arg : pyobj) (e : exn),
    get_args tp = (earlier ++ arg :: later)%list ->
    Forall (fun a => returned (handler a true) = true) earlier ->
    handler arg true = Raise e ->
    _union_schema handler tp = Raise e
    /\ _union_is_subclass_schema handler tp = Raise e
    /\ (variadic (get_args tp) = false -> _tuple_schema handler tp = Raise e)
    /\ _callable_schema handler tp = Raise e.
Proof.
  intros handler tp earlier later arg e Hargs Hearlier Harg.
  pose proof (mapM_first_failure (fun a => handler a true) earlier later arg e
                Hearlier Harg) as Hmap.
  unfold _union_schema, _union_is_subclass_schema, _tuple_schema, _callable_schema.
  rewrite Hargs in *.
  destruct (earlier ++ arg :: later)%list as [| a r] eqn:E.
  { destruct earlier; discriminate E. }
  split; [rewrite Hmap; reflexivity |].
  split; [rewrite Hmap; reflexivity |]. split.
  - intros Hv. fold (variadic (a :: r)). rewrite Hv, Hmap. reflexivity.
  - rewrite <- E. destruct later as [| b later'].
    + rewrite removelast_last, last_last.
      destruct (mapM_returns (fun a => handler a true) earlier Hearlier) as [bs Hbs].
      rewrite Hbs. simpl. rewrite Harg. reflexivity.
    + rewrite removelast_app_cons.
      rewrite (mapM_first_failure (fun a => handler a true) earlier
                 (removelast (b :: later')) arg e Hearlier Harg).
      reflexivity.
Qed.

Lemma builders_raise_the_first_failure_witness :
  _union_schema (generate_schema builtins false [] 1)
    (PyAlias "Union" ([PyClass "int"] ++ PyForwardRef "Later" :: [PyInt 3]))
  = Raise (AttributeError "_forward_ref_schema")
  /\ _union_is_subclass_schema (generate_schema builtins false [] 1)
       (PyAlias "Union" ([PyClass "int"] ++ PyForwardRef "Later" :: [PyInt 3]))
     = Raise (AttributeError "_forward_ref_schema")
  /\ (variadic (get_args (PyAlias "Union"
                            ([PyClass "int"] ++ PyForwardRef "Later" :: [PyInt 3])))
      = false ->
      _tuple_schema (generate_schema builtins false [] 1)
        (PyAlias "Union" ([PyClass "int"] ++ PyForwardRef "Later" :: [PyInt 3]))
      = Raise (AttributeError "_forward_ref_schema"))
  /\ _callable_schema (generate_schema builtins false [] 1)
       (PyAlias "Union" ([PyClass "int"] ++ PyForwardRef "Later" :: [PyInt 3]))
     = Raise (AttributeError "_forward_ref_schema").
Proof.
  apply (builders_raise_the_first_failure (generate_schema builtins false [] 1)
           (PyAlias "Union" ([PyClass "int"] ++ PyForwardRef "Later" :: [PyInt 3]))
           [PyClass "int"] [PyInt 3] (PyForwardRef "Later")).
  - reflexivity.
  - repeat constructor.
  - reflexivity.
Defined.

(** A type without arguments makes no builder compile anything: each
    returns its fallback even when [generate_schema] would raise on every
    call.  [_callable_schema] is the exception: its fallback is
    [core_schema.call_schema()], which lacks the two required arguments, so
    it raises [TypeError]. *)
Theorem unparameterized_types_compile_nothing :
  forall (classes : class_table) (handler : Handler)
         (isinstance_Literal : pyobj -> outcome bool) (tp : pyobj),
    get_args tp = [] ->
    _union_schema handler tp = Ret any_schema
    /\ _union_is_subclass_schema handler tp = Ret any_schema
    /\ _literal_schema isinstance_Literal tp = Ret any_schema
    /\ _tuple_schema handler tp = Ret (tuple_variable_schema any_schema)
    /\ _subclass_schema handler tp = Ret any_schema
    /\ _sequence_schema handler tp = Ret (list_schema any_schema)
    /\ _iterable_schema handler tp = Ret (generator_schema any_schema)
    /\ _annotated_schema classes handler tp = Ret any_schema
    /\ exists e, _callable_schema handler tp = Raise e /\ is_TypeError e = true.
Proof.
  intros classes handler isL tp H.
  unfold _union_schema, _union_is_subclass_schema, _literal_schema, _tuple_schema,
    _subclass_schema, _sequence_schema, _iterable_schema, _callable_schema,
    _annotated_schema.
  rewrite H. repeat split; try reflexivity.
  eexists. split; reflexivity.
Qed.

Lemma unparameterized_types_compile_nothing_witness :
  _union_schema (fun _ _ => Raise RecursionError) (PyClass "list") = Ret any_schema
  /\ _union_is_subclass_schema (fun _ _ => Raise RecursionError) (PyClass "list")
     = Ret any_schema
  /\ _literal_schema (fun _ => Raise (TypeError "isinstance")) (PyClass "list")
     = Ret any_schema
  /\ _tuple_schema (fun _ _ => Raise RecursionError) (PyClass "list")
     = Ret (tuple_variable_schema any_schema)
  /\ _subclass_schema (fun _ _ => Raise RecursionError) (PyClass "list") = Ret any_schema
  /\ _sequence_schema (fun _ _ => Raise RecursionError) (PyClass "list")
     = Ret (list_schema any_schema)
  /\ _iterable_schema (fun _ _ => Raise RecursionError) (PyClass "list")
     = Ret (generator_schema any_schema)
  /\ _annotated_schema builtins (fun _ _ => Raise RecursionError) (PyClass "list")
     = Ret any_schema
  /\ exists e, _callable_schema (fun _ _ => Raise RecursionError) (PyClass "list")
               = Raise e
               /\ is_TypeError e = true.
Proof.
  apply unparameterized_types_compile_nothing. reflexivity.
Defined.

(** [_callable_schema] returns for no type.  It compiles the arguments
    before the last and then the last, the return type; when all of them
    compile, and when there are none, it ends in the [TypeError] of a call
    [core_schema.call_schema] does not accept (no [parameters] keyword, two
    required arguments); otherwise it ends in an exception [generate_schema]
    raised for one of the arguments. *)
Theorem callable_schema_never_returns :
  forall (handler : Handler) (function : pyobj),
    returned (_callable_schema handler function) = false
    /\ (get_args function <> [] ->
        Forall (fun arg => returned (handler arg true) = true) (get_args function) ->
        _callable_schema handler function
        = Raise (unexpected_keyword "call_schema" "parameters"))
    /\ (forall e, _callable_schema handler function = Raise e ->
          is_TypeError e = true
          \/ exists arg, In arg (get_args function) /\ handler arg true = Raise e).
Proof.
  intros handler function. unfold _callable_schema.
  destruct (get_args function) as [| a l] eqn:E.
  { split; [reflexivity |]. split; [intros H; contradiction |].
    intros e H. injection H as <-. left. reflexivity. }
  assert (Hsplit : (a :: l) = (removelast (a :: l) ++ [last (a :: l) PyNone])%list).
  { apply app_removelast_last. discriminate. }
  unfold bind.
  destruct (mapM (fun arg => handler arg true) (removelast (a :: l)))
    as [ps | e0] eqn:Hps.
  - destruct (handler (last (a :: l) PyNone) true) as [r | e1] eqn:Hr.
    + split; [reflexivity |]. split; [reflexivity |].
      intros e H. injection H as <-. left. reflexivity.
    + split; [reflexivity |]. split.
      * intros _ Hall. rewrite Hsplit in Hall. apply Forall_app in Hall.
        destruct Hall as [_ Hlast]. apply Forall_inv in Hlast.
        cbv beta in Hlast. rewrite Hr in Hlast. discriminate.
      * intros e H. injection H as <-. right.
        exists (last (a :: l) PyNone). split; [| exact Hr].
        rewrite Hsplit at 2. apply in_or_app. right. left. reflexivity.
  - split; [reflexivity |]. split.
    + intros _ Hall. rewrite Hsplit in Hall. apply Forall_app in Hall.
      destruct Hall as [Hfirst _].
      destruct (mapM_returns (fun arg => handler arg true) _ Hfirst) as [bs Hbs].
      rewrite Hbs in Hps. discriminate.
    + intros e H. injection H as <-. right.
      destruct (mapM_raises_inv _ _ _ Hps) as [arg0 Hin].
      cbv beta in Hin.
      destruct Hin as [Hin Harg]. exists arg0. split; [| exact Harg].
      rewrite Hsplit. apply in_or_app. left. exact Hin.
Qed.

(** [Callable[..., bool]], whose arguments are the ellipsis and [bool], with
    a generator that compiles everything. *)
Lemma callable_schema_never_returns_witness :
  returned (_callable_schema (fun _ _ => Ret any_schema)
              (PyAlias "Callable" [PyEllipsis; PyClass "bool"])) = false
  /\ (get_args (PyAlias "Callable" [PyEllipsis; PyClass "bool"]) <> [] ->
      Forall (fun arg => returned (Ret any_schema) = true)
        (get_args (PyAlias "Callable" [PyEllipsis; PyClass "bool"])) ->
      _callable_schema (fun _ _ => Ret any_schema)
        (PyAlias "Callable" [PyEllipsis; PyClass "bool"])
      = Raise (unexpected_keyword "call_schema" "parameters"))
  /\ (forall e, _callable_schema (fun _ _ => Ret any_schema)
                  (PyAlias "Callable" [PyEllipsis; PyClass "bool"]) = Raise e ->
        is_TypeError e = true
        \/ exists arg, In arg (get_args (PyAlias "Callable" [PyEllipsis; PyClass "bool"]))
                       /\ Ret any_schema = Raise e).
Proof.
  apply (callable_schema_never_returns (fun _ _ => Ret any_schema)
           (PyAlias "Callable" [PyEllipsis; PyClass "bool"])).
Defined.

(** ** [_typed_dict_schema] *)

Lemma compile_annotations_spec (handler : Handler) (annotations : dict pyobj)
    (acc out : dict CoreSchema) :
  NoDup (keys acc ++ keys annotations) ->
  compile_annotations handler annotations acc = Ret out ->
  exists ss,
    Forall2 (fun kv s => handler (snd kv) true = Ret s) annotations ss
    /\ out = (acc ++ combine (keys annotations) ss)%list.
Proof.
  revert acc. induction annotations as [| [k t] r IH]; intros acc Hnd H; simpl in H.
  - injection H as <-. exists []. split; [constructor |].
    simpl. rewrite app_nil_r. reflexivity.
  - apply bind_Ret_inv in H. destruct H as [s [Hs H]].
    assert (Hk : ~ In k (keys acc)).
    { intros Hin. simpl in Hnd. apply NoDup_remove_2 in Hnd.
      apply Hnd. apply in_or_app. left. exact Hin. }
    rewrite (dict_set_fresh acc k s Hk) in H.
    apply IH in H.
    + destruct H as [ss [HF Hout]]. exists (s :: ss). split.
      * constructor; [exact Hs | exact HF].
      * rewrite Hout, <- app_assoc. reflexivity.
    + unfold keys. rewrite map_app, <- app_assoc. exact Hnd.
Qed.

Lemma compile_annotations_returns (handler : Handler) (annotations : dict pyobj)
    (ss : list CoreSchema) (acc : dict CoreSchema) :
  Forall2 (fun kv s => handler (snd kv) true = Ret s) annotations ss ->
  exists out, compile_annotations handler annotations acc = Ret out.
Proof.
  intros HF. revert acc. induction HF as [| [k t] s r ss' Hs HF IH]; intros acc; simpl.
  - exists acc. reflexivity.
  - simpl in Hs. rewrite Hs. simpl. apply IH.
Qed.

Lemma compile_annotations_first_failure (handler : Handler)
    (earlier later : dict pyobj) (k : string) (tp : pyobj) (e : exn)
    (acc : dict CoreSchema) :
  Forall (fun kv => returned (handler (snd kv) true) = true) earlier ->
  handler tp true = Raise e ->
  compile_annotations handler (earlier ++ (k, tp) :: later)%list acc = Raise e.
Proof.
  intros Hearlier Htp. revert acc.
  induction Hearlier as [| [k0 t0] r Hx Hr IH]; intros acc; simpl.
  - rewrite Htp. reflexivity.
  - simpl in Hx. destruct (handler t0 true) as [s | e']; [| discriminate].
    simpl. apply IH.
Qed.

(** [_typed_dict_schema] returns for no class.  Below Python 3.12 a class
    whose [origin] lives in module [typing] is refused before anything is
    compiled.  In every other case the annotations are compiled in order;
    the first that fails ends the call with its exception, and when all of
    them compile the call ends in [TypeError], for
    [core_schema.typed_dict_schema] has no keyword [required_keys]. *)
Theorem typed_dict_schema_never_returns :
  forall (classes : class_table) (handler : Handler) (_SUPPORTS_TYPEDDICT : bool)
         (typed_dict_cls origin : string),
    returned (_typed_dict_schema classes handler _SUPPORTS_TYPEDDICT
                typed_dict_cls origin) = false
    /\ (_SUPPORTS_TYPEDDICT = false ->
        __module__ (classes origin) = "typing" ->
        _typed_dict_schema classes handler _SUPPORTS_TYPEDDICT typed_dict_cls origin
        = Raise (PydanticUserError
                   "Please use `typing_extensions.TypedDict` instead of `typing.TypedDict` on Python < 3.12."
                   (Some "typing-typeddict")))
    /\ (forall annotations,
          _SUPPORTS_TYPEDDICT = true \/ __module__ (classes origin) <> "typing" ->
          __annotations__ (classes typed_dict_cls) = Some annotations ->
          Forall (fun kv => returned (handler (snd kv) true) = true) annotations ->
          _typed_dict_schema classes handler _SUPPORTS_TYPEDDICT typed_dict_cls origin
          = Raise (unexpected_keyword "typed_dict_schema" "required_keys"))
    /\ (forall earlier later k tp e,
          _SUPPORTS_TYPEDDICT = true \/ __module__ (classes origin) <> "typing" ->
          __annotations__ (classes typed_dict_cls)
          = Some (earlier ++ (k, tp) :: later)%list ->
          Forall (fun kv => returned (handler (snd kv) true) = true) earlier ->
          handler tp true = Raise e ->
          _typed_dict_schema classes handler _SUPPORTS_TYPEDDICT typed_dict_cls origin
          = Raise e).
Proof.
  intros classes handler supports cls origin. unfold _typed_dict_schema.
  assert (G : supports = true \/ __module__ (classes origin) <> "typing" ->
              negb supports && String.eqb (__module__ (classes origin)) "typing"
              = false).
  { intros [-> | Hm]; [reflexivity |].
    destruct (String.eqb (__module__ (classes origin)) "typing") eqn:E.
    - apply String.eqb_eq in E. contradiction.
    - apply andb_false_r. }
  split; [| split; [| split]].
  - destruct (negb supports && String.eqb (__module__ (classes origin)) "typing");
      [reflexivity |].
    destruct (__annotations__ (classes cls)) as [annotations |]; [| reflexivity].
    simpl. destruct (compile_annotations handler annotations []); reflexivity.
  - intros -> ->. reflexivity.
  - intros annotations Hgate Hann Hall. rewrite (G Hgate), Hann. simpl.
    assert (Hret : forall acc, exists out,
               compile_annotations handler annotations acc = Ret out).
    { clear - Hall. induction Hall as [| [k t] r Hx Hr IH]; intros acc; simpl.
      - exists acc. reflexivity.
      - simpl in Hx. destruct (handler t true) as [s | e]; [| discriminate].
        simpl. apply IH. }
    destruct (Hret []) as [out Hout]. rewrite Hout. reflexivity.
  - intros earlier later k tp e Hgate Hann Hearlier Htp.
    rewrite (G Hgate), Hann. simpl.
    rewrite (compile_annotations_first_failure handler earlier later k tp e []
               Hearlier Htp).
    reflexivity.
Qed.

(** [Movie], a [TypedDict] class: refused below Python 3.12 when [origin] is
    [typing.TypedDict]; from 3.12 on its annotation is compiled and the call
    ends in [TypeError]. *)
Lemma typed_dict_schema_never_returns_witness :
  _typed_dict_schema typed_dict_classes (generate_schema typed_dict_classes false [] 1)
    false "Movie" "TypedDict"
  = Raise (PydanticUserError
             "Please use `typing_extensions.TypedDict` instead of `typing.TypedDict` on Python < 3.12."
             (Some "typing-typeddict"))
  /\ _typed_dict_schema typed_dict_classes (generate_schema typed_dict_classes false [] 1)
       true "Movie" "TypedDict"
     = Raise (unexpected_keyword "typed_dict_schema" "required_keys").
Proof.
  split.
  - destruct (typed_dict_schema_never_returns typed_dict_classes
                (generate_schema typed_dict_classes false [] 1) false "Movie" "TypedDict")
      as [_ [H _]].
    apply H; reflexivity.
  - destruct (typed_dict_schema_never_returns typed_dict_classes
                (generate_schema typed_dict_classes false [] 1) true "Movie" "TypedDict")
      as [_ [_ [H _]]].
    apply (H [("title", PyClass "str")]).
    + left. reflexivity.
    + reflexivity.
    + repeat constructor.
Defined.

(** ** [_add_custom_serialization_from_json_encoders] *)

Lemma first_encoder_first_match (classes : class_table) (name type_ encoder : string)
    (before_it after_it : dict string) :
  Forall (fun kv => issubclass classes name [fst kv] = false) before_it ->
  issubclass classes name [type_] = true ->
  first_encoder classes (PyClass name)
    (before_it ++ (type_, encoder) :: after_it)%list
  = Some encoder.
Proof.
  induction 1 as [| [t e] r Ht Hr IH]; simpl; intros H.
  - rewrite H. reflexivity.
  - simpl in Ht. rewrite Ht. apply IH. exact H.
Qed.

Lemma first_encoder_none (classes : class_table) (tp : pyobj) (items : dict string) :
  (isinstance_type tp = false
   \/ exists name, tp = PyClass name
                   /\ Forall (fun kv => issubclass classes name [fst kv] = false) items) ->
  first_encoder classes tp items = None.
Proof.
  intros [H | [name [-> H]]].
  - induction items as [| [t e] r IH]; simpl; [reflexivity |].
    rewrite H. simpl. exact IH.
  - induction H as [| [t e] r Ht Hr IH]; simpl; [reflexivity |].
    simpl in Ht. rewrite Ht. exact IH.
Qed.

(** The encoder used for a class is the first entry of [json_encoders], in
    the dictionary's order, whose key is the class or one of its bases: not
    the entry of the most derived base, and whatever the later entries are.
    Without such an entry, or for an object that is no class, the schema
    comes back as it was given. *)
Theorem json_encoders_first_match_wins :
  forall (classes : class_table) (name : string) (schema : CoreSchema)
         (before_it after_it : dict string) (type_ encoder : string),
    Forall (fun kv => issubclass classes name [fst kv] = false) before_it ->
    (issubclass classes name [type_] = true ->
     _add_custom_serialization_from_json_encoders classes
       (Some (before_it ++ (type_, encoder) :: after_it)%list) (PyClass name) schema
     = json_or_python_schema (with_info_plain_validator_function encoder None) schema)
    /\ _add_custom_serialization_from_json_encoders classes (Some before_it)
         (PyClass name) schema
       = core schema
    /\ (forall tp items,
          isinstance_type tp = false ->
          _add_custom_serialization_from_json_encoders classes items tp schema
          = core schema)
    /\ _add_custom_serialization_from_json_encoders classes None (PyClass name) schema
       = core schema.
Proof.
  intros classes name schema before_it after_it type_ encoder Hbefore.
  unfold _add_custom_serialization_from_json_encoders.
  split; [| split; [| split; [| reflexivity]]].
  - intros Hsub.
    rewrite (first_encoder_first_match classes name type_ encoder before_it after_it
               Hbefore Hsub).
    destruct (before_it ++ (type_, encoder) :: after_it)%list eqn:E; [| reflexivity].
    destruct before_it; discriminate E.
  - destruct before_it as [| kv r]; [reflexivity |].
    rewrite first_encoder_none; [reflexivity |].
    right. exists name. split; [reflexivity | exact Hbefore].
  - intros tp items Htp. destruct items as [[| kv r] |]; try reflexivity.
    rewrite first_encoder_none; [reflexivity | left; exact Htp].
Qed.

(** [bool] with an encoder for [object] listed before the one for [bool]:
    the encoder of [object] is used. *)
Lemma json_encoders_first_match_wins_witness :
  _add_custom_serialization_from_json_encoders builtins
    (Some ([("str", "encode_str")]
           ++ ("object", "encode_object") :: [("bool", "encode_bool")])%list)
    (PyClass "bool") bool_schema
  = json_or_python_schema (with_info_plain_validator_function "encode_object" None)
      bool_schema.
Proof.
  destruct (json_encoders_first_match_wins builtins "bool" bool_schema
              [("str", "encode_str")] [("bool", "encode_bool")] "object" "encode_object")
    as [H _].
  - repeat constructor.
  - apply H. reflexivity.
Defined.

(** ** [_unpack_refs_defs] *)

Lemma dict_get_filter_key {V : Type} (d : dict V) (removed k : string) :
  dict_get (filter (fun kv => negb (String.eqb (fst kv) removed)) d) k
  = if String.eqb k removed then None else dict_get d k.
Proof.
  induction d as [| [k0 v0] r IH]; simpl.
  - destruct (String.eqb k removed); reflexivity.
  - destruct (String.eqb k0 removed) eqn:E0; simpl.
    + rewrite IH. apply String.eqb_eq in E0. subst k0.
      rewrite (String.eqb_sym removed k).
      destruct (String.eqb k removed); reflexivity.
    + destruct (String.eqb k0 k) eqn:E1.
      * apply String.eqb_eq in E1. subst k0. rewrite E0. reflexivity.
      * exact IH.
Qed.




(** Unpacking is idempotent: a second call on the returned schema changes
    neither the schema nor the registry. *)
Theorem unpack_refs_defs_is_idempotent :
  forall (defs defs' : _Definitions) (schema out : dict SchemaItem),
    _unpack_refs_defs defs schema = Ret (defs', out) ->
    _unpack_refs_defs defs' out = Ret (defs', out).
Proof.
  intros defs defs' schema out H.
  assert (Hnone : dict_get out "definitions" = None).
  { unfold _unpack_refs_defs in H.
    destruct (dict_get schema "definitions") as [[m | elements | v] |] eqn:E.
    - injection H as <- <-. rewrite dict_get_filter_key, String.eqb_refl. reflexivity.
    - apply bind_Ret_inv in H. destruct H as [registered [_ H]].
      injection H as <- <-. rewrite dict_get_filter_key, String.eqb_refl. reflexivity.
    - discriminate.
    - injection H as <- <-. exact E. }
  unfold _unpack_refs_defs. rewrite Hnone. reflexivity.
Qed.

Lemma unpack_refs_defs_is_idempotent_witness :
  _unpack_refs_defs
    {| seen := []; definitions := [("A", int_schema)] |} [("type", Opaque "model")]
  = Ret ({| seen := []; definitions := [("A", int_schema)] |}, [("type", Opaque "model")]).
Proof.
  apply (unpack_refs_defs_is_idempotent _Definitions__init__ _
           [("definitions", Mapping [("A", int_schema)]); ("type", Opaque "model")]).
  reflexivity.
Defined.

(** ** Alias and title generators *)

(** An alias the user has set is never overwritten: with any of the three
    alias attributes set, the field comes back unchanged.  With none of them
    set, a plain callable stores its result for the field name as [alias]
    and leaves the other two unset, and an [AliasGenerator] stores the
    results of its [validation_alias] and [serialization_alias] under these
    names and leaves [alias] unset. *)
Theorem alias_generator_respects_explicit_aliases :
  forall (generator : alias_generator) (field_info : FieldAliases)
         (field_name : string),
    (alias field_info <> None \/ validation_alias field_info <> None
     \/ serialization_alias field_info <> None ->
     _apply_alias_generator_to_field_info generator field_info field_name = field_info)
    /\ (forall f,
          generator = PlainCallable f ->
          alias field_info = None -> validation_alias field_info = None ->
          serialization_alias field_info = None ->
          _apply_alias_generator_to_field_info generator field_info field_name
          = {| alias := f field_name; validation_alias := None;
               serialization_alias := None |})
    /\ (forall g,
          generator = AliasGeneratorInstance g ->
          alias field_info = None -> validation_alias field_info = None ->
          serialization_alias field_info = None ->
          _apply_alias_generator_to_field_info generator field_info field_name
          = {| alias := None;
               validation_alias := AliasGenerator.validation_alias g field_name;
               serialization_alias := AliasGenerator.serialization_alias g field_name |})
    /\ (forall f, generator = PlainCallable f ->
          validation_alias
            (_apply_alias_generator_to_field_info generator field_info field_name)
          = validation_alias field_info
          /\ serialization_alias
               (_apply_alias_generator_to_field_info generator field_info field_name)
             = serialization_alias field_info)
    /\ (forall g, generator = AliasGeneratorInstance g ->
          alias (_apply_alias_generator_to_field_info generator field_info field_name)
          = alias field_info).
Proof.
  intros generator [a v s] field_name.
  unfold _apply_alias_generator_to_field_info. simpl.
  split; [| split; [| split; [| split]]].
  - intros H. destruct a, v, s; try reflexivity.
    destruct H as [H | [H | H]]; contradiction.
  - intros f -> -> -> ->. reflexivity.
  - intros g -> -> -> ->. reflexivity.
  - intros f ->. destruct a, v, s; split; reflexivity.
  - intros g ->. destruct a, v, s; reflexivity.
Qed.

(** A field whose [serialization_alias] is the empty string is left alone; a
    field without aliases gets [alias] from a plain callable, and
    [validation_alias] and [serialization_alias] from an [AliasGenerator]. *)
Lemma alias_generator_respects_explicit_aliases_witness :
  _apply_alias_generator_to_field_info (PlainCallable (fun name => Some (name ++ "_")))
    {| alias := None; validation_alias := None; serialization_alias := Some "" |} "x"
  = {| alias := None; validation_alias := None; serialization_alias := Some "" |}
  /\ _apply_alias_generator_to_field_info
       (PlainCallable (fun name => Some (name ++ "_")))
       {| alias := None; validation_alias := None; serialization_alias := None |} "x"
     = {| alias := Some "x_"; validation_alias := None; serialization_alias := None |}
  /\ _apply_alias_generator_to_field_info
       (AliasGeneratorInstance
          {| AliasGenerator.validation_alias := fun name => Some ("v_" ++ name);
             AliasGenerator.serialization_alias := fun name => Some ("s_" ++ name) |})
       {| alias := None; validation_alias := None; serialization_alias := None |} "x"
     = {| alias := None; validation_alias := Some "v_x";
          serialization_alias := Some "s_x" |}.
Proof.
  split; [| split].
  - destruct (alias_generator_respects_explicit_aliases
                (PlainCallable (fun name => Some (name ++ "_")))
                {| alias := None; validation_alias := None;
                   serialization_alias := Some "" |}
                "x") as [H _].
    apply H. right. right. discriminate.
  - destruct (alias_generator_respects_explicit_aliases
                (PlainCallable (fun name => Some (name ++ "_")))
                {| alias := None; validation_alias := None;
                   serialization_alias := None |}
                "x") as [_ [H _]].
    apply (H (fun name => Some (name ++ "_"))); reflexivity.
  - destruct (alias_generator_respects_explicit_aliases
                (AliasGeneratorInstance
                   {| AliasGenerator.validation_alias := fun name => Some ("v_" ++ name);
                      AliasGenerator.serialization_alias :=
                        fun name => Some ("s_" ++ name) |})
                {| alias := None; validation_alias := None;
                   serialization_alias := None |}
                "x") as [_ [_ [H _]]].
    apply (H {| AliasGenerator.validation_alias := fun name => Some ("v_" ++ name);
                AliasGenerator.serialization_alias :=
                  fun name => Some ("s_" ++ name) |}); reflexivity.
Defined.

(** Applying a generator a second time changes nothing, for the aliases of
    a field, the alias of a computed field and the title of a field. *)
Theorem generators_are_idempotent :
  forall (generator : alias_generator)
         (field_title_generator : option (string -> FieldInfo -> option string))
         (aliases : FieldAliases) (computed_field_alias : option string)
         (field_info : FieldInfo) (name : string),
    _apply_alias_generator_to_field_info generator
      (_apply_alias_generator_to_field_info generator aliases name) name
    = _apply_alias_generator_to_field_info generator aliases name
    /\ _apply_alias_generator_to_computed_field_info generator
         (_apply_alias_generator_to_computed_field_info generator
            computed_field_alias name) name
       = _apply_alias_generator_to_computed_field_info generator
           computed_field_alias name
    /\ _apply_field_title_generator_to_field_info field_title_generator
         (_apply_field_title_generator_to_field_info field_title_generator
            field_info name) name
       = _apply_field_title_generator_to_field_info field_title_generator
           field_info name.
Proof.
  intros generator tg [a v s] ca [ann t] name. split; [| split].
  - unfold _apply_alias_generator_to_field_info. simpl.
    destruct a, v, s; try reflexivity.
    destruct generator as [f | g]; simpl.
    + destruct (f name); reflexivity.
    + destruct (AliasGenerator.validation_alias g name),
               (AliasGenerator.serialization_alias g name); reflexivity.
  - unfold _apply_alias_generator_to_computed_field_info.
    destruct ca; [reflexivity |].
    destruct generator as [f | g].
    + destruct (f name); reflexivity.
    + destruct (AliasGenerator.serialization_alias g name); reflexivity.
  - unfold _apply_field_title_generator_to_field_info. simpl.
    destruct t; [reflexivity |].
    destruct tg as [g |]; [| reflexivity]. simpl.
    destruct (g name {| annotation := ann; title := None |}) eqn:E; simpl.
    + reflexivity.
    + rewrite E. reflexivity.
Qed.

(** A title the user has set is never overwritten, and without a generator
    the field is unchanged; the annotation is never touched. *)
Theorem title_generator_respects_explicit_title :
  forall (field_title_generator : option (string -> FieldInfo -> option string))
         (field_info : FieldInfo) (field_name : string),
    (title field_info <> None \/ field_title_generator = None ->
     _apply_field_title_generator_to_field_info field_title_generator field_info
       field_name = field_info)
    /\ annotation (_apply_field_title_generator_to_field_info field_title_generator
                     field_info field_name)
       = annotation field_info.
Proof.
  intros tg [ann t] name. unfold _apply_field_title_generator_to_field_info. simpl.
  split.
  - intros [H | ->].
    + destruct t; [reflexivity | contradiction].
    + destruct t; reflexivity.
  - destruct t, tg; reflexivity.
Qed.

Lemma title_generator_respects_explicit_title_witness :
  _apply_field_title_generator_to_field_info (Some (fun name _ => Some name))
    {| annotation := PyClass "int"; title := Some "" |} "x"
  = {| annotation := PyClass "int"; title := Some "" |}.
Proof.
  destruct (title_generator_respects_explicit_title (Some (fun name _ => Some name))
              {| annotation := PyClass "int"; title := Some "" |} "x") as [H _].
  apply H. left. discriminate.
Defined.

(** ** [modify_model_json_schema] *)

(** The returned JSON schema always has a title, the given one (an empty
    string included) or else the class name; its description is the cleaned
    docstring when the class has a non-empty one and otherwise what the
    handler had put there; every other key is as the handler returned it. *)
Theorem modify_model_json_schema_sets_title_and_description :
  forall (cleandoc : string -> string) (json_schema : dict JsonValue)
         (name : string) (doc title : option string),
    dict_get (modify_model_json_schema cleandoc json_schema name doc title) "title"
    = Some (JsonStr (match title with Some t => t | None => name end))
    /\ dict_get (modify_model_json_schema cleandoc json_schema name doc title)
         "description"
       = match doc with
         | Some (String c d) => Some (JsonStr (cleandoc (String c d)))
         | _ => dict_get json_schema "description"
         end
    /\ (forall k, k <> "title" -> k <> "description" ->
          dict_get (modify_model_json_schema cleandoc json_schema name doc title) k
          = dict_get json_schema k).
Proof.
  intros cleandoc js name doc title. unfold modify_model_json_schema.
  assert (Hne : forall k v, k <> v -> String.eqb v k = false).
  { intros k v H. destruct (String.eqb v k) eqn:E; [| reflexivity].
    apply String.eqb_eq in E. subst. contradiction. }
  split; [| split].
  - destruct doc as [[| c d] |]; rewrite ?dict_get_set; reflexivity.
  - destruct doc as [[| c d] |]; rewrite !dict_get_set; try reflexivity.
  - intros k H1 H2.
    destruct doc as [[| c d] |]; rewrite !dict_get_set;
      rewrite ?(Hne k "title" H1), ?(Hne k "description" H2); reflexivity.
Qed.

(** ** errors.py *)

Lemma split_before_separator (sep : Ascii.ascii) (p r : string) :
  contains sep p = false ->
  split sep (p ++ String sep r) = p :: split sep r.
Proof.
  induction p as [| c p IH]; simpl; intros H.
  - rewrite Ascii.eqb_refl. reflexivity.
  - apply orb_false_iff in H. destruct H as [Hc Hp].
    rewrite Hc, (IH Hp). reflexivity.
Qed.

Lemma contains_separator (sep : Ascii.ascii) (p r : string) :
  contains sep (p ++ String sep r) = true.
Proof.
  induction p as [| c p IH]; simpl.
  - rewrite Ascii.eqb_refl. reflexivity.
  - rewrite IH. apply orb_true_r.
Qed.

(** [from_name_error] takes for the name what stands between the first two
    single quotes of the error's text, and the whole text when it has no
    quote; the text is kept as the message, and the code is
    ['undefined-annotation']. *)
Theorem from_name_error_extracts_the_quoted_name :
  forall (before_it name after_it text : string),
    (contains single_quote before_it = false ->
     contains single_quote name = false ->
     from_name_error
       (before_it ++ String single_quote (name ++ String single_quote after_it))
     = PydanticUndefinedAnnotation name
         (before_it ++ String single_quote (name ++ String single_quote after_it)))
    /\ (contains single_quote text = false ->
        from_name_error text = PydanticUndefinedAnnotation text text)
    /\ code (from_name_error text) = Some "undefined-annotation"
    /\ message (from_name_error text) = text.
Proof.
  intros before_it name after_it text. unfold from_name_error.
  split; [| split; [| split; reflexivity]].
  - intros Hb Hn.
    rewrite contains_separator, (split_before_separator _ _ _ Hb),
      (split_before_separator _ _ _ Hn).
    reflexivity.
  - intros ->. reflexivity.
Qed.

Lemma from_name_error_extracts_the_quoted_name_witness :
  from_name_error
    ("name " ++ String single_quote ("Foo" ++ String single_quote " is not defined"))
  = PydanticUndefinedAnnotation "Foo"
      ("name " ++ String single_quote ("Foo" ++ String single_quote " is not defined"))
  /\ from_name_error "unknown" = PydanticUndefinedAnnotation "unknown" "unknown".
Proof.
  destruct (from_name_error_extracts_the_quoted_name "name " "Foo" " is not defined"
              "unknown") as [H1 [H2 _]].
  split; [apply H1; reflexivity | apply H2; reflexivity].
Defined.

Lemma prefix_app (s t : string) : String.prefix s (s ++ t) = true.
Proof.
  induction s as [| c s IH]; simpl.
  - destruct t; reflexivity.
  - destruct (Ascii.ascii_dec c c) as [_ | H]; [exact IH | contradiction].
Qed.

(** The error classes with a code of their own
    ([PydanticUndefinedAnnotation], [PydanticImportError],
    [PydanticSchemaGenerationError], [PydanticInvalidForJsonSchema]) carry a
    member of [PydanticErrorCodes], whatever their message; and the text of
    every error starts with its message, the link being added after it only
    when there is a code. *)
Theorem fixed_error_codes_are_members :
  forall (docs_url : string) (e : exn),
    match e with
    | PydanticUserError _ _ => True
    | _ => match code e with
           | Some c => is_error_code c = true
           | None => True
           end
    end
    /\ String.prefix (message e) (__str__ docs_url e) = true
    /\ (code e = None -> __str__ docs_url e = message e).
Proof.
  intros docs_url e. split; [| split].
  - destruct e; simpl; try exact I; reflexivity.
  - unfold __str__. destruct (code e).
    + apply prefix_app.
    + clear. induction (message e) as [| c s IH]; simpl; [reflexivity |].
      destruct (Ascii.ascii_dec c c) as [_ | H]; [exact IH | contradiction].
  - unfold __str__. intros ->. reflexivity.
Qed.

(** ** _typing_extra.py: type hints *)

Lemma dict_get_filter {V : Type} (keep : string -> bool) (d : dict V) (k : string) :
  dict_get (filter (fun kv => keep (fst kv)) d) k
  = if keep k then dict_get d k else None.
Proof.
  induction d as [| [k0 v0] r IH]; simpl.
  - destruct (keep k); reflexivity.
  - destruct (keep k0) eqn:E0; simpl.
    + destruct (String.eqb k0 k) eqn:E1.
      * apply String.eqb_eq in E1. subst k0. rewrite E0. reflexivity.
      * exact IH.
    + rewrite IH. destruct (String.eqb k0 k) eqn:E1; [| reflexivity].
      apply String.eqb_eq in E1. subst k0. rewrite E0. reflexivity.
Qed.

Section TypeHintsProperties.

Variable eval_type_backport : pyobj -> outcome pyobj.
Variable classes : class_table.

Lemma eval_type_lenient_raises (value : pyobj) (e : exn) :
  eval_type_lenient eval_type_backport value = Raise e ->
  eval_type_backport value = Raise e
  /\ is_NameError e = false /\ is_AttributeError e = false.
Proof.
  unfold eval_type_lenient.
  destruct (eval_type_backport value) as [v | e']; [discriminate |].
  destruct (is_NameError e' || is_AttributeError e') eqn:E; [discriminate |].
  intros H. injection H as <-. apply orb_false_iff in E.
  split; [reflexivity | exact E].
Qed.

Lemma add_function_hints_raises (annotations hints : dict pyobj) (e : exn) :
  add_function_hints eval_type_backport annotations hints = Raise e ->
  (exists value, eval_type_backport value = Raise e)
  /\ is_NameError e = false /\ is_AttributeError e = false
  /\ is_SyntaxError e = false.
Proof.
  revert hints. induction annotations as [| [name value] r IH]; intros hints; simpl.
  - discriminate.
  - destruct (isinstance_str value).
    + destruct (eval_type_lenient eval_type_backport value) as [v | e'] eqn:Ev; simpl.
      * apply IH.
      * destruct (is_NameError e' || is_SyntaxError e') eqn:E; simpl; [apply IH |].
        intros H. injection H as <-.
        apply eval_type_lenient_raises in Ev. destruct Ev as [Hv [Hn Ha]].
        apply orb_false_iff in E. destruct E as [_ Hs].
        split; [exists value; exact Hv |]. split; [exact Hn |].
        split; [exact Ha | exact Hs].
    + simpl. apply IH.
Qed.

Lemma add_class_hints_raises (base_hints hints : dict pyobj) (e : exn) :
  add_class_hints eval_type_backport base_hints hints = Raise e ->
  (exists value, eval_type_backport value = Raise e)
  /\ is_NameError e = false /\ is_AttributeError e = false.
Proof.
  revert hints. induction base_hints as [| [name value] r IH]; intros hints; simpl.
  - discriminate.
  - destruct (isinstance_str value).
    + destruct (eval_type_lenient eval_type_backport value) as [v | e'] eqn:Ev; simpl.
      * apply IH.
      * intros H. injection H as <-.
        apply eval_type_lenient_raises in Ev. destruct Ev as [Hv Hrest].
        split; [exists value; exact Hv | exact Hrest].
    + simpl. apply IH.
Qed.

Lemma add_bases_hints_raises (bases : list pyobj) (hints : dict pyobj) (e : exn) :
  add_bases_hints eval_type_backport classes bases hints = Raise e ->
  (exists value, eval_type_backport value = Raise e)
  /\ is_NameError e = false /\ is_AttributeError e = false.
Proof.
  revert hints. induction bases as [| b r IH]; intros hints; simpl.
  - discriminate.
  - destruct (add_class_hints eval_type_backport
                (match getattr classes __annotations__ b with
                 | Some a => a
                 | None => []
                 end) hints) as [h | e'] eqn:E; simpl.
    + apply IH.
    + intros H. injection H as <-. eapply add_class_hints_raises. exact E.
Qed.

Lemma add_function_hints_keeps (annotations hints : dict pyobj) :
  Forall (kept_as_written eval_type_backport) annotations ->
  NoDup (keys hints ++ keys annotations) ->
  add_function_hints eval_type_backport annotations hints
  = Ret (hints ++ annotations)%list.
Proof.
  intros HF. revert hints.
  induction HF as [| [name value] r Hkv HF IH]; intros hints Hnd; simpl.
  - rewrite app_nil_r. reflexivity.
  - assert (Hv : (if isinstance_str value then
                    match eval_type_lenient eval_type_backport value with
                    | Ret v => Ret v
                    | Raise e =>
                        if is_NameError e || is_SyntaxError e then Ret value
                        else Raise e
                    end
                  else Ret value) = Ret value).
    { destruct Hkv as [Hs | [e [He Hkind]]]; simpl in *.
      - rewrite Hs. reflexivity.
      - destruct (isinstance_str value); [| reflexivity].
        unfold eval_type_lenient. rewrite He.
        destruct (is_NameError e) eqn:En; simpl; [reflexivity |].
        destruct (is_AttributeError e) eqn:Ea; simpl; [reflexivity |].
        simpl in Hkind. rewrite Hkind, ?En, ?orb_true_r. reflexivity. }
    rewrite Hv. simpl.
    assert (Hk : ~ In name (keys hints)).
    { intros Hin. simpl in Hnd. apply NoDup_remove_2 in Hnd.
      apply Hnd. apply in_or_app. left. exact Hin. }
    rewrite (dict_set_fresh hints name value Hk), IH.
    + rewrite <- app_assoc. reflexivity.
    + unfold keys. rewrite map_app, <- app_assoc. exact Hnd.
Qed.

End TypeHintsProperties.

(** The hints of a [functools.partial]: with positional arguments bound the
    call ends in [NameError], for line 166 uses [inspect], which the module
    does not import; with none bound, the hints are those of the wrapped
    function without the names bound by keyword. *)
Theorem partial_type_hints :
  forall (eval_type_backport : pyobj -> outcome pyobj) (func : pycallable)
         (args : list pyobj) (keywords : dict pyobj)
         (include_keys : option (list string)) (hints : dict pyobj),
    get_function_type_hints eval_type_backport func include_keys = Ret hints ->
    (args <> [] ->
     get_function_type_hints eval_type_backport (PyPartial func args keywords)
       include_keys = Raise (NameError "inspect"))
    /\ (args = [] ->
        exists out,
          get_function_type_hints eval_type_backport (PyPartial func args keywords)
            include_keys = Ret out
          /\ (forall k, In k (keys keywords) -> dict_get out k = None)
          /\ (forall k, ~ In k (keys keywords) -> dict_get out k = dict_get hints k)).
Proof.
  intros ev func args keywords include hints H. simpl. rewrite H. simpl. split.
  - intros Hargs. destruct args; [contradiction | reflexivity].
  - intros ->.
    exists (filter (fun kv => negb (mem (fst kv) (keys keywords))) hints).
    split; [| split].
    + destruct keywords as [| kw r]; [| reflexivity].
      simpl. clear. induction hints as [| kv r IH]; simpl; [reflexivity |].
      injection IH as IH. rewrite <- IH. reflexivity.
    + intros k Hk. rewrite (dict_get_filter (fun k => negb (mem k (keys keywords)))).
      apply mem_In in Hk. rewrite Hk. reflexivity.
    + intros k Hk. rewrite (dict_get_filter (fun k => negb (mem k (keys keywords)))).
      destruct (mem k (keys keywords)) eqn:E; [| reflexivity].
      apply mem_In in E. contradiction.
Qed.

Lemma partial_type_hints_witness :
  get_function_type_hints (fun v => Ret v)
    (PyPartial (PyFunction (Some [("x", PyClass "int"); ("y", PyClass "str")]))
       [PyInt 1] []) None
  = Raise (NameError "inspect")
  /\ exists out,
       get_function_type_hints (fun v => Ret v)
         (PyPartial (PyFunction (Some [("x", PyClass "int"); ("y", PyClass "str")]))
            [] [("y", PyStr "bound")]) None
       = Ret out
       /\ (forall k, In k (keys [("y", PyStr "bound")]) -> dict_get out k = None)
       /\ (forall k, ~ In k (keys [("y", PyStr "bound")]) ->
             dict_get out k
             = dict_get [("x", PyClass "int"); ("y", PyClass "str")] k).
Proof.
  split.
  - destruct (partial_type_hints (fun v => Ret v)
                (PyFunction (Some [("x", PyClass "int"); ("y", PyClass "str")]))
                [PyInt 1] [] None [("x", PyClass "int"); ("y", PyClass "str")] eq_refl)
      as [H _].
    apply H. discriminate.
  - destruct (partial_type_hints (fun v => Ret v)
                (PyFunction (Some [("x", PyClass "int"); ("y", PyClass "str")]))
                [] [("y", PyStr "bound")] None
                [("x", PyClass "int"); ("y", PyClass "str")] eq_refl)
      as [_ H].
    apply H. reflexivity.
Defined.

(** Evaluation failures the code is lenient about never escape: an error of
    [get_function_type_hints] on a plain function is one the evaluator
    raised and is no [NameError], [AttributeError] or [SyntaxError]; an error
    of [get_cls_type_hints_lenient] is one the evaluator raised and is no
    [NameError] or [AttributeError]. *)
Theorem type_hints_raise_no_name_error :
  forall (eval_type_backport : pyobj -> outcome pyobj) (classes : class_table)
         (annotations : option (dict pyobj)) (include_keys : option (list string))
         (obj : pyobj) (e : exn),
    (get_function_type_hints eval_type_backport (PyFunction annotations) include_keys
     = Raise e ->
     (exists value, eval_type_backport value = Raise e)
     /\ is_NameError e = false /\ is_AttributeError e = false
     /\ is_SyntaxError e = false)
    /\ (get_cls_type_hints_lenient eval_type_backport classes obj = Raise e ->
        (exists value, eval_type_backport value = Raise e)
        /\ is_NameError e = false /\ is_AttributeError e = false).
Proof.
  intros ev classes annotations include obj e. split.
  - simpl. destruct annotations as [[| kv r] |]; try discriminate.
    apply add_function_hints_raises.
  - unfold get_cls_type_hints_lenient. apply add_bases_hints_raises.
Qed.

Lemma type_hints_raise_no_name_error_witness :
  ((exists value,
      (fun v : pyobj => @Raise pyobj (TypeError "unhashable")) value
      = Raise (TypeError "unhashable"))
   /\ is_NameError (TypeError "unhashable") = false
   /\ is_AttributeError (TypeError "unhashable") = false
   /\ is_SyntaxError (TypeError "unhashable") = false)
  /\ ((exists value,
         (fun v : pyobj => @Raise pyobj (TypeError "unhashable")) value
         = Raise (TypeError "unhashable"))
      /\ is_NameError (TypeError "unhashable") = false
      /\ is_AttributeError (TypeError "unhashable") = false).
Proof.
  destruct (type_hints_raise_no_name_error
              (fun v => Raise (TypeError "unhashable"))
              string_annotation_classes (Some [("x", PyStr "int")]) None
              (PyClass "Node")
              (TypeError "unhashable")) as [H1 H2].
  split; [apply H1 | apply H2]; reflexivity.
Defined.

(** Annotations that are no strings, and string annotations whose
    evaluation fails with [NameError], [AttributeError] or [SyntaxError],
    come back as they were written, in the order of the function's
    [__annotations__]. *)
Theorem unresolved_annotations_are_kept :
  forall (eval_type_backport : pyobj -> outcome pyobj) (annotations : dict pyobj),
    Forall (kept_as_written eval_type_backport) annotations ->
    NoDup (keys annotations) ->
    get_function_type_hints eval_type_backport (PyFunction (Some annotations)) None
    = Ret annotations.
Proof.
  intros ev annotations HF Hnd. simpl.
  destruct annotations as [| kv r] eqn:E; [reflexivity |].
  rewrite <- E in *. apply (add_function_hints_keeps ev annotations []); assumption.
Qed.

Lemma unresolved_annotations_are_kept_witness :
  get_function_type_hints
    (fun v => match v with
              | PyStr "Later" => Raise (NameError "Later")
              | _ => Raise (UserException "SyntaxError")
              end)
    (PyFunction (Some [("a", PyStr "Later"); ("b", PyClass "int"); ("c", PyStr "1 +")]))
    None
  = Ret [("a", PyStr "Later"); ("b", PyClass "int"); ("c", PyStr "1 +")].
Proof.
  apply unresolved_annotations_are_kept.
  - apply Forall_cons.
    { right. exists (NameError "Later"). split; reflexivity. }
    apply Forall_cons; [left; reflexivity |].
    apply Forall_cons; [| apply Forall_nil].
    right. exists (UserException "SyntaxError"). split; reflexivity.
  - repeat constructor; simpl; intuition discriminate.
Defined.

(** ** v1/color.py *)

Lemma ColorTuple_eqb_eq (a b : ColorTuple) : ColorTuple_eqb a b = true <-> a = b.
Proof.
  destruct a as [[r1 g1] b1], b as [[r2 g2] b2]. unfold ColorTuple_eqb.
  rewrite !andb_true_iff, !Z.eqb_eq. split.
  - intros [[-> ->] ->]. reflexivity.
  - intros H. injection H as -> -> ->. repeat split.
Qed.

Lemma by_value_get_In (d : list (ColorTuple * string)) (v : ColorTuple) (k : string) :
  by_value_get d v = Some k -> In (v, k) d.
Proof.
  induction d as [| [v0 k0] rest IH]; simpl; intros H.
  - discriminate.
  - destruct (ColorTuple_eqb v0 v) eqn:E.
    + apply ColorTuple_eqb_eq in E. injection H as ->. subst. left. reflexivity.
    + right. apply IH. exact H.
Qed.

(** [COLORS_BY_VALUE] inverts [COLORS_BY_NAME] as the module's docstring
    says: the value of every name leads back to a name with that value, the
    alphabetically last one when several names share it; every name
    [COLORS_BY_VALUE] answers has the value it was asked for; and every
    channel of the table is within 0 to 255. *)
Theorem colors_by_value_inverts_colors_by_name :
  forall (name : string) (rgb : ColorTuple),
    (dict_get COLORS_BY_NAME name = Some rgb ->
     channel_in_range (name, rgb) = true
     /\ exists last_name,
          by_value_get COLORS_BY_VALUE rgb = Some last_name
          /\ dict_get COLORS_BY_NAME last_name = Some rgb
          /\ String.leb name last_name = true)
    /\ (by_value_get COLORS_BY_VALUE rgb = Some name ->
        dict_get COLORS_BY_NAME name = Some rgb).
Proof.
  intros name rgb. split.
  - intros H. apply dict_get_In in H.
    assert (Hall : forallb (fun kv => channel_in_range kv && name_round_trip kv)
                     COLORS_BY_NAME = true) by (vm_compute; reflexivity).
    rewrite forallb_forall in Hall. specialize (Hall _ H).
    apply andb_true_iff in Hall. destruct Hall as [Hrange Hround].
    split; [exact Hrange |].
    unfold name_round_trip in Hround. cbn [fst snd] in Hround.
    destruct (by_value_get COLORS_BY_VALUE rgb) as [last_name |] eqn:Hvalue;
      [| discriminate].
    destruct (dict_get COLORS_BY_NAME last_name) as [rgb' |] eqn:Hname;
      [| discriminate].
    apply andb_true_iff in Hround. destruct Hround as [He Hle].
    apply ColorTuple_eqb_eq in He. subst rgb'.
    exists last_name. repeat split; assumption.
  - intros H. apply by_value_get_In in H.
    assert (Hall : forallb value_round_trip COLORS_BY_VALUE = true)
      by (vm_compute; reflexivity).
    rewrite forallb_forall in Hall. specialize (Hall _ H).
    unfold value_round_trip in Hall. cbn [fst snd] in Hall.
    destruct (dict_get COLORS_BY_NAME name) as [rgb' |] eqn:Hname; [| discriminate].
    apply ColorTuple_eqb_eq in Hall. subst. reflexivity.
Qed.

(** The docstring's example: [aqua] and [cyan] share a value, which leads
    back to [cyan]. *)
Lemma colors_by_value_inverts_colors_by_name_witness :
  channel_in_range ("aqua", (0, 255, 255)%Z) = true
  /\ exists last_name,
       by_value_get COLORS_BY_VALUE (0, 255, 255)%Z = Some last_name
       /\ dict_get COLORS_BY_NAME last_name = Some (0, 255, 255)%Z
       /\ String.leb "aqua" last_name = true.
Proof.
  destruct (colors_by_value_inverts_colors_by_name "aqua" (0, 255, 255)%Z) as [H _].
  apply H. reflexivity.
Defined.

(** [repeat_colors] holds exactly the channel values whose two hexadecimal
    digits are equal: the multiples of 17 from 0 to 255. *)
Theorem repeat_colors_are_the_multiples_of_17 :
  forall v : Z,
    In v repeat_colors <-> (0 <= v <= 255 /\ v mod 17 = 0)%Z.
Proof.
  intros v. split.
  - intros H. vm_compute in H.
    repeat (destruct H as [<- | H]; [split; [lia | reflexivity] |]).
    contradiction.
  - intros [Hr Hm].
    assert (Hv : (v = 0 \/ v = 17 \/ v = 34 \/ v = 51 \/ v = 68 \/ v = 85
                  \/ v = 102 \/ v = 119 \/ v = 136 \/ v = 153 \/ v = 170
                  \/ v = 187 \/ v = 204 \/ v = 221 \/ v = 238 \/ v = 255)%Z).
    { Z.div_mod_to_equations. lia. }
    repeat (destruct Hv as [-> | Hv]; [vm_compute; tauto |]).
    subst v. vm_compute. tauto.
Qed.

Section ColorProperties.

Variable float : Type.

(** Every [Color] that [Color.__init__] builds, from a plain value or by
    copying a [Color] built before, keeps a tuple, a list or a string as
    [_original], never a [Color], and stores no [RGBA]: [parse_tuple] and
    [parse_str] return [None]; and copying it once more gives a [Color] with
    the same slots. *)
Theorem built_colors_store_no_rgba :
  forall c : Color float,
    built float c ->
    _rgba float c = None
    /\ ((exists items, _original float c = TupleOrList float items)
        \/ exists s, _original float c = StrValue float s)
    /\ Color__init__ float (ColorValue float c) = Constructed float c.
Proof.
  intros c H. induction H as [value c Hin IH Hinit].
  destruct value as [items | s | c0 | v]; simpl in Hinit.
  - injection Hinit as <-.
    split; [reflexivity |]. split; [left; eexists |]; reflexivity.
  - injection Hinit as <-.
    split; [reflexivity |]. split; [right; eexists |]; reflexivity.
  - injection Hinit as <-. simpl.
    destruct (IH c0 eq_refl) as [Hrgba [Horiginal _]].
    split; [exact Hrgba |]. split; [exact Horiginal | reflexivity].
  - discriminate.
Qed.

(** The constructor fails exactly on a value that is no tuple, list, string
    or [Color], with the reason of line 65. *)
Lemma color_init_rejects (value : ColorType float) (reason : string) :
  Color__init__ float value = ColorError float reason
  <-> (exists v, value = OtherValue float v)
      /\ reason = "value must be a tuple, list or string".
Proof.
  destruct value as [items | s | c0 | v]; simpl; split;
    try discriminate;
    try (intros [[v' Hv] _]; discriminate Hv).
  - intros H. injection H as <-. split; [exists v; reflexivity | reflexivity].
  - intros [_ ->]. reflexivity.
Qed.

(** [Color.__eq__] cannot tell two colors apart: [as_rgb_tuple] returns
    [None] on both sides, so any two colors compare equal. *)
Lemma color_eq_holds_between_any_two_colors (c1 c2 : Color float) :
  Color__eq__ float c1 (ColorValue float c2) = true.
Proof.
  reflexivity.
Qed.

End ColorProperties.

(** [Color(Color('red'))]: the copy keeps the string and no [RGBA]. *)
Lemma built_colors_store_no_rgba_witness :
  _rgba Z (mkColor Z (StrValue Z "red") None) = None
  /\ ((exists items, _original Z (mkColor Z (StrValue Z "red") None)
                     = TupleOrList Z items)
      \/ exists s, _original Z (mkColor Z (StrValue Z "red") None) = StrValue Z s)
  /\ Color__init__ Z (ColorValue Z (mkColor Z (StrValue Z "red") None))
     = Constructed Z (mkColor Z (StrValue Z "red") None).
Proof.
  apply built_colors_store_no_rgba.
  apply (built_by_init Z (ColorValue Z (mkColor Z (StrValue Z "red") None))).
  - intros c0 H. injection H as <-.
    apply (built_by_init Z (StrValue Z "red")).
    + intros c1 H1. discriminate H1.
    + reflexivity.
  - reflexivity.
Defined.
